(** * Internal key format of the LSM engine: [db/dbformat.h]

    A shallow embedding of the internal-key codec, the internal-key
    comparator, the iterator key builder [IterKey] and the range tombstone of
    [db/dbformat.h], with the properties of the format proved over it.

    Conventions of the embedding.
    - [uint64_t] and [size_t] values are [Z] in [0, 2^64); every operation
      that can leave that range has its wrap-around written out ([wrap64]).
    - [ValueType] has [unsigned char] as underlying type and the code casts
      arbitrary bytes to it, so it is a [Z] in [0, 256) with named constants.
    - A [const char*] is a memory object (its bytes) and a position in it; a
      [Slice] is a pointer and a size.  Loads and stores are bounds-checked:
      an access outside its object is the outcome [OutOfBounds].
    - [assert] is compiled in or out by [NDEBUG]; a failing assertion that is
      compiled in is the outcome [AssertionFailure].
    - 64-bit fixed-width integers are little-endian (coqutil's [le_combine]
      and [le_split]). *)

From Stdlib Require Import ZArith List Bool Lia.
From coqutil Require Import Byte Word.LittleEndianList.
Import ListNotations.
Local Open Scope Z_scope.

(** ** Outcomes of running a piece of the code *)

Inductive Outcome (A : Type) : Type :=
| Ok (a : A)
| AssertionFailure
| OutOfBounds.

Arguments Ok {A} a.
Arguments AssertionFailure {A}.
Arguments OutOfBounds {A}.

Definition bind {A B : Type} (m : Outcome A) (f : A -> Outcome B) : Outcome B :=
  match m with
  | Ok a => f a
  | AssertionFailure => AssertionFailure
  | OutOfBounds => OutOfBounds
  end.

Notation "x <- m ;; f" := (bind m (fun x => f))
  (at level 61, m at next level, right associativity).
Notation "m ;;; f" := (bind m (fun _ => f))
  (at level 61, right associativity).

(** ** Machine integers *)

Definition wrap64 (z : Z) : Z := z mod 2 ^ 64.

(** [std::numeric_limits<uint64_t>::max()] *)
Definition uint64_max : Z := 2 ^ 64 - 1.

Definition is_uint64 (z : Z) : Prop := 0 <= z < 2 ^ 64.

(** ** Pointers, slices and bounds-checked memory access *)

Record Ptr : Type := mkPtr { obj : list byte; pos : Z }.

Definition ptr_add (p : Ptr) (n : Z) : Ptr := mkPtr (obj p) (pos p + n).
Definition ptr_sub (p : Ptr) (n : Z) : Ptr := mkPtr (obj p) (pos p - n).

(** Pointer to the first byte of an object. *)
Definition ptr_to (bs : list byte) : Ptr := mkPtr bs 0.

Definition in_bounds (p : Ptr) (n : Z) : bool :=
  (0 <=? pos p) && (pos p + n <=? Z.of_nat (length (obj p))).

(** Reading [n] bytes through [p]; reading no byte touches no memory. *)
Definition load (p : Ptr) (n : Z) : Outcome (list byte) :=
  if n =? 0 then Ok []
  else if in_bounds p n
       then Ok (firstn (Z.to_nat n) (skipn (Z.to_nat (pos p)) (obj p)))
       else OutOfBounds.

(** Writing [bs] into the buffer [buf] from offset [off] on. *)
Definition store (buf : list byte) (off : Z) (bs : list byte)
  : Outcome (list byte) :=
  if Z.of_nat (length bs) =? 0 then Ok buf
  else if (0 <=? off) && (off + Z.of_nat (length bs) <=? Z.of_nat (length buf))
       then Ok (firstn (Z.to_nat off) buf ++ bs
                ++ skipn (Z.to_nat off + length bs) buf)
       else OutOfBounds.

(** [rocksdb/slice.h] is not part of the sources at hand; a [Slice] is the
    pair [(data_, size_)] the code builds with [Slice(ptr, n)]. *)
Record Slice : Type := mkSlice { data_ : Ptr; size_ : Z }.

(** The slice over a whole byte string ([Slice(const std::string&)]). *)
Definition Slice_of (bs : list byte) : Slice :=
  mkSlice (ptr_to bs) (Z.of_nat (length bs)).

(** The bytes a slice denotes, read through its pointer. *)
Definition slice_bytes (s : Slice) : Outcome (list byte) :=
  load (data_ s) (size_ s).

(** ** Fixed-width coding ([util/coding.h]) *)

(** Modelled from the spec: [DecodeFixed64], [EncodeFixed64] and [PutFixed64]
    live in [util/coding.h], which is not part of the sources at hand.  The
    footer is a fixed 64-bit little-endian integer, so decoding reads 8 bytes
    at the pointer and combines them least-significant byte first. *)
Definition DecodeFixed64 (p : Ptr) : Outcome Z :=
  bs <- load p 8 ;; Ok (le_combine bs).

Definition EncodeFixed64 (buf : list byte) (off : Z) (value : Z)
  : Outcome (list byte) :=
  store buf off (le_split 8 value).

Definition PutFixed64 (dst : list byte) (value : Z) : list byte :=
  dst ++ le_split 8 value.

(** ** Value types *)

Definition ValueType : Type := Z.

Definition kTypeDeletion : ValueType := 0x0.
Definition kTypeValue : ValueType := 0x1.
Definition kTypeMerge : ValueType := 0x2.
Definition kTypeLogData : ValueType := 0x3.
Definition kTypeColumnFamilyDeletion : ValueType := 0x4.
Definition kTypeColumnFamilyValue : ValueType := 0x5.
Definition kTypeColumnFamilyMerge : ValueType := 0x6.
Definition kTypeSingleDeletion : ValueType := 0x7.
Definition kTypeColumnFamilySingleDeletion : ValueType := 0x8.
Definition kTypeBeginPrepareXID : ValueType := 0x9.
Definition kTypeEndPrepareXID : ValueType := 0xA.
Definition kTypeCommitXID : ValueType := 0xB.
Definition kTypeRollbackXID : ValueType := 0xC.
Definition kTypeNoop : ValueType := 0xD.
Definition kTypeColumnFamilyRangeDeletion : ValueType := 0xE.
Definition kTypeRangeDeletion : ValueType := 0xF.
Definition kTypeColumnFamilyBlobIndex : ValueType := 0x10.
Definition kTypeTitanBlobIndex : ValueType := 0x11.
Definition kTypeBeginPersistedPrepareXID : ValueType := 0x12.
Definition kTypeBeginUnprepareXID : ValueType := 0x13.
Definition kTypeDeletionWithTimestamp : ValueType := 0x14.
Definition kTypeCommitXIDAndTimestamp : ValueType := 0x15.
Definition kTypeWideColumnEntity : ValueType := 0x16.
Definition kTypeColumnFamilyWideColumnEntity : ValueType := 0x17.
Definition kTypeBlobIndex : ValueType := 0x18.
(** The enumerator after [kTypeBlobIndex = 0x18] takes the next value. *)
Definition kTypeMaxValid : ValueType := 0x19.
Definition kMaxValue : ValueType := 0x7F.

Definition IsValueType (t : ValueType) : bool :=
  (t <=? kTypeMerge) || (kTypeSingleDeletion =? t) || (kTypeBlobIndex =? t)
  || (kTypeDeletionWithTimestamp =? t) || (kTypeWideColumnEntity =? t).

Definition IsExtendedValueType (t : ValueType) : bool :=
  IsValueType t || (t =? kTypeRangeDeletion) || (t =? kTypeMaxValid).

Definition SequenceNumber : Type := Z.

Definition kMaxSequenceNumber : SequenceNumber := Z.shiftl 1 56 - 1.
Definition kDisableGlobalSequenceNumber : SequenceNumber := uint64_max.
Definition kNumInternalBytes : Z := 8.

(** [static_cast<ValueType>(packed & 0xff)] keeps the byte as it is. *)
Definition UnPackSequenceAndType (packed : Z) : Outcome (Z * ValueType) :=
  let seq := Z.shiftr packed 8 in
  let t := Z.land packed 0xff in
  Ok (seq, t).

(** ** Statuses and parsed keys *)

(** [rocksdb/status.h] is not part of the sources at hand: only the code of a
    status matters here, and which of the two corruption reports it is. *)
Inductive CorruptionReport : Type :=
| InternalKeyTooSmall (n : Z)
| CorruptedKey.

Inductive Status : Type :=
| StatusOK
| Corruption (msg : CorruptionReport).

Definition ok (s : Status) : bool :=
  match s with StatusOK => true | Corruption _ => false end.

Record ParsedInternalKey : Type := mkParsedInternalKey {
  user_key : Slice;
  sequence : SequenceNumber;
  type : ValueType
}.

(** The class that holds an internal key in encoded form. *)
Record InternalKey : Type := mkInternalKey { rep_ : list byte }.

(** [InternalKey()] leaves [rep_] empty. *)
Definition InternalKey_empty : InternalKey := mkInternalKey [].

Record RangeTombstone : Type := mkRangeTombstone {
  start_key_ : Slice;
  end_key_ : Slice;
  seq_ : SequenceNumber;
  ts_ : Slice;
  pinned_start_key_ : list byte;
  pinned_end_key_ : list byte
}.

(** [static constexpr char kTsMax[]]: nine [0xff] bytes and the terminator. *)
Definition kTsMax : list byte := repeat Byte.xff 9 ++ [Byte.x00].

(** [strlen]: the number of bytes before the first zero byte. *)
Fixpoint strlen (s : list byte) : Z :=
  match s with
  | [] => 0
  | b :: r => if byte.unsigned b =? 0 then 0 else 1 + strlen r
  end.

Section Codec.

(** [true] when the code is compiled with [NDEBUG], so that [assert]
    expands to nothing. *)
Variable NDEBUG : bool.

Definition assert_ (c : bool) : Outcome unit :=
  if NDEBUG then Ok tt else if c then Ok tt else AssertionFailure.

Definition PackSequenceAndType (seq : Z) (t : ValueType) : Outcome Z :=
  assert_ (seq <=? kMaxSequenceNumber) ;;;
  assert_ (IsExtendedValueType t || (t =? kTypeMaxValid)) ;;;
  Ok (Z.lor (wrap64 (Z.shiftl seq 8)) t).

Definition ExtractUserKey (internal_key : Slice) : Outcome Slice :=
  assert_ (size_ internal_key >=? kNumInternalBytes) ;;;
  Ok (mkSlice (data_ internal_key)
              (wrap64 (size_ internal_key - kNumInternalBytes))).

Definition ExtractInternalKeyFooter (internal_key : Slice) : Outcome Z :=
  assert_ (size_ internal_key >=? kNumInternalBytes) ;;;
  let n := size_ internal_key in
  DecodeFixed64 (ptr_sub (ptr_add (data_ internal_key) n) kNumInternalBytes).

Definition ExtractValueType (internal_key : Slice) : Outcome ValueType :=
  num <- ExtractInternalKeyFooter internal_key ;;
  let c := Z.land num 0xff in
  Ok c.

Definition GetInternalKeySeqno (internal_key : Slice) : Outcome Z :=
  let n := size_ internal_key in
  assert_ (n >=? kNumInternalBytes) ;;;
  num <- DecodeFixed64
           (ptr_sub (ptr_add (data_ internal_key) n) kNumInternalBytes) ;;
  Ok (Z.shiftr num 8).

Definition ParseInternalKey (internal_key : Slice)
    (result : ParsedInternalKey) (log_err_key : bool)
  : Outcome (Status * ParsedInternalKey) :=
  let n := size_ internal_key in
  if n <? kNumInternalBytes
  then Ok (Corruption (InternalKeyTooSmall n), result)
  else
    num <- DecodeFixed64
             (ptr_sub (ptr_add (data_ internal_key) n) kNumInternalBytes) ;;
    let c := Z.land num 0xff in
    let result := mkParsedInternalKey (user_key result) (Z.shiftr num 8) c in
    assert_ (type result <=? kMaxValue) ;;;
    let result :=
      mkParsedInternalKey
        (mkSlice (data_ internal_key) (wrap64 (n - kNumInternalBytes)))
        (sequence result) (type result) in
    if IsExtendedValueType (type result)
    then Ok (StatusOK, result)
    else Ok (Corruption CorruptedKey, result).

(** [UpdateInternalKey(std::string* ikey, seq, t)]: the footer of the string
    is overwritten where it lies. *)
Definition UpdateInternalKey (ikey : list byte) (seq : Z) (t : ValueType)
  : Outcome (list byte) :=
  let ikey_sz := Z.of_nat (length ikey) in
  assert_ (ikey_sz >=? kNumInternalBytes) ;;;
  let newval := Z.lor (wrap64 (Z.shiftl seq 8)) t in
  EncodeFixed64 ikey (ikey_sz - kNumInternalBytes) newval.

(** Modelled from the spec: [AppendInternalKey] is defined in
    [db/dbformat.cc], which is not part of the sources at hand.  Its
    declaration documents the output as [<user_key | seqno + type>]: the
    user-key bytes, then the packed footer as a fixed 64-bit integer. *)
Definition AppendInternalKey (result : list byte) (key : ParsedInternalKey)
  : Outcome (list byte) :=
  uk <- slice_bytes (user_key key) ;;
  packed <- PackSequenceAndType (sequence key) (type key) ;;
  Ok (PutFixed64 (result ++ uk) packed).

(** Modelled from the spec: [AppendInternalKeyWithDifferentTimestamp] is
    defined in [db/dbformat.cc] too.  Its declaration documents the output
    as [<user_provided_key | ts | seqno + type>], the timestamp at the end
    of the user key being replaced by [ts]. *)
Definition AppendInternalKeyWithDifferentTimestamp (result : list byte)
    (key : ParsedInternalKey) (ts : Slice) : Outcome (list byte) :=
  assert_ (size_ (user_key key) >=? size_ ts) ;;;
  uk <- load (data_ (user_key key))
             (wrap64 (size_ (user_key key) - size_ ts)) ;;
  t <- slice_bytes ts ;;
  packed <- PackSequenceAndType (sequence key) (type key) ;;
  Ok (PutFixed64 (result ++ uk ++ t) packed).

(** *** [class InternalKey] *)

Definition InternalKey_new (_user_key : Slice) (s : SequenceNumber)
    (t : ValueType) : Outcome InternalKey :=
  rep <- AppendInternalKey [] (mkParsedInternalKey _user_key s t) ;;
  Ok (mkInternalKey rep).

Definition InternalKey_new_ts (_user_key : Slice) (s : SequenceNumber)
    (t : ValueType) (ts : Slice) : Outcome InternalKey :=
  rep <- AppendInternalKeyWithDifferentTimestamp
           [] (mkParsedInternalKey _user_key s t) ts ;;
  Ok (mkInternalKey rep).

Definition SetMaxPossibleForUserKey (k : InternalKey) (_user_key : Slice)
  : Outcome InternalKey :=
  rep <- AppendInternalKey (rep_ k) (mkParsedInternalKey _user_key 0 0) ;;
  Ok (mkInternalKey rep).

(** [kValueTypeForSeek] is defined in [db/dbformat.cc], which is not part
    of the sources at hand; it is a parameter of the operation. *)
Definition SetMinPossibleForUserKey (kValueTypeForSeek : ValueType)
    (k : InternalKey) (_user_key : Slice) : Outcome InternalKey :=
  rep <- AppendInternalKey (rep_ k)
           (mkParsedInternalKey _user_key kMaxSequenceNumber
                                kValueTypeForSeek) ;;
  Ok (mkInternalKey rep).

Definition Encode (k : InternalKey) : Outcome Slice :=
  assert_ (negb (Z.of_nat (length (rep_ k)) =? 0)) ;;;
  Ok (Slice_of (rep_ k)).

(** *** [struct RangeTombstone] *)

Definition RangeTombstone_new (sk ek : Slice) (sn : SequenceNumber)
  : RangeTombstone :=
  mkRangeTombstone sk ek sn (mkSlice (ptr_to []) 0) [] [].

Definition RangeTombstone_new_ts (sk ek : Slice) (sn : SequenceNumber)
    (ts : Slice) : Outcome RangeTombstone :=
  assert_ (negb (size_ ts =? 0)) ;;;
  sk_prefix <- load (data_ sk) (wrap64 (size_ sk - size_ ts)) ;;
  ts_bytes <- slice_bytes ts ;;
  let pinned_start_key := ([] ++ sk_prefix) ++ ts_bytes in
  ek_prefix <- load (data_ ek) (wrap64 (size_ ek - size_ ts)) ;;
  let pinned_end_key := ([] ++ ek_prefix) ++ ts_bytes in
  Ok (mkRangeTombstone (Slice_of pinned_start_key) (Slice_of pinned_end_key)
                       sn ts pinned_start_key pinned_end_key).

Definition SerializeKey (t : RangeTombstone) : Outcome InternalKey :=
  InternalKey_new (start_key_ t) (seq_ t) kTypeRangeDeletion.

Definition SerializeEndKey (t : RangeTombstone) : Outcome InternalKey :=
  if negb (size_ (ts_ t) =? 0) then
    if size_ (ts_ t) <=? strlen kTsMax then
      InternalKey_new_ts (end_key_ t) kMaxSequenceNumber kTypeRangeDeletion
                         (mkSlice (ptr_to kTsMax) (size_ (ts_ t)))
    else
      InternalKey_new_ts (end_key_ t) kMaxSequenceNumber kTypeRangeDeletion
                         (Slice_of (repeat Byte.xff (Z.to_nat (size_ (ts_ t)))))
  else InternalKey_new (end_key_ t) kMaxSequenceNumber kTypeRangeDeletion.

(** *** [class InternalKeyComparator] *)

Section Comparator.

(** The user comparator is supplied from outside: a three-way comparison
    of user-key bytes.  [user_comparator_.Compare] reads both slices. *)
Variable user_compare : list byte -> list byte -> Z.

Definition user_comparator_Compare (a b : Slice) : Outcome Z :=
  x <- slice_bytes a ;;
  y <- slice_bytes b ;;
  Ok (user_compare x y).

Definition Compare (akey bkey : Slice) : Outcome Z :=
  ua <- ExtractUserKey akey ;;
  ub <- ExtractUserKey bkey ;;
  r <- user_comparator_Compare ua ub ;;
  if r =? 0 then
    anum <- DecodeFixed64 (ptr_sub (ptr_add (data_ akey) (size_ akey))
                                   kNumInternalBytes) ;;
    bnum <- DecodeFixed64 (ptr_sub (ptr_add (data_ bkey) (size_ bkey))
                                   kNumInternalBytes) ;;
    if anum >? bnum then Ok (-1)
    else if anum <? bnum then Ok 1
    else Ok r
  else Ok r.

(** [Compare(const InternalKey&, const InternalKey&)] *)
Definition Compare_InternalKey (a b : InternalKey) : Outcome Z :=
  ea <- Encode a ;;
  eb <- Encode b ;;
  Compare ea eb.

(** The overload of [Compare] that takes global sequence numbers. *)
Definition Compare_global_seqno (a : Slice) (a_global_seqno : SequenceNumber)
    (b : Slice) (b_global_seqno : SequenceNumber) : Outcome Z :=
  ua <- ExtractUserKey a ;;
  ub <- ExtractUserKey b ;;
  r <- user_comparator_Compare ua ub ;;
  if r =? 0 then
    a_footer <-
      (if a_global_seqno =? kDisableGlobalSequenceNumber
       then ExtractInternalKeyFooter a
       else t <- ExtractValueType a ;;
            PackSequenceAndType a_global_seqno t) ;;
    b_footer <-
      (if b_global_seqno =? kDisableGlobalSequenceNumber
       then ExtractInternalKeyFooter b
       else t <- ExtractValueType b ;;
            PackSequenceAndType b_global_seqno t) ;;
    if a_footer >? b_footer then Ok (-1)
    else if a_footer <? b_footer then Ok 1
    else Ok r
  else Ok r.

End Comparator.

End Codec.

(** ** [class IterKey] *)

(** The storage [buf_] can point to: the inline array [space_] of the object
    or a block obtained from [new char[]]. *)
Inductive BufLoc : Type :=
| Space
| Heap (id : nat).

(** What [key_] can point to: a position in storage of the [IterKey] itself,
    or memory that belongs to somebody else. *)
Inductive KeyPtr : Type :=
| Own (l : BufLoc) (off : Z)
| Ext (p : Ptr).

Definition BufLoc_eqb (a b : BufLoc) : bool :=
  match a, b with
  | Space, Space => true
  | Heap i, Heap j => Nat.eqb i j
  | _, _ => false
  end.

Definition keyptr_add (p : KeyPtr) (n : Z) : KeyPtr :=
  match p with
  | Own l off => Own l (off + n)
  | Ext q => Ext (ptr_add q n)
  end.

(** [heap_] holds the bytes of the one heap block the object owns while
    [buf_] is [Heap id]; [next_id] names the block the next [new char[]]
    returns.  A [Heap] pointer with another id points to a deleted block. *)
Record IterKey : Type := mkIterKey {
  buf_ : BufLoc;
  key_ : KeyPtr;
  key_size_ : Z;
  buf_size_ : Z;
  space_ : list byte;
  is_user_key_ : bool;
  heap_ : list byte;
  next_id : nat
}.

Definition sizeof_space_ : Z := 39.

(** A slice whose pointer may point into the [IterKey] itself. *)
Definition KeySlice : Type := (KeyPtr * Z)%type.

Section IterKeyOps.

Variable NDEBUG : bool.

(** The bytes found in memory that was just allocated, by offset. *)
Variable uninit : nat -> byte.

Definition uninit_bytes (n : Z) : list byte :=
  map uninit (seq 0 (Z.to_nat n)).

(** [IterKey()] *)
Definition IterKey_new : IterKey :=
  mkIterKey Space (Own Space 0) 0 sizeof_space_
            (uninit_bytes sizeof_space_) true [] 0.

(** The bytes [buf_] points to. *)
Definition buf_mem (k : IterKey) : list byte :=
  match buf_ k with Space => space_ k | Heap _ => heap_ k end.

Definition set_buf_mem (k : IterKey) (bs : list byte) : IterKey :=
  match buf_ k with
  | Space => mkIterKey (buf_ k) (key_ k) (key_size_ k) (buf_size_ k) bs
                       (is_user_key_ k) (heap_ k) (next_id k)
  | Heap _ => mkIterKey (buf_ k) (key_ k) (key_size_ k) (buf_size_ k)
                        (space_ k) (is_user_key_ k) bs (next_id k)
  end.

(** [key_ = p] *)
Definition set_key_ (k : IterKey) (p : KeyPtr) : IterKey :=
  mkIterKey (buf_ k) p (key_size_ k) (buf_size_ k) (space_ k)
            (is_user_key_ k) (heap_ k) (next_id k).

(** [key_size_ = n] *)
Definition set_key_size_ (k : IterKey) (n : Z) : IterKey :=
  mkIterKey (buf_ k) (key_ k) n (buf_size_ k) (space_ k) (is_user_key_ k)
            (heap_ k) (next_id k).

(** [buf_ = p; buf_size_ = n] for a block [p] fresh from [new char[n]]
    whose bytes are [bs]; the block [buf_] pointed to before is gone. *)
Definition set_buf_new (k : IterKey) (bs : list byte) (n : Z) : IterKey :=
  mkIterKey (Heap (next_id k)) (key_ k) (key_size_ k) n (space_ k)
            (is_user_key_ k) bs (S (next_id k)).

(** Reading [n] bytes through a pointer, in the memory as [k] has it. *)
Definition load_key (k : IterKey) (p : KeyPtr) (n : Z)
  : Outcome (list byte) :=
  match p with
  | Ext q => load q n
  | Own Space off => load (mkPtr (space_ k) off) n
  | Own (Heap id) off =>
      if BufLoc_eqb (buf_ k) (Heap id) then load (mkPtr (heap_ k) off) n
      else if n =? 0 then Ok [] else OutOfBounds
  end.

(** [memcpy(buf_ + off, src, n)] *)
Definition memcpy_buf (k : IterKey) (off : Z) (src : KeyPtr) (n : Z)
  : Outcome IterKey :=
  bs <- load_key k src n ;;
  m <- store (buf_mem k) off bs ;;
  Ok (set_buf_mem k m).

(** [key_ != buf_] *)
Definition IsKeyPinned (k : IterKey) : bool :=
  match key_ k with
  | Own l off => negb (BufLoc_eqb l (buf_ k) && (off =? 0))
  | Ext _ => true
  end.

Definition IsUserKey (k : IterKey) : bool := is_user_key_ k.

(** [GetKey()]: the slice [(key_, key_size_)]. *)
Definition GetKey (k : IterKey) : KeySlice := (key_ k, key_size_ k).

(** The bytes of the slice [GetKey()] returns. *)
Definition key_bytes (k : IterKey) : Outcome (list byte) :=
  load_key k (key_ k) (key_size_ k).

(** [delete[] buf_; buf_ = space_] happens when [buf_ != space_]; either
    way [buf_] is [space_] afterwards and no heap block is owned. *)
Definition ResetBuffer (k : IterKey) : IterKey :=
  let buf := if negb (BufLoc_eqb (buf_ k) Space) then Space else buf_ k in
  mkIterKey buf (key_ k) 0 sizeof_space_ (space_ k) (is_user_key_ k)
            (heap_ k) (next_id k).

(** Modelled from the spec: [EnlargeBuffer] is defined in
    [db/dbformat.cc], which is not part of the sources at hand.  Growth
    reallocates to exactly the needed size and frees any previous heap
    buffer: the buffer is reset, then [buf_] is a new block of [key_size]
    bytes.  [key_] is not assigned. *)
Definition EnlargeBuffer (k : IterKey) (key_size : Z) : IterKey :=
  set_buf_new (ResetBuffer k) (uninit_bytes key_size) key_size.

Definition EnlargeBufferIfNeeded (k : IterKey) (key_size : Z) : IterKey :=
  if key_size >? buf_size_ k then EnlargeBuffer k key_size else k.

(** In the second branch the new block [p] receives the shared bytes
    ([memcpy(p, key_, shared_len)]) before the old block is deleted and
    [buf_] becomes [p]. *)
Definition TrimAppend (k : IterKey) (shared_len : Z)
    (non_shared_data : Ptr) (non_shared_len : Z) : Outcome IterKey :=
  assert_ NDEBUG (shared_len <=? key_size_ k) ;;;
  let total_size := wrap64 (shared_len + non_shared_len) in
  k <- (if IsKeyPinned k then
          let k := EnlargeBufferIfNeeded k total_size in
          memcpy_buf k 0 (key_ k) shared_len
        else if total_size >? buf_size_ k then
          bs <- load_key k (key_ k) shared_len ;;
          p <- store (uninit_bytes total_size) 0 bs ;;
          Ok (set_buf_new k p total_size)
        else Ok k) ;;
  k <- memcpy_buf k shared_len (Ext non_shared_data) non_shared_len ;;
  let k := set_key_ k (Own (buf_ k) 0) in
  Ok (set_key_size_ k total_size).

Definition SetKeyImpl (k : IterKey) (key : Slice) (copy : bool)
  : Outcome (IterKey * KeySlice) :=
  let size := size_ key in
  k <- (if copy then
          let k := EnlargeBufferIfNeeded k size in
          k <- memcpy_buf k 0 (Ext (data_ key)) size ;;
          Ok (set_key_ k (Own (buf_ k) 0))
        else Ok (set_key_ k (Ext (data_ key)))) ;;
  let k := set_key_size_ k size in
  Ok (k, GetKey k).

Definition SetKey (k : IterKey) (key : Slice) (copy : bool)
  : Outcome (IterKey * KeySlice) :=
  SetKeyImpl k key copy.

Definition MaybeAddKeyPartsWithTimestamp (slice_data : KeyPtr)
    (slice_sz : Z) (add_timestamp : bool) (left_sz : Z)
    (min_timestamp : list byte) (key_parts : list KeySlice)
    (ts_added : bool) : Outcome (list KeySlice * bool) :=
  if add_timestamp && negb ts_added then
    assert_ NDEBUG (slice_sz >=? left_sz) ;;;
    Ok (key_parts
          ++ [(slice_data, left_sz)]
          ++ [(Ext (ptr_to min_timestamp),
               Z.of_nat (length min_timestamp))]
          ++ [(keyptr_add slice_data left_sz, wrap64 (slice_sz - left_sz))],
        true)
  else Ok (key_parts ++ [(slice_data, slice_sz)], ts_added).

(** [Slice(const SliceParts&, std::string* buf)]: the parts are read one
    after the other and concatenated. *)
Fixpoint concat_parts (k : IterKey) (parts : list KeySlice)
  : Outcome (list byte) :=
  match parts with
  | [] => Ok []
  | (p, n) :: rest =>
      bs <- load_key k p n ;;
      r <- concat_parts k rest ;;
      Ok (bs ++ r)
  end.

Definition TrimAppendWithTimestamp (k : IterKey) (shared_len : Z)
    (non_shared_data : Ptr) (non_shared_len : Z) (ts_sz : Z)
  : Outcome IterKey :=
  let kTsMin := repeat Byte.x00 (Z.to_nat ts_sz) in
  key_parts_with_ts <-
    (if IsUserKey k then
       Ok [(key_ k, shared_len);
           (Ext non_shared_data, non_shared_len);
           (Ext (ptr_to kTsMin), Z.of_nat (length kTsMin))]
     else
       assert_ NDEBUG (wrap64 (shared_len + non_shared_len)
                       >=? kNumInternalBytes) ;;;
       let user_key_len := wrap64 (key_size_ k - kNumInternalBytes) in
       let sharable_user_key_len := wrap64 (user_key_len - ts_sz) in
       let shared_user_key_len := Z.min shared_len sharable_user_key_len in
       let shared_internal_bytes_len :=
         wrap64 (shared_len - shared_user_key_len) in
       let key_parts_with_ts := [] in
       let ts_added := false in
       r1 <- MaybeAddKeyPartsWithTimestamp
               (key_ k) shared_user_key_len
               (wrap64 (shared_internal_bytes_len + non_shared_len)
                <? kNumInternalBytes)
               (wrap64 (shared_len + non_shared_len - kNumInternalBytes))
               kTsMin key_parts_with_ts ts_added ;;
       r2 <- MaybeAddKeyPartsWithTimestamp
               (keyptr_add (key_ k) user_key_len) shared_internal_bytes_len
               (non_shared_len <? kNumInternalBytes)
               (wrap64 (shared_internal_bytes_len + non_shared_len
                        - kNumInternalBytes))
               kTsMin (fst r1) (snd r1) ;;
       r3 <- MaybeAddKeyPartsWithTimestamp
               (Ext non_shared_data) non_shared_len
               (non_shared_len >=? kNumInternalBytes)
               (wrap64 (non_shared_len - kNumInternalBytes))
               kTsMin (fst r2) (snd r2) ;;
       assert_ NDEBUG (snd r3) ;;;
       Ok (fst r3)) ;;
  key_with_ts <- concat_parts k key_parts_with_ts ;;
  r <- SetKey k (Slice_of key_with_ts) true ;;
  Ok (fst r).

(** [IterKey::UpdateInternalKey(seq, t, ts)]; [ts] is [None] for the null
    pointer. *)
Definition IterKey_UpdateInternalKey (k : IterKey) (seq : Z) (t : ValueType)
    (ts : option Slice) : Outcome IterKey :=
  assert_ NDEBUG (negb (IsKeyPinned k)) ;;;
  assert_ NDEBUG (key_size_ k >=? kNumInternalBytes) ;;;
  k <- match ts with
       | Some ts =>
           assert_ NDEBUG (key_size_ k
                           >=? wrap64 (kNumInternalBytes + size_ ts)) ;;;
           memcpy_buf k (wrap64 (key_size_ k - kNumInternalBytes - size_ ts))
                      (Ext (data_ ts)) (size_ ts)
       | None => Ok k
       end ;;
  let newval := Z.lor (wrap64 (Z.shiftl seq 8)) t in
  m <- EncodeFixed64 (buf_mem k) (wrap64 (key_size_ k - kNumInternalBytes))
                     newval ;;
  Ok (set_buf_mem k m).

End IterKeyOps.

(** ** Vocabulary of the statements *)

(** A byte string that a [size_t] can measure. *)
Definition addressable (bs : list byte) : Prop :=
  Z.of_nat (length bs) < 2 ^ 64.

(** The two parts of an encoded internal key of at least 8 bytes. *)
Definition user_key_bytes (ikey : list byte) : list byte :=
  firstn (length ikey - 8) ikey.

Definition footer_bytes (ikey : list byte) : list byte :=
  skipn (length ikey - 8) ikey.

Definition footer_of (ikey : list byte) : Z := le_combine (footer_bytes ikey).
Definition seq_of (ikey : list byte) : Z := Z.shiftr (footer_of ikey) 8.
Definition tag_of (ikey : list byte) : Z := Z.land (footer_of ikey) 0xff.

(** The encoding of [(user key, seq, tag)]: user key, then the footer. *)
Definition encode (uk : list byte) (seq : Z) (t : ValueType) : list byte :=
  uk ++ le_split 8 (Z.lor (Z.shiftl seq 8) t).

(** A user comparator to run the statements on: bytewise order. *)
Fixpoint bytewise_compare (a b : list byte) : Z :=
  match a, b with
  | [], [] => 0
  | [], _ :: _ => -1
  | _ :: _, [] => 1
  | x :: a', y :: b' =>
      if byte.unsigned x <? byte.unsigned y then -1
      else if byte.unsigned y <? byte.unsigned x then 1
      else bytewise_compare a' b'
  end.

(** Bytes of an ASCII text. *)
Definition bytes_of_Zs (l : list Z) : list byte := map byte.of_Z l.

(** The reading of "[ParseInternalKey] reports Corruption exactly when the
    key is shorter than 8 bytes or its tag is not an extended value type",
    for a build with or without assertions. *)
Definition Corruption_iff_short_or_bad_tag (NDEBUG : bool) (bytes : list byte)
  : Prop :=
  forall (result : ParsedInternalKey) (log_err_key : bool),
    (exists msg r,
        ParseInternalKey NDEBUG (Slice_of bytes) result log_err_key
        = Ok (Corruption msg, r))
    <-> ((length bytes < 8)%nat \/ IsExtendedValueType (tag_of bytes) = false).

(** Sample keys. *)
Definition key_foo_7_value : list byte :=
  bytes_of_Zs [102; 111; 111] ++ le_split 8 (Z.lor (Z.shiftl 7 8) kTypeValue).

Definition key_foo_9_value : list byte :=
  bytes_of_Zs [102; 111; 111] ++ le_split 8 (Z.lor (Z.shiftl 9 8) kTypeValue).

(** A key of 8 bytes whose tag byte is [0x80]. *)
Definition key_tag_0x80 : list byte :=
  bytes_of_Zs [0x80; 0; 0; 0; 0; 0; 0; 0].

Definition empty_parsed_key : ParsedInternalKey :=
  mkParsedInternalKey (Slice_of []) kMaxSequenceNumber kTypeDeletion.

(** The three-way result of [InternalKeyComparator::Compare], computed from
    the parts of the two keys. *)
Definition internal_order (user_compare : list byte -> list byte -> Z)
    (a b : list byte) : Z :=
  let r := user_compare (user_key_bytes a) (user_key_bytes b) in
  if r =? 0 then
    if footer_of a >? footer_of b then -1
    else if footer_of a <? footer_of b then 1
    else r
  else r.

(** The reading of "the key of [SetMaxPossibleForUserKey(uk)] sorts after the
    key [(uk, seq, t)]": the comparison of the former with the latter is
    positive. *)
Definition MaxPossible_sorts_after (NDEBUG : bool)
    (user_compare : list byte -> list byte -> Z)
    (uk : list byte) (seq : SequenceNumber) (t : ValueType) : Prop :=
  exists kmax r,
    SetMaxPossibleForUserKey NDEBUG InternalKey_empty (Slice_of uk) = Ok kmax
    /\ Compare NDEBUG user_compare
         (Slice_of (rep_ kmax)) (Slice_of (encode uk seq t)) = Ok r
    /\ r > 0.

(** A user comparator for keys that end in a timestamp of [ts_sz] bytes:
    bytewise on the part before the timestamp, then larger timestamps
    first. *)
Definition bytewise_compare_with_ts (ts_sz : nat) (a b : list byte) : Z :=
  let r := bytewise_compare (firstn (length a - ts_sz) a)
                            (firstn (length b - ts_sz) b) in
  if r =? 0
  then bytewise_compare (skipn (length b - ts_sz) b)
                        (skipn (length a - ts_sz) a)
  else r.

(** Sample user keys and tombstones. *)
Definition user_key_a : list byte := bytes_of_Zs [97].
Definition user_key_m : list byte := bytes_of_Zs [109].
Definition user_key_m_ts : list byte := bytes_of_Zs [109; 0; 0; 0; 42].

Definition tombstone_a_m_5 : RangeTombstone :=
  RangeTombstone_new (Slice_of user_key_a) (Slice_of user_key_m) 5.

(** [holds k kb]: the key builder [k] holds the key bytes [kb], either in
    its own buffer or pinned in memory outside the object, and its buffer
    bookkeeping is in order. *)
Definition holds (k : IterKey) (kb : list byte) : Prop :=
  key_bytes k = Ok kb
  /\ key_size_ k = Z.of_nat (length kb)
  /\ buf_size_ k = Z.of_nat (length (buf_mem k))
  /\ buf_size_ k < 2 ^ 64
  /\ (IsKeyPinned k = true -> exists p, key_ k = Ext p).

(** Memory just allocated is filled with zero bytes in the sample runs. *)
Definition zeroed : nat -> byte := fun _ => Byte.x00.

(** A key builder that owns the internal key [("foo", 7, kTypeValue)] in its
    inline buffer. *)
Definition iter_key_foo_7 : IterKey :=
  mkIterKey Space (Own Space 0) 11 sizeof_space_
            (key_foo_7_value ++ repeat Byte.x00 28) false [] 0.

(** A key builder whose key is pinned: it points to the bytes of
    [("foo", 7, kTypeValue)] in memory that is not its own. *)
Definition iter_key_pinned_foo_7 : IterKey :=
  mkIterKey Space (Ext (ptr_to key_foo_7_value)) 11 sizeof_space_
            (repeat Byte.x00 39) false [] 0.

(** *** Delta encoding of a key sequence

    The block format that feeds [TrimAppend] is outside [db/dbformat.h]; its
    standard delta of a key against the previous key is the length of their
    common prefix and the bytes of the key after that prefix. *)
Fixpoint shared_prefix_len (a b : list byte) : nat :=
  match a, b with
  | x :: a', y :: b' =>
      if Byte.eqb x y then S (shared_prefix_len a' b') else 0%nat
  | _, _ => 0%nat
  end.

Definition delta_of (prev key : list byte) : Z * list byte :=
  let shared := shared_prefix_len prev key in
  (Z.of_nat shared, skipn shared key).

Fixpoint delta_sequence (prev : list byte) (keys : list (list byte))
  : list (Z * list byte) :=
  match keys with
  | [] => []
  | key :: rest => delta_of prev key :: delta_sequence key rest
  end.

(** Feeding the deltas to a key builder, one [TrimAppend] per delta, and
    collecting the key it holds after each step. *)
Fixpoint replay (NDEBUG : bool) (uninit : nat -> byte) (k : IterKey)
    (deltas : list (Z * list byte)) : Outcome (list (list byte)) :=
  match deltas with
  | [] => Ok []
  | (shared_len, non_shared) :: rest =>
      k <- TrimAppend NDEBUG uninit k shared_len (ptr_to non_shared)
                      (Z.of_nat (length non_shared)) ;;
      key <- key_bytes k ;;
      keys <- replay NDEBUG uninit k rest ;;
      Ok (key :: keys)
  end.

(** A sorted list of user keys. *)
Definition sorted_keys : list (list byte) :=
  [bytes_of_Zs [97; 112; 112];
   bytes_of_Zs [97; 112; 112; 108; 101];
   bytes_of_Zs [97; 112; 114; 105; 99; 111; 116];
   bytes_of_Zs [98]].

(** A key of 20 bytes: 8 bytes of user key, a timestamp of 4 bytes and the
    footer of [(7, kTypeValue)]; and a key builder that owns it. *)
Definition key_20_user : list byte :=
  bytes_of_Zs [97; 98; 99; 100; 101; 102; 103; 104].

Definition key_20_footer : list byte :=
  le_split 8 (Z.lor (Z.shiftl 7 8) kTypeValue).

Definition key_20 : list byte :=
  key_20_user ++ bytes_of_Zs [1; 2; 3; 4] ++ key_20_footer.

Definition iter_key_20 : IterKey :=
  mkIterKey Space (Own Space 0) 20 sizeof_space_
            (key_20 ++ repeat Byte.x00 19) false [] 0.

(** The internal key [ikey] with [ts_sz] zero bytes between its user key and
    its footer. *)
Definition with_min_timestamp (ikey : list byte) (ts_sz : Z) : list byte :=
  user_key_bytes ikey ++ repeat Byte.x00 (Z.to_nat ts_sz)
  ++ footer_bytes ikey.

(** A tombstone for the range from ["a"] to ["m"] at sequence 5 whose keys
    carry a timestamp of 4 bytes. *)
Definition user_key_a_ts : list byte := bytes_of_Zs [97; 0; 0; 0; 42].
Definition timestamp_42 : list byte := bytes_of_Zs [0; 0; 0; 42].

(** ** The rest of the header *)

(** [set_is_user_key_]: [is_user_key_ = b] *)
Definition set_is_user_key_ (k : IterKey) (b : bool) : IterKey :=
  mkIterKey (buf_ k) (key_ k) (key_size_ k) (buf_size_ k) (space_ k) b
            (heap_ k) (next_id k).

(** [ParsedInternalKey()] *)
Definition ParsedInternalKey_default : ParsedInternalKey :=
  mkParsedInternalKey (mkSlice (ptr_to []) 0) kMaxSequenceNumber kTypeDeletion.

(** [ParsedInternalKey::clear()] *)
Definition ParsedInternalKey_clear (p : ParsedInternalKey)
  : ParsedInternalKey :=
  mkParsedInternalKey (mkSlice (ptr_to []) 0) 0 kTypeDeletion.

(** [InternalKey::Clear()] *)
Definition InternalKey_Clear (k : InternalKey) : InternalKey :=
  mkInternalKey [].

(** [InternalKey::size()] *)
Definition InternalKey_size (k : InternalKey) : Z :=
  Z.of_nat (length (rep_ k)).

(** [InternalKey::DecodeFrom(s)]: [rep_.assign(s.data(), s.size())] *)
Definition DecodeFrom (k : InternalKey) (s : Slice) : Outcome InternalKey :=
  bs <- slice_bytes s ;; Ok (mkInternalKey bs).

(** [RangeTombstone(ParsedInternalKey parsed_key, Slice value)] *)
Definition RangeTombstone_of_parsed (parsed_key : ParsedInternalKey)
    (value : Slice) : RangeTombstone :=
  mkRangeTombstone (user_key parsed_key) value (sequence parsed_key)
                   (mkSlice (ptr_to []) 0) [] [].

Section CodecRest.

Variable NDEBUG : bool.

Definition InternalKeyEncodingLength (key : ParsedInternalKey) : Z :=
  wrap64 (size_ (user_key key) + kNumInternalBytes).

(** [Slice::remove_suffix(n)] of [rocksdb/slice.h], which is not part of the
    sources at hand: it asserts [n <= size()] and takes [n] off the size. *)
Definition remove_suffix (s : Slice) (n : Z) : Outcome Slice :=
  assert_ NDEBUG (n <=? size_ s) ;;;
  Ok (mkSlice (data_ s) (wrap64 (size_ s - n))).

Definition ExtractUserKeyAndStripTimestamp (internal_key : Slice) (ts_sz : Z)
  : Outcome Slice :=
  let ret := internal_key in
  remove_suffix ret (wrap64 (kNumInternalBytes + ts_sz)).

Definition StripTimestampFromUserKey (user_key : Slice) (ts_sz : Z)
  : Outcome Slice :=
  let ret := user_key in
  remove_suffix ret ts_sz.

Definition ExtractTimestampFromUserKey (user_key : Slice) (ts_sz : Z)
  : Outcome Slice :=
  assert_ NDEBUG (size_ user_key >=? ts_sz) ;;;
  Ok (mkSlice (ptr_sub (ptr_add (data_ user_key) (size_ user_key)) ts_sz)
              ts_sz).

Definition ExtractTimestampFromKey (internal_key : Slice) (ts_sz : Z)
  : Outcome Slice :=
  let key_size := size_ internal_key in
  assert_ NDEBUG (key_size >=? wrap64 (kNumInternalBytes + ts_sz)) ;;;
  Ok (mkSlice (ptr_sub (ptr_sub (ptr_add (data_ internal_key) key_size) ts_sz)
                       kNumInternalBytes)
              ts_sz).

(** [ParsedInternalKey::SetTimestamp(ts)] writes through the pointer of
    [user_key]: the object that pointer points into holds [ts] afterwards,
    and the key is returned with its pointer into that object. *)
Definition SetTimestamp (p : ParsedInternalKey) (ts : Slice)
  : Outcome ParsedInternalKey :=
  assert_ NDEBUG (size_ ts <=? size_ (user_key p)) ;;;
  let addr := ptr_sub (ptr_add (data_ (user_key p)) (size_ (user_key p)))
                      (size_ ts) in
  bs <- slice_bytes ts ;;
  m <- store (obj addr) (pos addr) bs ;;
  Ok (mkParsedInternalKey
        (mkSlice (mkPtr m (pos (data_ (user_key p)))) (size_ (user_key p)))
        (sequence p) (type p)).

Definition GetTimestamp (p : ParsedInternalKey) (ts_sz : Z) : Outcome Slice :=
  assert_ NDEBUG (ts_sz <=? size_ (user_key p)) ;;;
  let addr := ptr_sub (ptr_add (data_ (user_key p)) (size_ (user_key p)))
                      ts_sz in
  Ok (mkSlice addr ts_sz).

(** Modelled from the spec: [AppendInternalKeyFooter] is defined in
    [db/dbformat.cc], which is not part of the sources at hand.  Its
    declaration documents the output as [<user_key | seqno + type>] for a
    string that holds [<user_key>]: the packed footer is put at the end. *)
Definition AppendInternalKeyFooter (result : list byte) (s : SequenceNumber)
    (t : ValueType) : Outcome (list byte) :=
  packed <- PackSequenceAndType NDEBUG s t ;;
  Ok (PutFixed64 result packed).

(** *** The rest of [class InternalKey] *)

Definition Valid (k : InternalKey) : Outcome bool :=
  let parsed := ParsedInternalKey_default in
  r <- ParseInternalKey NDEBUG (Slice_of (rep_ k)) parsed false ;;
  Ok (ok (fst r)).

(** [InternalKey::user_key()] *)
Definition InternalKey_user_key (k : InternalKey) : Outcome Slice :=
  ExtractUserKey NDEBUG (Slice_of (rep_ k)).

(** [SetFrom(p)]: [rep_.clear()], then the key is appended. *)
Definition SetFrom (k : InternalKey) (p : ParsedInternalKey)
  : Outcome InternalKey :=
  let k := InternalKey_Clear k in
  rep <- AppendInternalKey NDEBUG (rep_ k) p ;;
  Ok (mkInternalKey rep).

(** [SetFrom(p, ts)] *)
Definition SetFrom_ts (k : InternalKey) (p : ParsedInternalKey) (ts : Slice)
  : Outcome InternalKey :=
  let k := InternalKey_Clear k in
  rep <- AppendInternalKeyWithDifferentTimestamp NDEBUG (rep_ k) p ts ;;
  Ok (mkInternalKey rep).

(** [InternalKey::Set(_user_key, s, t)] *)
Definition InternalKey_Set (k : InternalKey) (_user_key : Slice)
    (s : SequenceNumber) (t : ValueType) : Outcome InternalKey :=
  SetFrom k (mkParsedInternalKey _user_key s t).

(** [InternalKey::Set(_user_key_with_ts, s, t, ts)] *)
Definition InternalKey_Set_ts (k : InternalKey) (_user_key_with_ts : Slice)
    (s : SequenceNumber) (t : ValueType) (ts : Slice) : Outcome InternalKey :=
  let pik := mkParsedInternalKey _user_key_with_ts s t in
  SetFrom_ts k pik ts.

Definition ConvertFromUserKey (k : InternalKey) (s : SequenceNumber)
    (t : ValueType) : Outcome InternalKey :=
  rep <- AppendInternalKeyFooter (rep_ k) s t ;;
  Ok (mkInternalKey rep).

(** *** The rest of [struct RangeTombstone] *)

Definition Serialize (t : RangeTombstone) : Outcome (InternalKey * Slice) :=
  key <- InternalKey_new NDEBUG (start_key_ t) (seq_ t) kTypeRangeDeletion ;;
  Ok (key, end_key_ t).

(** *** The rest of [class InternalKeyComparator] *)

Section ComparatorRest.

Variable user_compare : list byte -> list byte -> Z.

Definition Equal (a b : Slice) : Outcome bool :=
  r <- Compare NDEBUG user_compare a b ;;
  Ok (r =? 0).

Definition CompareKeySeq (akey bkey : Slice) : Outcome Z :=
  ua <- ExtractUserKey NDEBUG akey ;;
  ub <- ExtractUserKey NDEBUG bkey ;;
  r <- user_comparator_Compare user_compare ua ub ;;
  if r =? 0 then
    a <- DecodeFixed64 (ptr_sub (ptr_add (data_ akey) (size_ akey))
                                kNumInternalBytes) ;;
    b <- DecodeFixed64 (ptr_sub (ptr_add (data_ bkey) (size_ bkey))
                                kNumInternalBytes) ;;
    let anum := Z.shiftr a 8 in
    let bnum := Z.shiftr b 8 in
    if anum >? bnum then Ok (-1)
    else if anum <? bnum then Ok 1
    else Ok r
  else Ok r.

(** [CompareKeySeq(const ParsedInternalKey& a, const Slice& b)] *)
Definition CompareKeySeq_parsed (a : ParsedInternalKey) (b : Slice)
  : Outcome Z :=
  ub <- ExtractUserKey NDEBUG b ;;
  r <- user_comparator_Compare user_compare (user_key a) ub ;;
  if r =? 0 then
    let anum := sequence a in
    b' <- DecodeFixed64 (ptr_sub (ptr_add (data_ b) (size_ b))
                                 kNumInternalBytes) ;;
    let bnum := Z.shiftr b' 8 in
    if anum >? bnum then Ok (-1)
    else if anum <? bnum then Ok 1
    else Ok r
  else Ok r.

End ComparatorRest.

(** *** The rest of [class IterKey] *)

Variable uninit : nat -> byte.

Definition SetIsUserKey (k : IterKey) (is_user_key : bool) : IterKey :=
  set_is_user_key_ k is_user_key.

Definition GetInternalKey (k : IterKey) : Outcome KeySlice :=
  assert_ NDEBUG (negb (IsUserKey k)) ;;;
  Ok (key_ k, key_size_ k).

Definition GetUserKey (k : IterKey) : Outcome KeySlice :=
  if IsUserKey k then Ok (key_ k, key_size_ k)
  else
    assert_ NDEBUG (key_size_ k >=? kNumInternalBytes) ;;;
    Ok (key_ k, wrap64 (key_size_ k - kNumInternalBytes)).

Definition Size (k : IterKey) : Z := key_size_ k.

(** [IterKey::Clear()] *)
Definition IterKey_Clear (k : IterKey) : IterKey := set_key_size_ k 0.



Definition Reserve (k : IterKey) (size : Z) : IterKey :=
  let k := EnlargeBufferIfNeeded uninit k size in
  set_key_size_ k size.

Definition OwnKey (k : IterKey) : Outcome IterKey :=
  assert_ NDEBUG (IsKeyPinned k) ;;;
  let k := Reserve k (key_size_ k) in
  k <- memcpy_buf k 0 (key_ k) (key_size_ k) ;;
  Ok (set_key_ k (Own (buf_ k) 0)).

(** [SetInternalKey(key_prefix, user_key, s, value_type, ts)]; [ts] is
    [None] for the null pointer, and [sizeof(uint64_t)] is 8. *)
Definition SetInternalKey_parts (k : IterKey) (key_prefix user_key : Slice)
    (s : SequenceNumber) (value_type : ValueType) (ts : option Slice)
  : Outcome IterKey :=
  let psize := size_ key_prefix in
  let usize := size_ user_key in
  let ts_sz := match ts with Some t => size_ t | None => 0 end in
  let k := EnlargeBufferIfNeeded uninit k
             (wrap64 (psize + usize + 8 + ts_sz)) in
  k <- (if psize >? 0
        then memcpy_buf k 0 (Ext (data_ key_prefix)) psize
        else Ok k) ;;
  k <- memcpy_buf k psize (Ext (data_ user_key)) usize ;;
  k <- match ts with
       | Some t => memcpy_buf k (wrap64 (psize + usize)) (Ext (data_ t)) ts_sz
       | None => Ok k
       end ;;
  packed <- PackSequenceAndType NDEBUG s value_type ;;
  m <- EncodeFixed64 (buf_mem k) (wrap64 (usize + psize + ts_sz)) packed ;;
  let k := set_buf_mem k m in
  let k := set_key_ k (Own (buf_ k) 0) in
  let k := set_key_size_ k (wrap64 (psize + usize + 8 + ts_sz)) in
  Ok (set_is_user_key_ k false).

(** [SetInternalKey(user_key, s, value_type, ts)] *)
Definition SetInternalKey_user_key (k : IterKey) (user_key : Slice)
    (s : SequenceNumber) (value_type : ValueType) (ts : option Slice)
  : Outcome IterKey :=
  SetInternalKey_parts k (mkSlice (ptr_to []) 0) user_key s value_type ts.

(** [SetInternalKey(key_prefix, parsed_key_suffix)] *)
Definition SetInternalKey_prefix_parsed (k : IterKey) (key_prefix : Slice)
    (parsed_key_suffix : ParsedInternalKey) : Outcome IterKey :=
  SetInternalKey_parts k key_prefix (user_key parsed_key_suffix)
                       (sequence parsed_key_suffix) (type parsed_key_suffix)
                       None.

(** [SetInternalKey(parsed_key)] *)
Definition SetInternalKey_of_parsed (k : IterKey)
    (parsed_key : ParsedInternalKey) : Outcome IterKey :=
  SetInternalKey_prefix_parsed k (mkSlice (ptr_to []) 0) parsed_key.

End CodecRest.

(** ** Vocabulary of the further statements *)

(** The outcome [o] is a slice, and the bytes read through it are [bs]. *)
Definition slice_reads (o : Outcome Slice) (bs : list byte) : Prop :=
  exists s, o = Ok s /\ slice_bytes s = Ok bs.

(** The key [("foo" ++ timestamp 42, 7, kTypeValue)]. *)
Definition key_foo_ts_7_value : list byte :=
  bytes_of_Zs [102; 111; 111] ++ timestamp_42
  ++ le_split 8 (Z.lor (Z.shiftl 7 8) kTypeValue).

(** The outcome [o] is a slice into or outside the key builder [k], and the
    bytes read through it, in the memory as [k] has it, are [bs]. *)
Definition keyslice_reads (k : IterKey) (o : Outcome KeySlice)
    (bs : list byte) : Prop :=
  exists p n, o = Ok (p, n) /\ load_key k p n = Ok bs.

(** The optional timestamp argument of [SetInternalKey]. *)
Definition timestamp_bytes (ts : option (list byte)) : list byte :=
  match ts with Some t => t | None => [] end.

(** * Properties *)

(** ** Memory access *)

Lemma wrap64_small (z : Z) : 0 <= z < 2 ^ 64 -> wrap64 z = z.
Proof. intros H. unfold wrap64. apply Z.mod_small. exact H. Qed.

Lemma load_ok (bs : list byte) (off n : Z) :
  0 <= off -> 0 <= n -> off + n <= Z.of_nat (length bs) ->
  load (mkPtr bs off) n
  = Ok (firstn (Z.to_nat n) (skipn (Z.to_nat off) bs)).
Proof.
  intros Hoff Hn Hle. unfold load, in_bounds. cbn [pos obj].
  destruct (Z.eqb_spec n 0) as [->|Hne]; [reflexivity|].
  replace (0 <=? off) with true by (symmetry; apply Z.leb_le; lia).
  replace (off + n <=? Z.of_nat (length bs)) with true
    by (symmetry; apply Z.leb_le; lia).
  reflexivity.
Qed.

Lemma load_length (p : Ptr) (n : Z) (bs : list byte) :
  0 <= n -> load p n = Ok bs -> Z.of_nat (length bs) = n.
Proof.
  intros Hn. unfold load, in_bounds.
  destruct (Z.eqb_spec n 0) as [->|Hne].
  - intros H. inversion H. reflexivity.
  - destruct (0 <=? pos p) eqn:E1; cbn [andb]; [|discriminate].
    destruct (pos p + n <=? Z.of_nat (length (obj p))) eqn:E2; [|discriminate].
    intros H. inversion H. subst bs. clear H.
    apply Z.leb_le in E1, E2.
    rewrite length_firstn, length_skipn. lia.
Qed.

Lemma store_ok (buf : list byte) (off : Z) (bs : list byte) :
  0 <= off -> off + Z.of_nat (length bs) <= Z.of_nat (length buf) ->
  store buf off bs
  = Ok (firstn (Z.to_nat off) buf ++ bs
        ++ skipn (Z.to_nat off + length bs) buf).
Proof.
  intros Hoff Hle. unfold store.
  destruct (Z.eqb_spec (Z.of_nat (length bs)) 0) as [E|E].
  - destruct bs; [|cbn in E; lia].
    cbn [length app]. rewrite Nat.add_0_r, firstn_skipn. reflexivity.
  - replace (0 <=? off) with true by (symmetry; apply Z.leb_le; lia).
    replace (off + Z.of_nat (length bs) <=? Z.of_nat (length buf)) with true
      by (symmetry; apply Z.leb_le; lia).
    reflexivity.
Qed.

Lemma slice_bytes_Slice_of (bs : list byte) :
  slice_bytes (Slice_of bs) = Ok bs.
Proof.
  unfold slice_bytes, Slice_of, ptr_to. cbn [data_ size_].
  rewrite load_ok by lia.
  rewrite Nat2Z.id. cbn [Z.to_nat skipn]. rewrite firstn_all. reflexivity.
Qed.

(** The user-key part of a key, read through [Slice(data, size - 8)]. *)
Lemma load_user_key (ikey : list byte) :
  (8 <= length ikey)%nat ->
  load (ptr_to ikey) (Z.of_nat (length ikey) - 8) = Ok (user_key_bytes ikey).
Proof.
  intros H. unfold ptr_to. rewrite load_ok by lia.
  unfold user_key_bytes. cbn [Z.to_nat skipn]. f_equal. f_equal. lia.
Qed.

(** The footer of a key, read at [data + size - 8]. *)
Lemma load_footer (ikey : list byte) :
  (8 <= length ikey)%nat ->
  load (ptr_sub (ptr_add (ptr_to ikey) (Z.of_nat (length ikey))) 8) 8
  = Ok (footer_bytes ikey).
Proof.
  intros H. unfold ptr_sub, ptr_add, ptr_to. cbn [obj pos].
  rewrite load_ok by lia.
  unfold footer_bytes. f_equal.
  replace (Z.to_nat (0 + Z.of_nat (length ikey) - 8))
    with (length ikey - 8)%nat by lia.
  apply firstn_all2. rewrite length_skipn. lia.
Qed.

Lemma DecodeFixed64_footer (ikey : list byte) :
  (8 <= length ikey)%nat ->
  DecodeFixed64 (ptr_sub (ptr_add (ptr_to ikey) (Z.of_nat (length ikey))) 8)
  = Ok (footer_of ikey).
Proof.
  intros H. unfold DecodeFixed64. rewrite load_footer by exact H. reflexivity.
Qed.

Lemma footer_bytes_length (ikey : list byte) :
  (8 <= length ikey)%nat -> length (footer_bytes ikey) = 8%nat.
Proof. intros H. unfold footer_bytes. rewrite length_skipn. lia. Qed.

Lemma footer_of_range (ikey : list byte) :
  (8 <= length ikey)%nat -> 0 <= footer_of ikey < 2 ^ 64.
Proof.
  intros H. unfold footer_of.
  pose proof (le_combine_bound (footer_bytes ikey)) as B.
  rewrite footer_bytes_length in B by exact H. exact B.
Qed.

(** ** Footer arithmetic *)

Lemma footer_split (f : Z) :
  f = 256 * Z.shiftr f 8 + Z.land f 0xff.
Proof.
  rewrite Z.shiftr_div_pow2 by lia.
  change 0xff with (Z.ones 8). rewrite Z.land_ones by lia.
  change (2 ^ 8) with 256. apply Z.div_mod. lia.
Qed.

Lemma land_ff_range (f : Z) : 0 <= Z.land f 0xff < 256.
Proof.
  change 0xff with (Z.ones 8). rewrite Z.land_ones by lia.
  change (2 ^ 8) with 256. apply Z.mod_pos_bound. lia.
Qed.

Lemma pack_disjoint (seq t : Z) :
  0 <= t < 256 -> Z.land (Z.shiftl seq 8) t = 0.
Proof.
  intros Ht. apply Z.bits_inj'. intros n Hn.
  rewrite Z.land_spec, Z.bits_0.
  destruct (Z.ltb_spec n 8).
  - rewrite Z.shiftl_spec_low by lia. reflexivity.
  - destruct (Z.eq_dec t 0) as [->|Hne].
    + rewrite Z.bits_0. apply andb_false_r.
    + rewrite (Z.bits_above_log2 t n); [apply andb_false_r|lia|].
      apply Z.lt_le_trans with 8; [|lia].
      apply Z.log2_lt_pow2; [lia|]. change (2 ^ 8) with 256. lia.
Qed.

Lemma pack_value (seq t : Z) :
  0 <= t < 256 ->
  Z.lor (Z.shiftl seq 8) t = 256 * seq + t.
Proof.
  intros Ht.
  pose proof (Z.add_lor_land (Z.shiftl seq 8) t) as E.
  rewrite pack_disjoint in E by exact Ht.
  rewrite Z.shiftl_mul_pow2 in * by lia. change (2 ^ 8) with 256 in *. lia.
Qed.

Lemma unpack_pack (seq t : Z) :
  0 <= seq -> 0 <= t < 256 ->
  Z.shiftr (Z.lor (Z.shiftl seq 8) t) 8 = seq
  /\ Z.land (Z.lor (Z.shiftl seq 8) t) 0xff = t.
Proof.
  intros Hs Ht. rewrite pack_value by assumption.
  rewrite Z.shiftr_div_pow2 by lia.
  change 0xff with (Z.ones 8). rewrite Z.land_ones by lia.
  change (2 ^ 8) with 256. split.
  - symmetry. apply Z.div_unique with t; lia.
  - symmetry. apply Z.mod_unique with seq; lia.
Qed.

Lemma kMaxSequenceNumber_value : kMaxSequenceNumber = 2 ^ 56 - 1.
Proof. reflexivity. Qed.

Lemma IsExtendedValueType_le (t : Z) :
  0 <= t -> IsExtendedValueType t = true -> t <= kTypeMaxValid.
Proof.
  intros H0 H. unfold IsExtendedValueType, IsValueType in H.
  unfold kTypeMerge, kTypeSingleDeletion, kTypeBlobIndex,
    kTypeDeletionWithTimestamp, kTypeWideColumnEntity, kTypeRangeDeletion,
    kTypeMaxValid in *.
  repeat (apply orb_true_iff in H; destruct H as [H|H]);
    first [apply Z.leb_le in H | apply Z.eqb_eq in H]; lia.
Qed.

(** ** The codec *)

(** C9. [UnPackSequenceAndType] is total: for every 64-bit [packed] it
    returns [packed >> 8] and [packed & 0xff], whether or not the low byte is
    a valid tag, and fails no assertion in either build; the two results
    determine [packed]. *)
Theorem UnPackSequenceAndType_total (packed : Z) :
  is_uint64 packed ->
  UnPackSequenceAndType packed
  = Ok (Z.shiftr packed 8, Z.land packed 0xff)
  /\ 0 <= Z.shiftr packed 8 <= kMaxSequenceNumber
  /\ 0 <= Z.land packed 0xff < 256
  /\ Z.lor (Z.shiftl (Z.shiftr packed 8) 8) (Z.land packed 0xff) = packed.
Proof.
  intros [Hlo Hhi]. split; [reflexivity|].
  pose proof (land_ff_range packed) as Ht.
  pose proof (footer_split packed) as Hs.
  rewrite kMaxSequenceNumber_value.
  assert (Hq : 0 <= Z.shiftr packed 8 <= 2 ^ 56 - 1).
  { change (2 ^ 64) with (256 * 2 ^ 56) in Hhi. lia. }
  split; [exact Hq|]. split; [exact Ht|].
  rewrite pack_value by exact Ht. lia.
Qed.

Lemma UnPackSequenceAndType_total_witness :
  is_uint64 uint64_max
  /\ IsExtendedValueType (Z.land uint64_max 0xff) = false
  /\ UnPackSequenceAndType uint64_max = Ok (kMaxSequenceNumber, 0xff).
Proof.
  assert (H : is_uint64 uint64_max) by (unfold is_uint64, uint64_max; lia).
  split; [exact H|]. split; [reflexivity|].
  exact (proj1 (UnPackSequenceAndType_total uint64_max H)).
Defined.

Lemma ParseInternalKey_short (NDEBUG : bool) (bytes : list byte)
    (result : ParsedInternalKey) (log_err_key : bool) :
  (length bytes < 8)%nat ->
  ParseInternalKey NDEBUG (Slice_of bytes) result log_err_key
  = Ok (Corruption (InternalKeyTooSmall (Z.of_nat (length bytes))), result).
Proof.
  intros H. unfold ParseInternalKey, Slice_of, kNumInternalBytes.
  cbn [size_ data_].
  replace (Z.of_nat (length bytes) <? 8) with true
    by (symmetry; apply Z.ltb_lt; lia).
  reflexivity.
Qed.

(** What [ParseInternalKey] does on a key of at least 8 bytes, step by
    step: the footer is decoded, the assertion on the tag is checked, the tag
    is classified. *)
Lemma ParseInternalKey_long (NDEBUG : bool) (bytes : list byte)
    (result : ParsedInternalKey) (log_err_key : bool) :
  addressable bytes -> (8 <= length bytes)%nat ->
  ParseInternalKey NDEBUG (Slice_of bytes) result log_err_key
  = (assert_ NDEBUG (tag_of bytes <=? kMaxValue) ;;;
     let r := mkParsedInternalKey
                (mkSlice (ptr_to bytes) (Z.of_nat (length bytes) - 8))
                (seq_of bytes) (tag_of bytes) in
     if IsExtendedValueType (tag_of bytes)
     then Ok (StatusOK, r) else Ok (Corruption CorruptedKey, r)).
Proof.
  intros Ha H. unfold ParseInternalKey, Slice_of, kNumInternalBytes.
  cbn [size_ data_].
  replace (Z.of_nat (length bytes) <? 8) with false
    by (symmetry; apply Z.ltb_ge; lia).
  rewrite DecodeFixed64_footer by exact H. cbn [bind type sequence].
  rewrite wrap64_small by (unfold addressable in Ha; lia).
  reflexivity.
Qed.

Lemma ParseInternalKey_extended (NDEBUG : bool) (bytes : list byte)
    (result : ParsedInternalKey) (log_err_key : bool) :
  addressable bytes -> (8 <= length bytes)%nat ->
  IsExtendedValueType (tag_of bytes) = true ->
  ParseInternalKey NDEBUG (Slice_of bytes) result log_err_key
  = Ok (StatusOK,
        mkParsedInternalKey
          (mkSlice (ptr_to bytes) (Z.of_nat (length bytes) - 8))
          (seq_of bytes) (tag_of bytes)).
Proof.
  intros Ha Hl Hx. rewrite ParseInternalKey_long by assumption.
  assert (Hle : (tag_of bytes <=? kMaxValue) = true).
  { apply Z.leb_le.
    pose proof (IsExtendedValueType_le (tag_of bytes)
                  (proj1 (land_ff_range _)) Hx) as Hle.
    unfold kTypeMaxValid, kMaxValue in *. lia. }
  unfold assert_. rewrite Hle, Hx. destruct NDEBUG; reflexivity.
Qed.

(** C3, as the code has it.  [ParseInternalKey] reports Corruption on a key
    shorter than 8 bytes; on a key of at least 8 bytes with an extended tag
    it returns OK, with the user key borrowing the first [len - 8] bytes,
    the sequence [footer >> 8] and the type [footer & 0xff]; with a tag that
    is not extended it reports Corruption when assertions are compiled out or
    the tag byte is at most [kMaxValue]; with assertions compiled in, a tag
    byte above [kMaxValue] fails the assertion on the tag instead.  It never
    reads outside the given bytes. *)
Theorem ParseInternalKey_outcome (NDEBUG : bool) (bytes : list byte)
    (result : ParsedInternalKey) (log_err_key : bool) :
  addressable bytes ->
  let parse := ParseInternalKey NDEBUG (Slice_of bytes) result log_err_key in
  let parsed :=
    mkParsedInternalKey (mkSlice (ptr_to bytes) (Z.of_nat (length bytes) - 8))
                        (seq_of bytes) (tag_of bytes) in
  ((length bytes < 8)%nat ->
   parse = Ok (Corruption (InternalKeyTooSmall (Z.of_nat (length bytes))),
               result))
  /\ ((8 <= length bytes)%nat -> IsExtendedValueType (tag_of bytes) = true ->
      parse = Ok (StatusOK, parsed)
      /\ slice_bytes (user_key parsed) = Ok (user_key_bytes bytes))
  /\ ((8 <= length bytes)%nat -> IsExtendedValueType (tag_of bytes) = false ->
      NDEBUG = true \/ tag_of bytes <= kMaxValue ->
      parse = Ok (Corruption CorruptedKey, parsed))
  /\ ((8 <= length bytes)%nat -> NDEBUG = false ->
      kMaxValue < tag_of bytes ->
      parse = AssertionFailure)
  /\ parse <> OutOfBounds
  /\ (NDEBUG = true \/ (length bytes < 8)%nat \/ tag_of bytes <= kMaxValue ->
      (exists msg r, parse = Ok (Corruption msg, r))
      <-> ((length bytes < 8)%nat
           \/ IsExtendedValueType (tag_of bytes) = false)).
Proof.
  intros Ha parse parsed.
  destruct (Nat.lt_ge_cases (length bytes) 8) as [Hs|Hl].
  - assert (E : parse = Ok (Corruption (InternalKeyTooSmall
                                          (Z.of_nat (length bytes))), result))
      by (apply ParseInternalKey_short; exact Hs).
    split; [intros _; exact E|].
    split; [intros; lia|]. split; [intros; lia|]. split; [intros; lia|].
    split; [rewrite E; discriminate|].
    intros _. split.
    + intros _. left. exact Hs.
    + intros _. rewrite E. eauto.
  - pose proof (ParseInternalKey_long NDEBUG bytes result log_err_key Ha Hl)
      as E.
    cbv zeta in E. fold parse parsed in E.
    assert (Hext : IsExtendedValueType (tag_of bytes) = true ->
                   (tag_of bytes <=? kMaxValue) = true).
    { intros Hx. apply Z.leb_le.
      pose proof (IsExtendedValueType_le (tag_of bytes)
                    (proj1 (land_ff_range _)) Hx) as Hle.
      unfold kTypeMaxValid, kMaxValue in *. lia. }
    split; [intros; lia|].
    split.
    { intros _ Hx. split.
      - rewrite E. unfold assert_. rewrite (Hext Hx), Hx.
        destruct NDEBUG; reflexivity.
      - unfold parsed. cbn [user_key]. unfold slice_bytes. cbn [data_ size_].
        apply load_user_key. exact Hl. }
    split.
    { intros _ Hx Hc. rewrite E. unfold assert_. rewrite Hx.
      destruct Hc as [->|Hc]; [reflexivity|].
      apply Z.leb_le in Hc. rewrite Hc. destruct NDEBUG; reflexivity. }
    split.
    { intros _ Hn Hc. rewrite E. unfold assert_. rewrite Hn.
      replace (tag_of bytes <=? kMaxValue) with false
        by (symmetry; apply Z.leb_gt; exact Hc).
      reflexivity. }
    split.
    { rewrite E. unfold assert_.
      destruct NDEBUG; [|destruct (tag_of bytes <=? kMaxValue)];
        cbn [bind]; destruct (IsExtendedValueType (tag_of bytes));
        discriminate. }
    intros Hc.
    assert (Hassert : assert_ NDEBUG (tag_of bytes <=? kMaxValue) = Ok tt).
    { unfold assert_. destruct Hc as [->|[Hc|Hc]]; [reflexivity|lia|].
      apply Z.leb_le in Hc. rewrite Hc. destruct NDEBUG; reflexivity. }
    rewrite E, Hassert. cbn [bind].
    destruct (IsExtendedValueType (tag_of bytes)); split.
    + intros (msg & r & H). discriminate.
    + intros [H|H]; [lia|discriminate].
    + intros _. right. reflexivity.
    + intros _. eauto.
Qed.

Lemma ParseInternalKey_outcome_witness :
  addressable key_foo_7_value
  /\ ParseInternalKey false (Slice_of key_foo_7_value) empty_parsed_key false
     = Ok (StatusOK,
           mkParsedInternalKey (mkSlice (ptr_to key_foo_7_value) 3) 7
                               kTypeValue).
Proof.
  assert (H : addressable key_foo_7_value) by (vm_compute; reflexivity).
  split; [exact H|].
  refine (proj1 (proj1 (proj2 (ParseInternalKey_outcome
                                 false key_foo_7_value empty_parsed_key false
                                 H)) _ _)).
  - vm_compute. lia.
  - vm_compute. reflexivity.
Defined.

(** C3 as stated fails in a build with assertions: on 8 bytes whose tag byte
    is [0x80] the tag is not extended, yet no Corruption status comes
    back. *)
Lemma ParseInternalKey_tag_0x80_no_Corruption :
  ~ Corruption_iff_short_or_bad_tag false key_tag_0x80.
Proof.
  intros H.
  destruct (proj2 (H empty_parsed_key false)) as (msg & r & E).
  - right. vm_compute. reflexivity.
  - vm_compute in E. discriminate E.
Qed.

Lemma encode_length (uk : list byte) (seq t : Z) :
  length (encode uk seq t) = (length uk + 8)%nat.
Proof. unfold encode. rewrite length_app, length_le_split. reflexivity. Qed.

Lemma user_key_bytes_encode (uk : list byte) (seq t : Z) :
  user_key_bytes (encode uk seq t) = uk.
Proof.
  unfold user_key_bytes. rewrite encode_length. unfold encode.
  replace (length uk + 8 - 8)%nat with (length uk + 0)%nat by lia.
  rewrite firstn_app_2. cbn [firstn]. apply app_nil_r.
Qed.

Lemma footer_bytes_encode (uk : list byte) (seq t : Z) :
  footer_bytes (encode uk seq t) = le_split 8 (Z.lor (Z.shiftl seq 8) t).
Proof.
  unfold footer_bytes. rewrite encode_length. unfold encode.
  replace (length uk + 8 - 8)%nat with (length uk) by lia.
  rewrite skipn_app, skipn_all, Nat.sub_diag. reflexivity.
Qed.

Lemma footer_of_encode (uk : list byte) (seq t : Z) :
  0 <= seq <= kMaxSequenceNumber -> 0 <= t < 256 ->
  footer_of (encode uk seq t) = 256 * seq + t.
Proof.
  intros Hs Ht. unfold footer_of. rewrite footer_bytes_encode.
  rewrite le_combine_split, pack_value by exact Ht.
  rewrite kMaxSequenceNumber_value in Hs.
  apply Z.mod_small. change (Z.of_nat 8 * 8) with 64.
  change (2 ^ 64) with (256 * 2 ^ 56). lia.
Qed.

Lemma seq_tag_of_encode (uk : list byte) (seq t : Z) :
  0 <= seq <= kMaxSequenceNumber -> 0 <= t < 256 ->
  seq_of (encode uk seq t) = seq /\ tag_of (encode uk seq t) = t.
Proof.
  intros Hs Ht. unfold seq_of, tag_of.
  rewrite footer_of_encode by assumption.
  rewrite <- pack_value by exact Ht. apply unpack_pack; lia.
Qed.

Lemma PackSequenceAndType_ok (NDEBUG : bool) (seq t : Z) :
  0 <= seq <= kMaxSequenceNumber -> 0 <= t < 256 ->
  IsExtendedValueType t = true ->
  PackSequenceAndType NDEBUG seq t = Ok (Z.lor (Z.shiftl seq 8) t).
Proof.
  intros Hs Ht Hx. unfold PackSequenceAndType, assert_.
  replace (seq <=? kMaxSequenceNumber) with true
    by (symmetry; apply Z.leb_le; lia).
  rewrite Hx. cbn [orb].
  rewrite wrap64_small.
  - destruct NDEBUG; reflexivity.
  - rewrite kMaxSequenceNumber_value in Hs.
    rewrite Z.shiftl_mul_pow2 by lia.
    change (2 ^ 64) with (2 ^ 56 * 2 ^ 8). nia.
Qed.

Lemma AppendInternalKey_encode (NDEBUG : bool) (result uk : list byte)
    (seq t : Z) :
  0 <= seq <= kMaxSequenceNumber -> 0 <= t < 256 ->
  IsExtendedValueType t = true ->
  AppendInternalKey NDEBUG result (mkParsedInternalKey (Slice_of uk) seq t)
  = Ok (result ++ encode uk seq t).
Proof.
  intros Hs Ht Hx. unfold AppendInternalKey. cbn [user_key sequence type].
  rewrite slice_bytes_Slice_of. cbn [bind].
  rewrite PackSequenceAndType_ok by assumption. cbn [bind].
  unfold PutFixed64, encode. rewrite app_assoc. reflexivity.
Qed.

(** C2.  Appending the internal key of [(user_key, seq, tag)], with
    [seq <= kMaxSequenceNumber] and [tag] an extended value type, and parsing
    the result succeeds and gives back the user-key bytes, [seq] and
    [tag]. *)
Theorem ParseInternalKey_AppendInternalKey (NDEBUG : bool) (uk : list byte)
    (seq : SequenceNumber) (t : ValueType)
    (result : ParsedInternalKey) (log_err_key : bool) :
  addressable (encode uk seq t) ->
  0 <= seq <= kMaxSequenceNumber ->
  0 <= t < 256 ->
  IsExtendedValueType t = true ->
  exists ikey parsed,
    AppendInternalKey NDEBUG [] (mkParsedInternalKey (Slice_of uk) seq t)
    = Ok ikey
    /\ ikey = encode uk seq t
    /\ ParseInternalKey NDEBUG (Slice_of ikey) result log_err_key
       = Ok (StatusOK, parsed)
    /\ slice_bytes (user_key parsed) = Ok uk
    /\ sequence parsed = seq
    /\ type parsed = t.
Proof.
  intros Ha Hs Ht Hx.
  pose proof (seq_tag_of_encode uk seq t Hs Ht) as [Eseq Etag].
  assert (Hlen : (8 <= length (encode uk seq t))%nat)
    by (rewrite encode_length; lia).
  assert (Hparse := ParseInternalKey_extended NDEBUG (encode uk seq t) result
                      log_err_key Ha Hlen).
  rewrite Etag, Eseq in Hparse. specialize (Hparse Hx).
  eexists. eexists.
  split; [apply (AppendInternalKey_encode NDEBUG [] uk seq t Hs Ht Hx)|].
  split; [reflexivity|].
  split; [exact Hparse|].
  cbn [user_key sequence type]. unfold slice_bytes. cbn [data_ size_].
  rewrite load_user_key by exact Hlen.
  rewrite user_key_bytes_encode. auto.
Qed.

Lemma ParseInternalKey_AppendInternalKey_witness :
  addressable (encode (bytes_of_Zs [102; 111; 111]) 7 kTypeValue)
  /\ exists ikey parsed,
      AppendInternalKey false []
        (mkParsedInternalKey (Slice_of (bytes_of_Zs [102; 111; 111])) 7
                             kTypeValue)
      = Ok ikey
      /\ ikey = encode (bytes_of_Zs [102; 111; 111]) 7 kTypeValue
      /\ ParseInternalKey false (Slice_of ikey) empty_parsed_key false
         = Ok (StatusOK, parsed)
      /\ slice_bytes (user_key parsed) = Ok (bytes_of_Zs [102; 111; 111])
      /\ sequence parsed = 7
      /\ type parsed = kTypeValue.
Proof.
  assert (H : addressable (encode (bytes_of_Zs [102; 111; 111]) 7 kTypeValue))
    by (vm_compute; reflexivity).
  split; [exact H|].
  apply (ParseInternalKey_AppendInternalKey
           false (bytes_of_Zs [102; 111; 111]) 7 kTypeValue
           empty_parsed_key false H).
  - vm_compute. split; discriminate.
  - vm_compute. split; [discriminate|reflexivity].
  - reflexivity.
Defined.

(** ** The comparator *)

Lemma ExtractUserKey_ok (NDEBUG : bool) (ikey : list byte) :
  addressable ikey -> (8 <= length ikey)%nat ->
  ExtractUserKey NDEBUG (Slice_of ikey)
  = Ok (mkSlice (ptr_to ikey) (Z.of_nat (length ikey) - 8)).
Proof.
  intros Ha Hl. unfold ExtractUserKey, assert_, Slice_of, kNumInternalBytes.
  cbn [size_ data_].
  replace (Z.of_nat (length ikey) >=? 8) with true
    by (symmetry; apply Z.geb_le; lia).
  rewrite wrap64_small by (unfold addressable in Ha; lia).
  destruct NDEBUG; reflexivity.
Qed.

Lemma Compare_internal_order (NDEBUG : bool)
    (user_compare : list byte -> list byte -> Z) (a b : list byte) :
  addressable a -> addressable b ->
  (8 <= length a)%nat -> (8 <= length b)%nat ->
  Compare NDEBUG user_compare (Slice_of a) (Slice_of b)
  = Ok (internal_order user_compare a b).
Proof.
  intros Ha Hb Hla Hlb. unfold Compare, internal_order.
  rewrite !ExtractUserKey_ok by assumption. cbn [bind].
  unfold user_comparator_Compare, slice_bytes. cbn [data_ size_].
  rewrite !load_user_key by assumption. cbn [bind].
  destruct (user_compare (user_key_bytes a) (user_key_bytes b) =? 0);
    [|reflexivity].
  unfold Slice_of, kNumInternalBytes. cbn [data_ size_].
  rewrite !DecodeFixed64_footer by assumption. cbn [bind].
  destruct (footer_of a >? footer_of b); [reflexivity|].
  destruct (footer_of a <? footer_of b); reflexivity.
Qed.

(** The order of two footers is the order of their [(sequence, tag)]
    pairs. *)
Lemma footer_order (a b : list byte) :
  (footer_of a > footer_of b
   <-> seq_of a > seq_of b \/ (seq_of a = seq_of b /\ tag_of a > tag_of b))
  /\ (footer_of a = footer_of b
      <-> seq_of a = seq_of b /\ tag_of a = tag_of b).
Proof.
  unfold seq_of, tag_of.
  pose proof (footer_split (footer_of a)) as Ea.
  pose proof (footer_split (footer_of b)) as Eb.
  pose proof (land_ff_range (footer_of a)) as Ra.
  pose proof (land_ff_range (footer_of b)) as Rb.
  split; split; intros; lia.
Qed.

(** C1.  [InternalKeyComparator::Compare] on two keys of at least 8 bytes
    orders them by the user comparator on the user-key parts; when those
    compare equal, by descending sequence number; when the sequence numbers
    are equal too, by descending tag.  With user keys and tags equal the
    result is negative exactly when the first sequence number is greater. *)
Theorem Compare_user_key_then_seq_then_tag (NDEBUG : bool)
    (user_compare : list byte -> list byte -> Z) (a b : list byte) :
  addressable a -> addressable b ->
  (8 <= length a)%nat -> (8 <= length b)%nat ->
  let u := user_compare (user_key_bytes a) (user_key_bytes b) in
  exists r,
    Compare NDEBUG user_compare (Slice_of a) (Slice_of b) = Ok r
    /\ (u <> 0 -> r = u)
    /\ (u = 0 -> seq_of a > seq_of b -> r = -1)
    /\ (u = 0 -> seq_of a < seq_of b -> r = 1)
    /\ (u = 0 -> seq_of a = seq_of b -> tag_of a > tag_of b -> r = -1)
    /\ (u = 0 -> seq_of a = seq_of b -> tag_of a < tag_of b -> r = 1)
    /\ (u = 0 -> seq_of a = seq_of b -> tag_of a = tag_of b -> r = 0)
    /\ (u = 0 -> tag_of a = tag_of b -> (r < 0 <-> seq_of a > seq_of b)).
Proof.
  intros Ha Hb Hla Hlb u.
  exists (internal_order user_compare a b).
  split; [apply Compare_internal_order; assumption|].
  unfold internal_order. fold u.
  destruct (footer_order a b) as [Hgt Heq].
  destruct (footer_order b a) as [Hlt _].
  destruct (Z.eqb_spec u 0) as [E|E].
  - destruct (Z.gtb_spec (footer_of a) (footer_of b)) as [G|G].
    + repeat split; intros; lia.
    + destruct (Z.ltb_spec (footer_of a) (footer_of b)) as [L|L].
      * repeat split; intros; lia.
      * assert (footer_of a = footer_of b) by lia.
        repeat split; intros; lia.
  - repeat split; intros; lia.
Qed.

Lemma Compare_user_key_then_seq_then_tag_witness :
  addressable key_foo_9_value /\ addressable key_foo_7_value
  /\ seq_of key_foo_9_value > seq_of key_foo_7_value
  /\ Compare false bytewise_compare
       (Slice_of key_foo_9_value) (Slice_of key_foo_7_value) = Ok (-1).
Proof.
  assert (Ha : addressable key_foo_9_value) by (vm_compute; reflexivity).
  assert (Hb : addressable key_foo_7_value) by (vm_compute; reflexivity).
  assert (Hla : (8 <= length key_foo_9_value)%nat) by (vm_compute; lia).
  assert (Hlb : (8 <= length key_foo_7_value)%nat) by (vm_compute; lia).
  assert (Hs : seq_of key_foo_9_value > seq_of key_foo_7_value)
    by (vm_compute; reflexivity).
  split; [exact Ha|]. split; [exact Hb|]. split; [exact Hs|].
  destruct (Compare_user_key_then_seq_then_tag
              false bytewise_compare key_foo_9_value key_foo_7_value
              Ha Hb Hla Hlb) as (r & E & _ & Hgt & _).
  rewrite E. f_equal. apply Hgt; [vm_compute; reflexivity|exact Hs].
Defined.

Lemma Compare_global_seqno_disabled (NDEBUG : bool)
    (user_compare : list byte -> list byte -> Z) (a b : Slice) :
  Compare_global_seqno NDEBUG user_compare
    a kDisableGlobalSequenceNumber b kDisableGlobalSequenceNumber
  = Compare NDEBUG user_compare a b.
Proof.
  unfold Compare_global_seqno, Compare.
  rewrite Z.eqb_refl.
  unfold ExtractInternalKeyFooter, ExtractUserKey, assert_.
  destruct NDEBUG; [reflexivity|].
  destruct (size_ a >=? kNumInternalBytes); [|reflexivity].
  destruct (size_ b >=? kNumInternalBytes); reflexivity.
Qed.

(** C10.  On two keys of at least 8 bytes, comparing with both global
    sequence numbers set to [kDisableGlobalSequenceNumber] returns what the
    plain comparison returns. *)
Theorem Compare_global_seqno_disabled_is_Compare (NDEBUG : bool)
    (user_compare : list byte -> list byte -> Z) (a b : list byte) :
  addressable a -> addressable b ->
  (8 <= length a)%nat -> (8 <= length b)%nat ->
  exists r,
    Compare NDEBUG user_compare (Slice_of a) (Slice_of b) = Ok r
    /\ Compare_global_seqno NDEBUG user_compare
         (Slice_of a) kDisableGlobalSequenceNumber
         (Slice_of b) kDisableGlobalSequenceNumber = Ok r.
Proof.
  intros Ha Hb Hla Hlb.
  exists (internal_order user_compare a b).
  rewrite Compare_global_seqno_disabled.
  split; apply Compare_internal_order; assumption.
Qed.

Lemma Compare_global_seqno_disabled_is_Compare_witness :
  addressable key_foo_7_value /\ addressable key_foo_9_value
  /\ exists r,
      Compare false bytewise_compare
        (Slice_of key_foo_7_value) (Slice_of key_foo_9_value) = Ok r
      /\ Compare_global_seqno false bytewise_compare
           (Slice_of key_foo_7_value) kDisableGlobalSequenceNumber
           (Slice_of key_foo_9_value) kDisableGlobalSequenceNumber = Ok r.
Proof.
  assert (Ha : addressable key_foo_7_value) by (vm_compute; reflexivity).
  assert (Hb : addressable key_foo_9_value) by (vm_compute; reflexivity).
  split; [exact Ha|]. split; [exact Hb|].
  apply (Compare_global_seqno_disabled_is_Compare
           false bytewise_compare key_foo_7_value key_foo_9_value Ha Hb);
    vm_compute; lia.
Defined.

(** ** Sentinel keys and range tombstones *)

Lemma load_prefix (p : Ptr) (m k : Z) (bs : list byte) :
  load p m = Ok bs -> 0 <= k <= m ->
  load p k = Ok (firstn (Z.to_nat k) bs).
Proof.
  unfold load. intros H Hk.
  destruct (Z.eqb_spec m 0) as [->|Hm].
  - inversion H. replace k with 0 by lia. reflexivity.
  - destruct (in_bounds p m) eqn:Eb; [|discriminate].
    inversion H. subst bs. clear H.
    destruct (Z.eqb_spec k 0) as [->|Hk0]; [reflexivity|].
    replace (in_bounds p k) with true.
    + rewrite firstn_firstn. do 2 f_equal. lia.
    + symmetry. unfold in_bounds in *.
      apply andb_true_iff in Eb. destruct Eb as [E1 E2].
      apply Z.leb_le in E2. rewrite E1. apply Z.leb_le. lia.
Qed.

Lemma firstn_repeat {A : Type} (x : A) (n m : nat) :
  (n <= m)%nat -> firstn n (repeat x m) = repeat x n.
Proof.
  revert m. induction n as [|n IH]; intros m H; [reflexivity|].
  destruct m as [|m]; [lia|]. cbn. f_equal. apply IH. lia.
Qed.

Lemma Compare_encoded (NDEBUG : bool)
    (user_compare : list byte -> list byte -> Z)
    (ua ub : list byte) (sa sb : SequenceNumber) (ta tb : ValueType) :
  addressable (encode ua sa ta) -> addressable (encode ub sb tb) ->
  0 <= sa <= kMaxSequenceNumber -> 0 <= sb <= kMaxSequenceNumber ->
  0 <= ta < 256 -> 0 <= tb < 256 ->
  Compare NDEBUG user_compare
    (Slice_of (encode ua sa ta)) (Slice_of (encode ub sb tb))
  = Ok (let r := user_compare ua ub in
        if r =? 0 then
          if 256 * sa + ta >? 256 * sb + tb then -1
          else if 256 * sa + ta <? 256 * sb + tb then 1
          else r
        else r).
Proof.
  intros Ha Hb Hsa Hsb Hta Htb.
  rewrite Compare_internal_order
    by (try assumption; rewrite encode_length; lia).
  unfold internal_order.
  rewrite !user_key_bytes_encode, !footer_of_encode by assumption.
  reflexivity.
Qed.

(** C6, as the code has it.  On an empty [InternalKey],
    [SetMaxPossibleForUserKey(uk)] builds the key [(uk, 0, 0)], which
    compares greater than or equal to every key [(uk, seq, t)], and equal
    only to the key with sequence 0 and tag 0; [SetMinPossibleForUserKey(uk)]
    builds [(uk, kMaxSequenceNumber, kValueTypeForSeek)], which compares
    less than every key [(uk, seq, t)] with [seq < kMaxSequenceNumber]. *)
Theorem MaxPossible_MinPossible_bound_user_key (NDEBUG : bool)
    (user_compare : list byte -> list byte -> Z)
    (kValueTypeForSeek : ValueType)
    (uk : list byte) (seq : SequenceNumber) (t : ValueType) :
  addressable (encode uk seq t) ->
  user_compare uk uk = 0 ->
  0 <= kValueTypeForSeek < 256 ->
  IsExtendedValueType kValueTypeForSeek = true ->
  0 <= seq <= kMaxSequenceNumber ->
  0 <= t < 256 ->
  exists kmax kmin rmax rmin,
    SetMaxPossibleForUserKey NDEBUG InternalKey_empty (Slice_of uk) = Ok kmax
    /\ rep_ kmax = encode uk 0 0
    /\ SetMinPossibleForUserKey NDEBUG kValueTypeForSeek InternalKey_empty
         (Slice_of uk) = Ok kmin
    /\ rep_ kmin = encode uk kMaxSequenceNumber kValueTypeForSeek
    /\ Compare NDEBUG user_compare
         (Slice_of (rep_ kmax)) (Slice_of (encode uk seq t)) = Ok rmax
    /\ rmax >= 0
    /\ (rmax = 0 <-> seq = 0 /\ t = 0)
    /\ Compare NDEBUG user_compare
         (Slice_of (rep_ kmin)) (Slice_of (encode uk seq t)) = Ok rmin
    /\ (seq < kMaxSequenceNumber -> rmin < 0).
Proof.
  intros Ha Hrefl Hk Hkx Hs Ht.
  assert (Hmax : 0 <= kMaxSequenceNumber <= kMaxSequenceNumber)
    by (rewrite kMaxSequenceNumber_value; lia).
  assert (H0 : 0 <= 0 <= kMaxSequenceNumber)
    by (rewrite kMaxSequenceNumber_value; lia).
  assert (Ha' : forall s' t', addressable (encode uk s' t')).
  { intros s' t'. unfold addressable in *.
    rewrite encode_length in *. exact Ha. }
  exists (mkInternalKey (encode uk 0 0)).
  exists (mkInternalKey (encode uk kMaxSequenceNumber kValueTypeForSeek)).
  eexists. eexists.
  split.
  { unfold SetMaxPossibleForUserKey.
    rewrite AppendInternalKey_encode by (try assumption; try reflexivity; lia).
    reflexivity. }
  split; [reflexivity|].
  split.
  { unfold SetMinPossibleForUserKey.
    rewrite AppendInternalKey_encode by assumption. reflexivity. }
  split; [reflexivity|]. cbn [rep_].
  split; [apply Compare_encoded; (apply Ha' || assumption || lia)|].
  rewrite Hrefl. cbn [Z.eqb].
  split; [|split; [|split]].
  - destruct (Z.gtb_spec (256 * 0 + 0) (256 * seq + t)); [lia|].
    destruct (Z.ltb_spec (256 * 0 + 0) (256 * seq + t)); lia.
  - destruct (Z.gtb_spec (256 * 0 + 0) (256 * seq + t)); [lia|].
    destruct (Z.ltb_spec (256 * 0 + 0) (256 * seq + t)); split; intros; lia.
  - apply Compare_encoded; (apply Ha' || assumption || lia).
  - rewrite Hrefl. cbn [Z.eqb]. intros Hlt.
    destruct (Z.gtb_spec (256 * kMaxSequenceNumber + kValueTypeForSeek)
                (256 * seq + t)); lia.
Qed.

Lemma MaxPossible_MinPossible_bound_user_key_witness :
  addressable (encode user_key_m 5 kTypeValue)
  /\ exists kmax kmin rmax rmin,
      SetMaxPossibleForUserKey false InternalKey_empty (Slice_of user_key_m)
      = Ok kmax
      /\ rep_ kmax = encode user_key_m 0 0
      /\ SetMinPossibleForUserKey false kTypeWideColumnEntity
           InternalKey_empty (Slice_of user_key_m) = Ok kmin
      /\ rep_ kmin
         = encode user_key_m kMaxSequenceNumber kTypeWideColumnEntity
      /\ Compare false bytewise_compare (Slice_of (rep_ kmax))
           (Slice_of (encode user_key_m 5 kTypeValue)) = Ok rmax
      /\ rmax >= 0
      /\ (rmax = 0 <-> 5 = 0 /\ kTypeValue = 0)
      /\ Compare false bytewise_compare (Slice_of (rep_ kmin))
           (Slice_of (encode user_key_m 5 kTypeValue)) = Ok rmin
      /\ (5 < kMaxSequenceNumber -> rmin < 0).
Proof.
  assert (H : addressable (encode user_key_m 5 kTypeValue))
    by (vm_compute; reflexivity).
  split; [exact H|].
  apply (MaxPossible_MinPossible_bound_user_key
           false bytewise_compare kTypeWideColumnEntity user_key_m 5
           kTypeValue H).
  - vm_compute. reflexivity.
  - vm_compute. split; [discriminate|reflexivity].
  - reflexivity.
  - vm_compute. split; discriminate.
  - vm_compute. split; [discriminate|reflexivity].
Defined.

(** C6 as stated fails: the key of [SetMaxPossibleForUserKey(uk)] does not
    sort after the key [(uk, 0, kTypeDeletion)], to which it is equal. *)
Lemma MaxPossible_not_after_seq0_Deletion :
  ~ MaxPossible_sorts_after false bytewise_compare user_key_m 0 kTypeDeletion.
Proof.
  intros (kmax & r & Hk & Hc & Hr).
  vm_compute in Hk. inversion Hk. subst kmax. clear Hk.
  vm_compute in Hc. inversion Hc. subst r. lia.
Qed.

Lemma strlen_kTsMax : strlen kTsMax = 9.
Proof. reflexivity. Qed.

(** The slice of maximal timestamp bytes [SerializeEndKey] passes on. *)
Lemma max_timestamp_slice (n : Z) :
  0 < n ->
  slice_bytes (if n <=? strlen kTsMax
               then mkSlice (ptr_to kTsMax) n
               else Slice_of (repeat Byte.xff (Z.to_nat n)))
  = Ok (repeat Byte.xff (Z.to_nat n))
  /\ size_ (if n <=? strlen kTsMax
            then mkSlice (ptr_to kTsMax) n
            else Slice_of (repeat Byte.xff (Z.to_nat n))) = n.
Proof.
  intros Hn. rewrite strlen_kTsMax.
  destruct (Z.leb_spec n 9) as [Hle|Hgt].
  - split; [|reflexivity].
    unfold slice_bytes, ptr_to. cbn [data_ size_].
    rewrite load_ok by (cbn; lia).
    cbn [Z.to_nat skipn]. unfold kTsMax.
    rewrite firstn_app, repeat_length.
    replace (Z.to_nat n - 9)%nat with 0%nat by lia.
    cbn [firstn]. rewrite app_nil_r. f_equal. apply firstn_repeat. lia.
  - split; [apply slice_bytes_Slice_of|].
    unfold Slice_of. cbn [size_]. rewrite repeat_length. lia.
Qed.

Lemma InternalKey_new_encode (NDEBUG : bool) (s : Slice) (uk : list byte) :
  slice_bytes s = Ok uk ->
  InternalKey_new NDEBUG s kMaxSequenceNumber kTypeRangeDeletion
  = Ok (mkInternalKey (encode uk kMaxSequenceNumber kTypeRangeDeletion)).
Proof.
  intros H. unfold InternalKey_new, AppendInternalKey.
  cbn [user_key sequence type]. rewrite H. cbn [bind].
  rewrite PackSequenceAndType_ok; [reflexivity| | |reflexivity].
  - rewrite kMaxSequenceNumber_value. lia.
  - unfold kTypeRangeDeletion. lia.
Qed.

(** C4.  For a tombstone whose end key is [ek] and whose timestamp has [n]
    bytes ([n = 0] when there is none), [SerializeEndKey] produces the
    internal key [(b, kMaxSequenceNumber, kTypeRangeDeletion)], where [b] is
    [ek] with its last [n] bytes replaced by [0xff] bytes.  That key compares
    less than [(b, seq, kTypeValue)] for every [seq <= kMaxSequenceNumber],
    and less than [(b', seq, kTypeValue)] for every [b'] that differs from
    [b] in the timestamp only, under a user comparator that does not put
    the maximal timestamp last. *)
Theorem SerializeEndKey_below_end_key (NDEBUG : bool)
    (user_compare : list byte -> list byte -> Z)
    (t : RangeTombstone) (ek : list byte) (n : nat) :
  slice_bytes (end_key_ t) = Ok ek ->
  size_ (end_key_ t) = Z.of_nat (length ek) ->
  size_ (ts_ t) = Z.of_nat n ->
  (n <= length ek)%nat ->
  Z.of_nat (length ek) + 8 < 2 ^ 64 ->
  let p := firstn (length ek - n) ek in
  let b := p ++ repeat Byte.xff n in
  SerializeEndKey NDEBUG t
  = Ok (mkInternalKey (encode b kMaxSequenceNumber kTypeRangeDeletion))
  /\ (forall seq : SequenceNumber,
        0 <= seq <= kMaxSequenceNumber ->
        user_compare b b = 0 ->
        Compare NDEBUG user_compare
          (Slice_of (encode b kMaxSequenceNumber kTypeRangeDeletion))
          (Slice_of (encode b seq kTypeValue)) = Ok (-1))
  /\ (forall (seq : SequenceNumber) (ts' : list byte),
        0 <= seq <= kMaxSequenceNumber ->
        length ts' = n ->
        user_compare b (p ++ ts') <= 0 ->
        exists r,
          Compare NDEBUG user_compare
            (Slice_of (encode b kMaxSequenceNumber kTypeRangeDeletion))
            (Slice_of (encode (p ++ ts') seq kTypeValue)) = Ok r
          /\ r < 0).
Proof.
  intros Hek Hsz Hts Hn Hlen p b.
  assert (Hmax : 0 <= kMaxSequenceNumber <= kMaxSequenceNumber)
    by (rewrite kMaxSequenceNumber_value; lia).
  assert (Hrd : 0 <= kTypeRangeDeletion < 256)
    by (unfold kTypeRangeDeletion; lia).
  assert (Hv : 0 <= kTypeValue < 256) by (unfold kTypeValue; lia).
  assert (Hplen : length p = (length ek - n)%nat).
  { unfold p. rewrite length_firstn. lia. }
  assert (Hblen : length b = length ek).
  { unfold b. rewrite length_app, repeat_length, Hplen. lia. }
  assert (Hab : forall s' t', addressable (encode b s' t')).
  { intros. unfold addressable. rewrite encode_length, Hblen. lia. }
  split; [|split].
  - unfold SerializeEndKey. rewrite Hts.
    destruct (Z.eqb_spec (Z.of_nat n) 0) as [E0|E0]; cbn [negb].
    + assert (n = 0%nat) by lia. subst n.
      rewrite (InternalKey_new_encode NDEBUG _ ek Hek).
      unfold b, p. cbn [repeat].
      rewrite Nat.sub_0_r, firstn_all, app_nil_r. reflexivity.
    + destruct (max_timestamp_slice (Z.of_nat n)) as [Hb Hs]; [lia|].
      rewrite Nat2Z.id in Hb.
      assert (E : forall ts : Slice,
                 slice_bytes ts = Ok (repeat Byte.xff n) ->
                 size_ ts = Z.of_nat n ->
                 InternalKey_new_ts NDEBUG (end_key_ t) kMaxSequenceNumber
                                    kTypeRangeDeletion ts
                 = Ok (mkInternalKey
                         (encode b kMaxSequenceNumber kTypeRangeDeletion))).
      { intros ts Hb' Hs'.
        unfold InternalKey_new_ts, AppendInternalKeyWithDifferentTimestamp.
        cbn [user_key sequence type]. rewrite Hs', Hsz.
        unfold assert_.
        replace (Z.of_nat (length ek) >=? Z.of_nat n) with true
          by (symmetry; apply Z.geb_le; lia).
        rewrite wrap64_small by lia.
        unfold slice_bytes in Hek. rewrite Hsz in Hek.
        rewrite (load_prefix _ _ _ _ Hek) by lia.
        rewrite Hb'.
        rewrite PackSequenceAndType_ok by (assumption || reflexivity).
        replace (Z.to_nat (Z.of_nat (length ek) - Z.of_nat n))
          with (length ek - n)%nat by lia.
        destruct NDEBUG; reflexivity. }
      rewrite Nat2Z.id in Hs. rewrite Nat2Z.id. revert Hb Hs.
      destruct (Z.of_nat n <=? strlen kTsMax); intros Hb Hs; apply E; assumption.
  - intros seq Hs Hrefl.
    rewrite Compare_encoded by (apply Hab || assumption).
    rewrite Hrefl. cbn [Z.eqb].
    destruct (Z.gtb_spec (256 * kMaxSequenceNumber + kTypeRangeDeletion)
                (256 * seq + kTypeValue)); [reflexivity|].
    unfold kTypeRangeDeletion, kTypeValue in *. lia.
  - intros seq ts' Hs Hl Hle.
    assert (Ha' : addressable (encode (p ++ ts') seq kTypeValue)).
    { unfold addressable. rewrite encode_length, length_app, Hplen. lia. }
    rewrite Compare_encoded by (apply Hab || assumption).
    eexists. split; [reflexivity|]. cbv zeta.
    destruct (Z.eqb_spec (user_compare b (p ++ ts')) 0) as [E|E]; [|lia].
    destruct (Z.gtb_spec (256 * kMaxSequenceNumber + kTypeRangeDeletion)
                (256 * seq + kTypeValue)); [lia|].
    unfold kTypeRangeDeletion, kTypeValue in *. lia.
Qed.

Lemma SerializeEndKey_below_end_key_witness :
  slice_bytes (end_key_ tombstone_a_m_5) = Ok user_key_m
  /\ SerializeEndKey false tombstone_a_m_5
     = Ok (mkInternalKey
             (encode user_key_m kMaxSequenceNumber kTypeRangeDeletion))
  /\ Compare false bytewise_compare
       (Slice_of (encode user_key_m kMaxSequenceNumber kTypeRangeDeletion))
       (Slice_of (encode user_key_m 1 kTypeValue)) = Ok (-1).
Proof.
  assert (H : slice_bytes (end_key_ tombstone_a_m_5) = Ok user_key_m)
    by reflexivity.
  split; [exact H|].
  destruct (SerializeEndKey_below_end_key
              false bytewise_compare tombstone_a_m_5 user_key_m 0 H)
    as (Hser & Hcmp & _).
  - reflexivity.
  - reflexivity.
  - vm_compute. lia.
  - vm_compute. reflexivity.
  - split; [exact Hser|].
    apply (Hcmp 1); [vm_compute; split; discriminate|reflexivity].
Defined.

(** ** The key builder *)

Lemma BufLoc_eqb_refl (l : BufLoc) : BufLoc_eqb l l = true.
Proof. destruct l; [reflexivity|apply Nat.eqb_refl]. Qed.

Lemma BufLoc_eqb_eq (a b : BufLoc) : BufLoc_eqb a b = true -> a = b.
Proof.
  destruct a, b; cbn; try discriminate; [reflexivity|].
  intros H. apply Nat.eqb_eq in H. subst. reflexivity.
Qed.

Lemma load_key_own_buf (k : IterKey) (off n : Z) :
  load_key k (Own (buf_ k) off) n = load (mkPtr (buf_mem k) off) n.
Proof.
  unfold load_key, buf_mem. destruct (buf_ k) as [|id]; [reflexivity|].
  rewrite BufLoc_eqb_refl. reflexivity.
Qed.

Lemma load_key_buf_eq (k : IterKey) (l : BufLoc) (off n : Z) :
  l = buf_ k -> load_key k (Own l off) n = load (mkPtr (buf_mem k) off) n.
Proof. intros ->. apply load_key_own_buf. Qed.

Lemma not_pinned_key (k : IterKey) :
  IsKeyPinned k = false -> key_ k = Own (buf_ k) 0.
Proof.
  unfold IsKeyPinned. destruct (key_ k) as [l off|p]; [|discriminate].
  intros H. apply negb_false_iff, andb_true_iff in H. destruct H as [H1 H2].
  apply BufLoc_eqb_eq in H1. apply Z.eqb_eq in H2. subst. reflexivity.
Qed.

Lemma set_buf_mem_fields (k : IterKey) (m : list byte) :
  buf_mem (set_buf_mem k m) = m
  /\ buf_ (set_buf_mem k m) = buf_ k
  /\ key_ (set_buf_mem k m) = key_ k
  /\ key_size_ (set_buf_mem k m) = key_size_ k
  /\ buf_size_ (set_buf_mem k m) = buf_size_ k
  /\ is_user_key_ (set_buf_mem k m) = is_user_key_ k
  /\ next_id (set_buf_mem k m) = next_id k.
Proof.
  unfold set_buf_mem, buf_mem. destruct (buf_ k) eqn:E; cbn; rewrite ?E; auto 10.
Qed.

Lemma store_length (buf : list byte) (off : Z) (bs m : list byte) :
  store buf off bs = Ok m -> length m = length buf.
Proof.
  unfold store.
  destruct (Z.of_nat (length bs) =? 0); [intros H; inversion H; reflexivity|].
  destruct (0 <=? off) eqn:E1; cbn [andb]; [|discriminate].
  destruct (off + Z.of_nat (length bs) <=? Z.of_nat (length buf)) eqn:E2;
    [|discriminate].
  apply Z.leb_le in E1, E2. intros H. inversion H.
  rewrite !length_app, length_firstn, length_skipn. lia.
Qed.

(** Storing inside the first part of a buffer leaves the rest alone. *)
Lemma store_app_l (kb rest : list byte) (off : Z) (bs : list byte) :
  0 <= off -> off + Z.of_nat (length bs) <= Z.of_nat (length kb) ->
  store (kb ++ rest) off bs
  = Ok ((firstn (Z.to_nat off) kb ++ bs
         ++ skipn (Z.to_nat off + length bs) kb) ++ rest).
Proof.
  intros H0 Hle. rewrite store_ok by (rewrite ?length_app; lia).
  f_equal. rewrite firstn_app, skipn_app.
  replace (Z.to_nat off - length kb)%nat with 0%nat by lia.
  replace (Z.to_nat off + length bs - length kb)%nat with 0%nat by lia.
  cbn [firstn skipn]. rewrite app_nil_r, <- !app_assoc. reflexivity.
Qed.

Lemma firstn_skipn_app_l {A : Type} (pre x : list A) (off len : nat) :
  (off + len <= length pre)%nat ->
  firstn len (skipn off (pre ++ x)) = firstn len (skipn off pre).
Proof.
  intros H. rewrite skipn_app, firstn_app, length_skipn.
  replace (len - (length pre - off))%nat with 0%nat by lia.
  cbn [firstn]. apply app_nil_r.
Qed.

(** An owned key is the beginning of the buffer. *)
Lemma holds_owned (k : IterKey) (kb : list byte) :
  holds k kb -> IsKeyPinned k = false ->
  key_ k = Own (buf_ k) 0
  /\ buf_mem k = kb ++ skipn (length kb) (buf_mem k)
  /\ (length kb <= length (buf_mem k))%nat.
Proof.
  intros (Hkb & Hks & Hbs & Hlt & _) Hp.
  pose proof (not_pinned_key k Hp) as Hkey.
  split; [exact Hkey|].
  unfold key_bytes in Hkb. rewrite Hkey, load_key_own_buf in Hkb.
  unfold load, in_bounds in Hkb. cbn [pos obj] in Hkb.
  destruct (Z.eqb_spec (key_size_ k) 0) as [E|E].
  - inversion Hkb. subst kb. cbn. split; [reflexivity|lia].
  - cbn [Z.leb Z.compare andb] in Hkb.
    destruct (0 + key_size_ k <=? Z.of_nat (length (buf_mem k))) eqn:E2;
      [|discriminate].
    apply Z.leb_le in E2. inversion Hkb as [Hkb']. clear Hkb.
    rewrite length_firstn.
    replace (Nat.min (Z.to_nat (key_size_ k)) (length (buf_mem k)))
      with (Z.to_nat (key_size_ k)) by lia.
    split; [symmetry; apply firstn_skipn|lia].
Qed.

(** C8.  For an owned key of [n] bytes, [n >= 8 + |ts|],
    [IterKey::UpdateInternalKey] keeps the length of the key and the bytes
    before the timestamp and the footer: the last 8 bytes become the
    little-endian [(seq << 8) | t] and the [|ts|] bytes before them become
    [ts].  [buf_], [buf_size_] and [key_] are what they were and no block is
    allocated, so what a slice into the user-key part read before, it reads
    after.  [UpdateInternalKey] on a string rewrites its last 8 bytes the
    same way. *)
Theorem UpdateInternalKey_in_place (NDEBUG : bool) (k : IterKey)
    (kb : list byte) (seq : Z) (t : ValueType) (ts : option (list byte)) :
  holds k kb ->
  IsKeyPinned k = false ->
  let tsb := match ts with Some b => b | None => [] end in
  (8 + length tsb <= length kb)%nat ->
  let prefix := firstn (length kb - 8 - length tsb) kb in
  let footer := le_split 8 (Z.lor (wrap64 (Z.shiftl seq 8)) t) in
  (exists k',
      IterKey_UpdateInternalKey NDEBUG k seq t (option_map Slice_of ts)
      = Ok k'
      /\ holds k' (prefix ++ tsb ++ footer)
      /\ length (prefix ++ tsb ++ footer) = length kb
      /\ buf_ k' = buf_ k
      /\ buf_size_ k' = buf_size_ k
      /\ key_ k' = key_ k
      /\ key_size_ k' = key_size_ k
      /\ next_id k' = next_id k
      /\ (forall off len,
            0 <= off -> 0 <= len ->
            off + len <= Z.of_nat (length prefix) ->
            load_key k' (Own (buf_ k) off) len
            = load_key k (Own (buf_ k) off) len))
  /\ UpdateInternalKey NDEBUG kb seq t
     = Ok (firstn (length kb - 8) kb ++ footer).
Proof.
  intros Hh Hp tsb Hlen prefix footer.
  destruct (holds_owned k kb Hh Hp) as (Hkey & Hbuf & Hle).
  destruct Hh as (Hkb & Hks & Hbs & Hlt & Hpin).
  set (rest := skipn (length kb) (buf_mem k)) in *.
  assert (Hfl : length footer = 8%nat) by apply length_le_split.
  assert (Hpl : length prefix = (length kb - 8 - length tsb)%nat).
  { unfold prefix. rewrite length_firstn. lia. }
  (* the buffer after the timestamp is written *)
  set (kb1 := prefix ++ tsb ++ skipn (length kb - 8) kb).
  assert (Hkb1 : length kb1 = length kb).
  { unfold kb1. rewrite !length_app, length_skipn. lia. }
  assert (Hstep1 :
    match option_map Slice_of ts with
    | Some ts0 =>
        assert_ NDEBUG (key_size_ k >=? wrap64 (kNumInternalBytes + size_ ts0)) ;;;
        memcpy_buf k (wrap64 (key_size_ k - kNumInternalBytes - size_ ts0))
                   (Ext (data_ ts0)) (size_ ts0)
    | None => Ok k
    end = Ok (set_buf_mem k (kb1 ++ rest))).
  { destruct ts as [b|]; cbn [option_map].
    - unfold Slice_of, kNumInternalBytes. cbn [size_ data_].
      subst tsb. cbn beta iota in *.
      rewrite !wrap64_small by lia.
      unfold assert_.
      replace (key_size_ k >=? 8 + Z.of_nat (length b)) with true
        by (symmetry; apply Z.geb_le; lia).
      replace (if NDEBUG then Ok tt else Ok tt) with (@Ok unit tt)
        by (destruct NDEBUG; reflexivity).
      cbn [bind]. unfold memcpy_buf, load_key, ptr_to.
      rewrite load_ok by lia. cbn [Z.to_nat skipn bind].
      rewrite Nat2Z.id, firstn_all.
      rewrite Hbuf at 1. rewrite store_app_l by lia. cbn [bind].
      do 3 f_equal. unfold kb1, prefix.
      replace (Z.to_nat (key_size_ k - 8 - Z.of_nat (length b)))
        with (length kb - 8 - length b)%nat by lia.
      do 3 f_equal. lia.
    - subst tsb. f_equal. unfold kb1, prefix. cbn [length app] in *.
      rewrite Nat.sub_0_r, firstn_skipn.
      destruct (set_buf_mem_fields k (kb ++ rest)) as (E1 & E2 & E3 & E4 & E5 & E6 & E7).
      rewrite <- Hbuf.
      destruct k as [b ky ks bsz sp iu hp nid]. unfold set_buf_mem, buf_mem.
      cbn. destruct b; reflexivity. }
  destruct (set_buf_mem_fields k (kb1 ++ rest))
    as (M1 & M2 & M3 & M4 & M5 & M6 & M7).
  set (k1 := set_buf_mem k (kb1 ++ rest)) in *.
  set (kb2 := prefix ++ tsb ++ footer).
  assert (Hkb2 : length kb2 = length kb).
  { unfold kb2. rewrite !length_app. lia. }
  assert (Hstep2 :
    EncodeFixed64 (buf_mem k1) (wrap64 (key_size_ k1 - kNumInternalBytes))
                  (Z.lor (wrap64 (Z.shiftl seq 8)) t)
    = Ok (kb2 ++ rest)).
  { rewrite M1, M4. unfold EncodeFixed64, kNumInternalBytes.
    rewrite wrap64_small by lia. fold footer.
    rewrite store_app_l by lia. do 2 f_equal.
    rewrite Hfl. unfold kb1, kb2.
    replace (Z.to_nat (key_size_ k - 8))
      with (length (prefix ++ tsb) + 0)%nat by (rewrite length_app; lia).
    rewrite (app_assoc prefix tsb (skipn _ kb)).
    rewrite firstn_app_2. cbn [firstn]. rewrite app_nil_r.
    rewrite skipn_all2
      by (rewrite !length_app, length_skipn; lia).
    rewrite app_nil_r, <- app_assoc. reflexivity. }
  destruct (set_buf_mem_fields k1 (kb2 ++ rest))
    as (N1 & N2 & N3 & N4 & N5 & N6 & N7).
  split.
  - exists (set_buf_mem k1 (kb2 ++ rest)).
    split.
    { unfold IterKey_UpdateInternalKey, assert_. rewrite Hp. cbn [negb].
      replace (key_size_ k >=? kNumInternalBytes) with true
        by (symmetry; apply Z.geb_le; unfold kNumInternalBytes; lia).
      replace (if NDEBUG then Ok tt else Ok tt) with (@Ok unit tt)
        by (destruct NDEBUG; reflexivity).
      cbn [bind]. unfold assert_ in Hstep1. rewrite Hstep1. cbn [bind].
      fold k1. rewrite Hstep2. reflexivity. }
    split.
    { unfold holds, key_bytes, IsKeyPinned.
      rewrite ?N1, ?N2, ?N3, ?N4, ?N5, ?M2, ?M3, ?M4, ?M5. rewrite Hkey.
      replace (Own (buf_ k) 0)
        with (Own (buf_ (set_buf_mem k1 (kb2 ++ rest))) 0) at 1
        by (rewrite N2, M2; reflexivity).
      rewrite load_key_own_buf, N1.
      rewrite load_ok by (rewrite ?length_app; lia).
      cbn [Z.to_nat skipn]. rewrite Hks, Nat2Z.id, <- Hkb2.
      replace (length kb2) with (length kb2 + 0)%nat at 1 by lia.
      rewrite firstn_app_2. cbn [firstn]. rewrite app_nil_r.
      split; [reflexivity|]. split; [lia|].
      split; [rewrite length_app, Hkb2, Hbs, Hbuf, length_app; reflexivity|].
      split; [exact Hlt|].
      rewrite BufLoc_eqb_refl. discriminate. }
    split; [exact Hkb2|].
    rewrite N2, N3, N4, N5, N7, M2, M3, M4, M5, M7.
    repeat (split; [reflexivity|]).
    intros off len Hoff Hlen0 Hofflen.
    rewrite <- M2 at 1. rewrite <- N2 at 1.
    rewrite !load_key_own_buf, N1.
    rewrite Hbuf.
    rewrite !load_ok by (rewrite ?length_app; lia).
    f_equal. transitivity (firstn (Z.to_nat len) (skipn (Z.to_nat off) prefix)).
    + unfold kb2. rewrite <- app_assoc. apply firstn_skipn_app_l. lia.
    + replace (kb ++ rest)
        with (prefix ++ (skipn (length kb - 8 - length tsb) kb ++ rest))
        by (rewrite app_assoc; unfold prefix; rewrite firstn_skipn;
            reflexivity).
      symmetry. apply firstn_skipn_app_l. lia.
  - unfold UpdateInternalKey, assert_, kNumInternalBytes.
    replace (Z.of_nat (length kb) >=? 8) with true
      by (symmetry; apply Z.geb_le; lia).
    replace (if NDEBUG then Ok tt else Ok tt) with (@Ok unit tt)
      by (destruct NDEBUG; reflexivity).
    cbn [bind]. unfold EncodeFixed64. fold footer.
    rewrite store_ok by lia. do 2 f_equal; [f_equal; lia|].
    rewrite skipn_all2 by lia. apply app_nil_r.
Qed.

Lemma UpdateInternalKey_in_place_witness :
  holds iter_key_foo_7 key_foo_7_value
  /\ IsKeyPinned iter_key_foo_7 = false
  /\ exists k',
      IterKey_UpdateInternalKey false iter_key_foo_7 9 kTypeValue None = Ok k'
      /\ holds k' key_foo_9_value
      /\ buf_ k' = buf_ iter_key_foo_7
      /\ next_id k' = next_id iter_key_foo_7.
Proof.
  assert (H : holds iter_key_foo_7 key_foo_7_value).
  { repeat split; try (vm_compute; reflexivity). discriminate. }
  split; [exact H|]. split; [reflexivity|].
  destruct (UpdateInternalKey_in_place
              false iter_key_foo_7 key_foo_7_value 9 kTypeValue None H)
    as ((k' & E & Hh & _ & Hb & _ & _ & _ & Hn & _) & _).
  - reflexivity.
  - vm_compute. lia.
  - exists k'. split; [exact E|]. split; [exact Hh|]. split; assumption.
Defined.

Lemma uninit_bytes_length (uninit : nat -> byte) (n : Z) :
  length (uninit_bytes uninit n) = Z.to_nat n.
Proof. unfold uninit_bytes. rewrite length_map, length_seq. reflexivity. Qed.

(** After [EnlargeBufferIfNeeded(n)] the buffer has room for [n] bytes; the
    key pointer and the key mode are untouched. *)
Lemma EnlargeBufferIfNeeded_room (uninit : nat -> byte) (k : IterKey) (n : Z) :
  buf_size_ k = Z.of_nat (length (buf_mem k)) ->
  buf_size_ k < 2 ^ 64 -> 0 <= n < 2 ^ 64 ->
  let k1 := EnlargeBufferIfNeeded uninit k n in
  buf_size_ k1 = Z.of_nat (length (buf_mem k1))
  /\ buf_size_ k1 < 2 ^ 64
  /\ n <= buf_size_ k1
  /\ key_ k1 = key_ k
  /\ is_user_key_ k1 = is_user_key_ k.
Proof.
  intros Hbs Hlt Hn. unfold EnlargeBufferIfNeeded.
  destruct (Z.gtb_spec n (buf_size_ k)) as [Hgt|Hle].
  - unfold EnlargeBuffer, set_buf_new, ResetBuffer, buf_mem. cbn.
    rewrite uninit_bytes_length. repeat split; lia.
  - cbv zeta. repeat split; (assumption || lia).
Qed.

(** The last step of [TrimAppend]: the suffix is copied behind the part
    that is kept, and the key is the buffer. *)
Lemma TrimAppend_finish (k2 : IterKey) (pre rest2 : list byte)
    (non_shared_data : Ptr) (non_shared_len : Z) (sfx : list byte) :
  buf_mem k2 = pre ++ rest2 ->
  load non_shared_data non_shared_len = Ok sfx ->
  0 <= non_shared_len <= Z.of_nat (length rest2) ->
  buf_size_ k2 = Z.of_nat (length (buf_mem k2)) ->
  buf_size_ k2 < 2 ^ 64 ->
  exists k',
    (k3 <- memcpy_buf k2 (Z.of_nat (length pre)) (Ext non_shared_data)
                      non_shared_len ;;
     Ok (set_key_size_ (set_key_ k3 (Own (buf_ k3) 0))
                       (Z.of_nat (length pre) + non_shared_len)))
    = Ok k'
    /\ holds k' (pre ++ sfx)
    /\ IsKeyPinned k' = false
    /\ is_user_key_ k' = is_user_key_ k2.
Proof.
  intros Hbuf Hload Hn Hbs Hlt.
  pose proof (load_length _ _ _ (proj1 Hn) Hload) as Hsl.
  unfold memcpy_buf. cbn [load_key]. rewrite Hload. cbn [bind].
  rewrite Hbuf, store_ok by (rewrite ?length_app; lia). cbn [bind].
  rewrite Nat2Z.id.
  set (m := firstn (length pre) (pre ++ rest2) ++ sfx
            ++ skipn (length pre + length sfx) (pre ++ rest2)).
  assert (Hm : m = (pre ++ sfx) ++ skipn (length sfx) rest2).
  { unfold m. rewrite firstn_app, firstn_all, Nat.sub_diag.
    cbn [firstn]. rewrite app_nil_r, skipn_app.
    rewrite skipn_all2 by lia.
    replace (length pre + length sfx - length pre)%nat
      with (length sfx) by lia.
    cbn [app]. rewrite <- app_assoc. reflexivity. }
  destruct (set_buf_mem_fields k2 m) as (M1 & M2 & M3 & M4 & M5 & M6 & M7).
  set (k3 := set_buf_mem k2 m) in *.
  eexists. split; [reflexivity|].
  assert (Hmem : buf_mem (set_key_size_ (set_key_ k3 (Own (buf_ k3) 0))
                            (Z.of_nat (length pre) + non_shared_len)) = m).
  { rewrite <- M1. unfold buf_mem, set_key_size_, set_key_. cbn.
    reflexivity. }
  split; [|split].
  - unfold holds. rewrite Hmem.
    unfold key_bytes.
    cbn [key_ key_size_ buf_size_ set_key_size_ set_key_].
    rewrite load_key_buf_eq by reflexivity. rewrite Hmem.
    assert (Hml : length m = length (pre ++ rest2)).
    { unfold m. rewrite !length_app, length_firstn, length_skipn,
        length_app. lia. }
    rewrite load_ok by (rewrite ?Hml, ?length_app; lia).
    cbn [Z.to_nat skipn]. rewrite Hm.
    replace (Z.to_nat (Z.of_nat (length pre) + non_shared_len))
      with (length (pre ++ sfx) + 0)%nat by (rewrite length_app; lia).
    rewrite firstn_app_2. cbn [firstn]. rewrite app_nil_r.
    split; [reflexivity|].
    split; [rewrite length_app; lia|].
    rewrite M5, <- Hm, Hml, Hbs, Hbuf.
    split; [reflexivity|]. split; [rewrite <- Hbuf, <- Hbs; exact Hlt|].
    unfold IsKeyPinned. cbn [key_ buf_ set_key_size_ set_key_].
    rewrite BufLoc_eqb_refl. discriminate.
  - unfold IsKeyPinned. cbn [key_ buf_ set_key_size_ set_key_].
    rewrite BufLoc_eqb_refl. reflexivity.
  - cbn [is_user_key_ set_key_size_ set_key_]. exact M6.
Qed.

(** What [TrimAppend] does to a key builder that holds [kb]. *)
Lemma TrimAppend_holds (NDEBUG : bool) (uninit : nat -> byte) (k : IterKey)
    (kb : list byte) (shared_len : Z) (non_shared_data : Ptr)
    (non_shared_len : Z) (sfx : list byte) :
  holds k kb ->
  0 <= shared_len <= Z.of_nat (length kb) ->
  load non_shared_data non_shared_len = Ok sfx ->
  0 <= non_shared_len ->
  shared_len + non_shared_len < 2 ^ 64 ->
  exists k',
    TrimAppend NDEBUG uninit k shared_len non_shared_data non_shared_len
    = Ok k'
    /\ holds k' (firstn (Z.to_nat shared_len) kb ++ sfx)
    /\ IsKeyPinned k' = false
    /\ is_user_key_ k' = is_user_key_ k.
Proof.
  intros Hh Hsh Hload Hn Htot.
  set (pre := firstn (Z.to_nat shared_len) kb).
  assert (Hpre : Z.of_nat (length pre) = shared_len).
  { unfold pre. rewrite length_firstn. lia. }
  unfold TrimAppend.
  rewrite wrap64_small by lia.
  assert (Has : assert_ NDEBUG (shared_len <=? key_size_ k) = Ok tt).
  { unfold assert_. destruct Hh as (_ & Hks & _).
    replace (shared_len <=? key_size_ k) with true
      by (symmetry; apply Z.leb_le; lia).
    destruct NDEBUG; reflexivity. }
  rewrite Has. cbn [bind].
  (* the state [k2] before the suffix is copied, in each of the three
     branches *)
  assert (Hk2 : exists k2 rest2,
    (if IsKeyPinned k
     then let k0 := EnlargeBufferIfNeeded uninit k
                      (shared_len + non_shared_len) in
          memcpy_buf k0 0 (key_ k0) shared_len
     else if shared_len + non_shared_len >? buf_size_ k
          then bs <- load_key k (key_ k) shared_len ;;
               p <- store (uninit_bytes uninit (shared_len + non_shared_len))
                          0 bs ;;
               Ok (set_buf_new k p (shared_len + non_shared_len))
          else Ok k) = Ok k2
    /\ buf_mem k2 = pre ++ rest2
    /\ non_shared_len <= Z.of_nat (length rest2)
    /\ buf_size_ k2 = Z.of_nat (length (buf_mem k2))
    /\ buf_size_ k2 < 2 ^ 64
    /\ is_user_key_ k2 = is_user_key_ k).
  { destruct (IsKeyPinned k) eqn:Hp.
    - (* pinned: the shared bytes come from outside *)
      destruct Hh as (Hkb & Hks & Hbs & Hlt & Hpin).
      destruct (Hpin Hp) as [p Hkey].
      destruct (EnlargeBufferIfNeeded_room uninit k
                  (shared_len + non_shared_len) Hbs Hlt)
        as (R1 & R2 & R3 & R4 & R5); [lia|].
      cbv zeta.
      set (k0 := EnlargeBufferIfNeeded uninit k
                   (shared_len + non_shared_len)) in *.
      unfold memcpy_buf. rewrite R4, Hkey. cbn [load_key].
      unfold key_bytes in Hkb. rewrite Hkey in Hkb. cbn [load_key] in Hkb.
      rewrite (load_prefix _ _ _ _ Hkb) by lia. fold pre. cbn [bind].
      rewrite store_ok by lia. cbn [bind Z.to_nat firstn app].
      destruct (set_buf_mem_fields k0
                  (pre ++ skipn (0 + length pre) (buf_mem k0)))
        as (M1 & M2 & M3 & M4 & M5 & M6 & M7).
      eexists. exists (skipn (0 + length pre) (buf_mem k0)).
      split; [reflexivity|].
      rewrite M1, M5, M6, R5.
      rewrite length_app, length_skipn.
      repeat split; lia.
    - destruct (holds_owned k kb Hh Hp) as (Hkey & Hbuf & Hle).
      destruct Hh as (Hkb & Hks & Hbs & Hlt & Hpin).
      assert (Hpre' : load_key k (key_ k) shared_len = Ok pre).
      { unfold key_bytes in Hkb. rewrite Hkey, load_key_own_buf in *.
        apply (load_prefix _ _ _ _ Hkb). lia. }
      destruct (Z.gtb_spec (shared_len + non_shared_len) (buf_size_ k))
        as [Hgt|Hfit].
      + (* owned, too small: a new block gets the shared bytes *)
        rewrite Hpre'. cbn [bind].
        rewrite store_ok by (rewrite ?uninit_bytes_length; lia).
        cbn [bind Z.to_nat firstn app].
        eexists.
        exists (skipn (0 + length pre)
                  (uninit_bytes uninit (shared_len + non_shared_len))).
        split; [reflexivity|].
        unfold set_buf_new, buf_mem. cbn.
        rewrite length_app, length_skipn, uninit_bytes_length.
        repeat split; lia.
      + (* owned, large enough: the shared bytes stay where they are *)
        exists k, (skipn (Z.to_nat shared_len) kb
                   ++ skipn (length kb) (buf_mem k)).
        split; [reflexivity|].
        split.
        { rewrite Hbuf at 1. unfold pre.
          rewrite app_assoc, firstn_skipn. reflexivity. }
        rewrite length_app, !length_skipn.
        repeat split; (assumption || lia). }
  destruct Hk2 as (k2 & rest2 & E2 & Hbuf2 & Hroom & Hbs2 & Hlt2 & Hiu).
  cbv zeta in E2. rewrite E2. cbn [bind].
  destruct (TrimAppend_finish k2 pre rest2 non_shared_data non_shared_len sfx
              Hbuf2 Hload (conj Hn Hroom) Hbs2 Hlt2)
    as (k' & E & Hh' & Hp' & Hiu').
  rewrite Hpre in E.
  exists k'. split; [exact E|]. split; [exact Hh'|].
  split; [exact Hp'|]. congruence.
Qed.

Lemma shared_prefix_len_le (a b : list byte) :
  (shared_prefix_len a b <= length a)%nat
  /\ (shared_prefix_len a b <= length b)%nat
  /\ firstn (shared_prefix_len a b) a = firstn (shared_prefix_len a b) b.
Proof.
  revert b. induction a as [|x a IH]; intros [|y b]; cbn;
    try (repeat split; lia).
  destruct (Byte.eqb x y) eqn:E; [|repeat split; lia].
  apply Byte.byte_dec_bl in E. subst y.
  destruct (IH b) as (H1 & H2 & H3). cbn.
  split; [lia|]. split; [lia|]. f_equal. exact H3.
Qed.

(** Replaying the standard delta sequence of any list of keys gives the
    keys back, one per step. *)
Lemma replay_delta_sequence (NDEBUG : bool) (uninit : nat -> byte)
    (keys : list (list byte)) :
  forall (k : IterKey) (kb : list byte),
    holds k kb ->
    Forall addressable keys ->
    replay NDEBUG uninit k (delta_sequence kb keys) = Ok keys.
Proof.
  induction keys as [|key keys IH]; intros k kb Hh Hall; [reflexivity|].
  inversion Hall as [|? ? Hkey Hrest]. subst.
  cbn [delta_sequence replay delta_of].
  destruct (shared_prefix_len_le kb key) as (Hle & Hle' & Hpre).
  set (s := shared_prefix_len kb key) in *.
  destruct (TrimAppend_holds NDEBUG uninit k kb (Z.of_nat s)
              (ptr_to (skipn s key)) (Z.of_nat (length (skipn s key)))
              (skipn s key) Hh)
    as (k' & E & Hh' & _).
  - lia.
  - apply (slice_bytes_Slice_of (skipn s key)).
  - lia.
  - unfold addressable in Hkey. rewrite length_skipn. lia.
  - rewrite E. cbn [bind].
    rewrite Nat2Z.id, Hpre, firstn_skipn in Hh'.
    rewrite (proj1 Hh'). cbn [bind].
    rewrite (IH k' key Hh' Hrest). reflexivity.
Qed.

(** C7.  For a key builder that holds the bytes [kb], owned or pinned, and
    [shared_len <= |kb|], [TrimAppend] leaves it holding the first
    [shared_len] bytes of [kb] followed by the [non_shared_len] suffix bytes,
    in its own buffer; and replaying the shared-prefix delta sequence of a
    list of keys reproduces, step after step, every key of the list. *)
Theorem TrimAppend_delta_decode (NDEBUG : bool) (uninit : nat -> byte)
    (k : IterKey) (kb : list byte) :
  holds k kb ->
  (forall (shared_len : Z) (non_shared_data : Ptr) (non_shared_len : Z)
          (sfx : list byte),
      0 <= shared_len <= Z.of_nat (length kb) ->
      0 <= non_shared_len ->
      load non_shared_data non_shared_len = Ok sfx ->
      shared_len + non_shared_len < 2 ^ 64 ->
      exists k',
        TrimAppend NDEBUG uninit k shared_len non_shared_data non_shared_len
        = Ok k'
        /\ key_bytes k' = Ok (firstn (Z.to_nat shared_len) kb ++ sfx)
        /\ key_size_ k' = shared_len + non_shared_len
        /\ IsKeyPinned k' = false)
  /\ (forall keys : list (list byte),
        Forall addressable keys ->
        replay NDEBUG uninit k (delta_sequence kb keys) = Ok keys).
Proof.
  intros Hh. split.
  - intros shared_len non_shared_data non_shared_len sfx Hsh Hn Hload Htot.
    destruct (TrimAppend_holds NDEBUG uninit k kb shared_len non_shared_data
                non_shared_len sfx Hh Hsh Hload Hn Htot)
      as (k' & E & (Hkb & Hks & _) & Hp & _).
    exists k'. split; [exact E|]. split; [exact Hkb|]. split; [|exact Hp].
    rewrite Hks, length_app, length_firstn.
    pose proof (load_length _ _ _ Hn Hload). lia.
  - intros keys Hall. apply replay_delta_sequence; assumption.
Qed.

Lemma TrimAppend_delta_decode_witness :
  holds iter_key_pinned_foo_7 key_foo_7_value
  /\ IsKeyPinned iter_key_pinned_foo_7 = true
  /\ (exists k',
        TrimAppend false zeroed iter_key_pinned_foo_7 2
                   (ptr_to (bytes_of_Zs [120; 121])) 2 = Ok k'
        /\ key_bytes k' = Ok (bytes_of_Zs [102; 111; 120; 121])
        /\ key_size_ k' = 4
        /\ IsKeyPinned k' = false)
  /\ replay false zeroed iter_key_pinned_foo_7
       (delta_sequence key_foo_7_value sorted_keys) = Ok sorted_keys.
Proof.
  assert (H : holds iter_key_pinned_foo_7 key_foo_7_value).
  { repeat split; try (vm_compute; reflexivity).
    intros _. eexists. reflexivity. }
  split; [exact H|]. split; [reflexivity|].
  destruct (TrimAppend_delta_decode false zeroed iter_key_pinned_foo_7
              key_foo_7_value H) as [Hstep Hreplay].
  split.
  - apply (Hstep 2 (ptr_to (bytes_of_Zs [120; 121])) 2
                 (bytes_of_Zs [120; 121])).
    + vm_compute. split; discriminate.
    + lia.
    + reflexivity.
    + reflexivity.
  - apply Hreplay. repeat constructor.
Defined.

(** *** Reading parts of the held key *)

Lemma load_sub (p : Ptr) (m off n : Z) (bs : list byte) :
  load p m = Ok bs -> 0 <= off -> 0 <= n -> off + n <= m ->
  load (ptr_add p off) n
  = Ok (firstn (Z.to_nat n) (skipn (Z.to_nat off) bs)).
Proof.
  unfold load. intros H Hoff Hn Hle.
  destruct (Z.eqb_spec m 0) as [->|Hm].
  - replace n with 0 by lia. reflexivity.
  - destruct (in_bounds p m) eqn:Eb; [|discriminate].
    inversion H. subst bs. clear H.
    destruct (Z.eqb_spec n 0) as [->|Hn0]; [reflexivity|].
    unfold in_bounds, ptr_add in *. cbn [pos obj].
    apply andb_true_iff in Eb. destruct Eb as [E1 E2].
    apply Z.leb_le in E1, E2.
    replace (0 <=? pos p + off) with true by (symmetry; apply Z.leb_le; lia).
    replace (pos p + off + n <=? Z.of_nat (length (obj p))) with true
      by (symmetry; apply Z.leb_le; lia).
    cbn [andb]. f_equal.
    rewrite skipn_firstn_comm, skipn_skipn, firstn_firstn.
    f_equal; [lia|]. f_equal. lia.
Qed.

Lemma keyptr_add_0 (p : KeyPtr) : keyptr_add p 0 = p.
Proof.
  destruct p as [l off|[o q]]; cbn; unfold ptr_add; cbn;
    rewrite Z.add_0_r; reflexivity.
Qed.

Lemma keyptr_add_add (p : KeyPtr) (a b : Z) :
  keyptr_add (keyptr_add p a) b = keyptr_add p (a + b).
Proof.
  destruct p as [l off|[o q]]; cbn; unfold ptr_add; cbn;
    rewrite Z.add_assoc; reflexivity.
Qed.

Lemma load_key_zero (k : IterKey) (p : KeyPtr) : load_key k p 0 = Ok [].
Proof.
  destruct p as [[|id] off|q]; cbn; try reflexivity.
  destruct (BufLoc_eqb (buf_ k) (Heap id)); reflexivity.
Qed.

(** Reading [n] bytes at offset [off] of the held key, through [key_]. *)
Lemma load_key_sub (k : IterKey) (kb : list byte) (off n : Z) :
  holds k kb -> 0 <= off -> 0 <= n -> off + n <= Z.of_nat (length kb) ->
  load_key k (keyptr_add (key_ k) off) n
  = Ok (firstn (Z.to_nat n) (skipn (Z.to_nat off) kb)).
Proof.
  intros Hh Hoff Hn Hle.
  destruct (IsKeyPinned k) eqn:Hp.
  - destruct Hh as (Hkb & Hks & _ & _ & Hpin).
    destruct (Hpin Hp) as [p Hkey].
    unfold key_bytes in Hkb. rewrite Hkey in *. cbn [keyptr_add load_key] in *.
    apply (load_sub _ _ _ _ _ Hkb); lia.
  - destruct (holds_owned k kb Hh Hp) as (Hkey & _).
    destruct Hh as (Hkb & Hks & _).
    unfold key_bytes in Hkb. rewrite Hkey in *. cbn [keyptr_add].
    rewrite load_key_own_buf in *.
    apply (load_sub _ _ _ _ _ Hkb); lia.
Qed.

(** [SetKey(key)] copies the bytes into the buffer of the builder. *)
Lemma SetKey_copy_holds (uninit : nat -> byte) (k : IterKey)
    (kw : list byte) :
  buf_size_ k = Z.of_nat (length (buf_mem k)) ->
  buf_size_ k < 2 ^ 64 ->
  addressable kw ->
  exists k' s,
    SetKey uninit k (Slice_of kw) true = Ok (k', s)
    /\ holds k' kw
    /\ IsKeyPinned k' = false
    /\ is_user_key_ k' = is_user_key_ k.
Proof.
  intros Hbs Hlt Ha. unfold SetKey, SetKeyImpl, Slice_of. cbn [size_ data_].
  destruct (EnlargeBufferIfNeeded_room uninit k (Z.of_nat (length kw)) Hbs Hlt)
    as (R1 & R2 & R3 & R4 & R5); [unfold addressable in Ha; lia|].
  set (k0 := EnlargeBufferIfNeeded uninit k (Z.of_nat (length kw))) in *.
  destruct (TrimAppend_finish k0 [] (buf_mem k0) (ptr_to kw)
              (Z.of_nat (length kw)) kw eq_refl)
    as (k' & E & Hh & Hp & Hiu); try assumption.
  - apply (slice_bytes_Slice_of kw).
  - lia.
  - cbn [length Z.of_nat Z.add] in E.
    destruct (memcpy_buf k0 0 (Ext (ptr_to kw)) (Z.of_nat (length kw)))
      as [k3| |]; cbn [bind] in E; try discriminate.
    inversion E as [E']. cbn [bind]. rewrite E'.
    exists k', (GetKey k'). split; [reflexivity|].
    split; [exact Hh|]. split; [exact Hp|]. congruence.
Qed.

(** *** Splicing the timestamp *)

Lemma assert_true (NDEBUG : bool) (c : bool) :
  c = true -> assert_ NDEBUG c = Ok tt.
Proof. intros ->. unfold assert_. destruct NDEBUG; reflexivity. Qed.

(** The copy that ends [TrimAppendWithTimestamp]. *)
Lemma SetKey_result (uninit : nat -> byte) (k : IterKey) (kb kw : list byte) :
  holds k kb -> addressable kw ->
  exists k',
    (r <- SetKey uninit k (Slice_of kw) true ;; Ok (fst r)) = Ok k'
    /\ holds k' kw
    /\ IsKeyPinned k' = false
    /\ is_user_key_ k' = is_user_key_ k.
Proof.
  intros (_ & _ & Hbs & Hlt & _) Ha.
  destruct (SetKey_copy_holds uninit k kw Hbs Hlt Ha)
    as (k' & s & E & Hh & Hp & Hiu).
  exists k'. rewrite E. cbn [bind fst]. auto.
Qed.

Lemma MaybeAddKeyPartsWithTimestamp_add (NDEBUG : bool) (slice_data : KeyPtr)
    (slice_sz left_sz : Z) (min_timestamp : list byte)
    (key_parts : list KeySlice) :
  left_sz <= slice_sz ->
  MaybeAddKeyPartsWithTimestamp NDEBUG slice_data slice_sz true left_sz
    min_timestamp key_parts false
  = Ok (key_parts
          ++ [(slice_data, left_sz)]
          ++ [(Ext (ptr_to min_timestamp), Z.of_nat (length min_timestamp))]
          ++ [(keyptr_add slice_data left_sz, wrap64 (slice_sz - left_sz))],
        true).
Proof.
  intros H. unfold MaybeAddKeyPartsWithTimestamp. cbn [andb negb].
  rewrite assert_true by (apply Z.geb_le; exact H). reflexivity.
Qed.

Lemma MaybeAddKeyPartsWithTimestamp_skip (NDEBUG : bool) (slice_data : KeyPtr)
    (slice_sz left_sz : Z) (add_timestamp : bool) (min_timestamp : list byte)
    (key_parts : list KeySlice) (ts_added : bool) :
  add_timestamp && negb ts_added = false ->
  MaybeAddKeyPartsWithTimestamp NDEBUG slice_data slice_sz add_timestamp
    left_sz min_timestamp key_parts ts_added
  = Ok (key_parts ++ [(slice_data, slice_sz)], ts_added).
Proof.
  intros H. unfold MaybeAddKeyPartsWithTimestamp. rewrite H. reflexivity.
Qed.

(** Inserting [z] at position [n] of a list. *)
Lemma splice_app_l {A : Type} (x y z : list A) (n : nat) :
  (n <= length x)%nat ->
  firstn n (x ++ y) ++ z ++ skipn n (x ++ y)
  = firstn n x ++ z ++ skipn n x ++ y.
Proof.
  intros H. rewrite firstn_app, skipn_app.
  replace (n - length x)%nat with 0%nat by lia.
  cbn [firstn skipn]. rewrite app_nil_r. reflexivity.
Qed.

Lemma splice_app_r {A : Type} (x y z : list A) (n m : nat) :
  n = (length x + m)%nat ->
  firstn n (x ++ y) ++ z ++ skipn n (x ++ y)
  = x ++ firstn m y ++ z ++ skipn m y.
Proof.
  intros ->. rewrite firstn_app_2, skipn_app.
  rewrite skipn_all2 by lia.
  replace (length x + m - length x)%nat with m by lia.
  cbn [app]. rewrite <- app_assoc. reflexivity.
Qed.

Lemma TrimAppendWithTimestamp_splice (NDEBUG : bool) (uninit : nat -> byte)
    (k : IterKey) (uk old_ts footer : list byte) (shared_len : Z)
    (non_shared_data : Ptr) (non_shared_len : Z) (sfx : list byte)
    (ts_sz : Z) :
  holds k (uk ++ old_ts ++ footer) ->
  is_user_key_ k = false ->
  Z.of_nat (length old_ts) = ts_sz ->
  length footer = 8%nat ->
  0 <= shared_len <= Z.of_nat (length uk) + 8 ->
  0 <= non_shared_len ->
  load non_shared_data non_shared_len = Ok sfx ->
  8 <= shared_len + non_shared_len ->
  Z.of_nat (length uk) + ts_sz + 8 < 2 ^ 64 ->
  shared_len + non_shared_len + ts_sz < 2 ^ 64 ->
  let d := firstn (Z.to_nat shared_len) (uk ++ footer) ++ sfx in
  exists k',
    TrimAppendWithTimestamp NDEBUG uninit k shared_len non_shared_data
                            non_shared_len ts_sz = Ok k'
    /\ holds k' (with_min_timestamp d ts_sz)
    /\ IsKeyPinned k' = false
    /\ is_user_key_ k' = false.
Proof.
  intros Hh Hiu Hts Hfl Hsh Hn Hload Hmin Hks64 Htot d.
  unfold with_min_timestamp.
  pose proof (load_length _ _ _ Hn Hload) as Hsl.
  set (kb := uk ++ old_ts ++ footer) in *.
  assert (Hkl : Z.of_nat (length kb) = Z.of_nat (length uk) + ts_sz + 8).
  { unfold kb. rewrite !length_app. lia. }
  assert (Hks : key_size_ k = Z.of_nat (length uk) + ts_sz + 8).
  { destruct Hh as (_ & Hks & _). lia. }
  set (U := Z.of_nat (length uk)) in *.
  set (suk := Z.min shared_len U).
  set (sib := shared_len - suk).
  set (zeros := repeat Byte.x00 (Z.to_nat ts_sz)).
  assert (Hzl : Z.of_nat (length zeros) = ts_sz)
    by (unfold zeros; rewrite repeat_length; lia).
  (* the kept user-key bytes and the kept footer bytes *)
  set (A := firstn (Z.to_nat suk) uk).
  set (B := firstn (Z.to_nat sib) footer).
  assert (HA : length A = Z.to_nat suk)
    by (unfold A; rewrite length_firstn; lia).
  assert (HB : length B = Z.to_nat sib)
    by (unfold B; rewrite length_firstn; lia).
  assert (Hd : d = A ++ B ++ sfx).
  { assert (EA : firstn (Z.to_nat shared_len) uk = A).
    { unfold A. destruct (Z.le_ge_cases shared_len U);
        [f_equal; lia|rewrite !firstn_all2 by lia; reflexivity]. }
    assert (EB : firstn (Z.to_nat shared_len - length uk) footer = B).
    { unfold B. f_equal. lia. }
    unfold d. rewrite firstn_app, EA, EB, <- app_assoc. reflexivity. }
  assert (Hdl : length d = Z.to_nat (shared_len + non_shared_len)).
  { rewrite Hd, !length_app, HA, HB. lia. }
  (* reading the kept bytes through [key_] *)
  assert (RA : forall a n, 0 <= a -> 0 <= n -> a + n <= suk ->
             load_key k (keyptr_add (key_ k) a) n
             = Ok (firstn (Z.to_nat n) (skipn (Z.to_nat a) A))).
  { intros a n Ha0 Hn0 Han.
    rewrite (load_key_sub k kb a n Hh) by lia. f_equal.
    unfold A, kb.
    rewrite skipn_firstn_comm, firstn_firstn, skipn_app, firstn_app.
    rewrite length_skipn.
    replace (Z.to_nat n - (length uk - Z.to_nat a))%nat with 0%nat by lia.
    cbn [firstn]. rewrite app_nil_r. f_equal. lia. }
  assert (RB : forall a n, 0 <= a -> 0 <= n -> a + n <= sib ->
             load_key k (keyptr_add (key_ k) (U + ts_sz + a)) n
             = Ok (firstn (Z.to_nat n) (skipn (Z.to_nat a) B))).
  { intros a n Ha0 Hn0 Han.
    rewrite (load_key_sub k kb (U + ts_sz + a) n Hh) by lia. f_equal.
    unfold B, kb.
    rewrite skipn_firstn_comm, firstn_firstn.
    replace (Z.to_nat (U + ts_sz + a))
      with (Z.to_nat a + length (uk ++ old_ts))%nat
      by (rewrite length_app; lia).
    rewrite app_assoc, <- skipn_skipn, skipn_app, skipn_all, Nat.sub_diag.
    cbn [skipn app]. f_equal. lia. }
  assert (RA0 : forall n, 0 <= n <= suk ->
              load_key k (key_ k) n = Ok (firstn (Z.to_nat n) A)).
  { intros n Hn0. rewrite <- (keyptr_add_0 (key_ k)).
    rewrite RA by lia. reflexivity. }
  assert (RB0 : forall n, 0 <= n <= sib ->
              load_key k (keyptr_add (key_ k) (U + ts_sz)) n
              = Ok (firstn (Z.to_nat n) B)).
  { intros n Hn0. rewrite <- (Z.add_0_r (U + ts_sz)).
    rewrite RB by lia. reflexivity. }
  assert (RZ : load_key k (Ext (ptr_to zeros)) (Z.of_nat (length zeros))
               = Ok zeros)
    by apply (slice_bytes_Slice_of zeros).
  assert (Hfin : forall kw,
             kw = user_key_bytes d ++ zeros ++ footer_bytes d ->
             exists k',
               (r <- SetKey uninit k (Slice_of kw) true ;; Ok (fst r)) = Ok k'
               /\ holds k' (user_key_bytes d ++ zeros ++ footer_bytes d)
               /\ IsKeyPinned k' = false
               /\ is_user_key_ k' = false).
  { intros kw ->.
    destruct (SetKey_result uninit k kb
                (user_key_bytes d ++ zeros ++ footer_bytes d) Hh)
      as (k' & E & Hh' & Hp' & Hiu').
    - unfold addressable, user_key_bytes, footer_bytes.
      rewrite !length_app, length_firstn, length_skipn. lia.
    - exists k'. split; [exact E|]. split; [exact Hh'|].
      split; [exact Hp'|]. congruence. }
  unfold TrimAppendWithTimestamp, IsUserKey. rewrite Hiu, Hks.
  rewrite (wrap64_small (shared_len + non_shared_len)) by lia.
  rewrite assert_true by (apply Z.geb_le; unfold kNumInternalBytes; lia).
  cbn [bind]. unfold kNumInternalBytes.
  replace (wrap64 (U + ts_sz + 8 - 8)) with (U + ts_sz)
    by (rewrite wrap64_small by lia; lia).
  replace (wrap64 (U + ts_sz - ts_sz)) with U
    by (rewrite wrap64_small by lia; lia).
  fold suk.
  replace (wrap64 (shared_len - suk)) with sib
    by (rewrite wrap64_small by lia; lia).
  rewrite (wrap64_small (sib + non_shared_len)) by lia.
  fold zeros.
  unfold user_key_bytes, footer_bytes in *. rewrite Hdl in *.
  destruct (Z.ltb_spec (sib + non_shared_len) 8) as [C1|C1].
  - (* the timestamp goes inside the kept user-key bytes *)
    rewrite (wrap64_small (shared_len + non_shared_len - 8)) by lia.
    rewrite MaybeAddKeyPartsWithTimestamp_add by lia. cbn [bind fst snd].
    rewrite MaybeAddKeyPartsWithTimestamp_skip
      by (cbn [negb]; apply andb_false_r). cbn [bind fst snd].
    rewrite MaybeAddKeyPartsWithTimestamp_skip
      by (cbn [negb]; apply andb_false_r). cbn [bind fst snd].
    rewrite assert_true by reflexivity. cbn [bind app concat_parts].
    rewrite (wrap64_small (suk - (shared_len + non_shared_len - 8))) by lia.
    rewrite RA0, RZ, RA, RB0 by lia. cbn [load_key]. rewrite Hload.
    cbn [bind]. apply Hfin.
    rewrite Hd.
    rewrite (splice_app_l A (B ++ sfx) zeros) by lia.
    rewrite (firstn_all2 (n := Z.to_nat
                            (suk - (shared_len + non_shared_len - 8))))
      by (rewrite length_skipn; lia).
    rewrite (firstn_all2 B) by lia.
    rewrite app_nil_r.
    replace (Z.to_nat (shared_len + non_shared_len) - 8)%nat
      with (Z.to_nat (shared_len + non_shared_len - 8)) by lia.
    reflexivity.
  - rewrite MaybeAddKeyPartsWithTimestamp_skip by reflexivity.
    cbn [bind fst snd].
    destruct (Z.ltb_spec non_shared_len 8) as [C2|C2].
    + (* the timestamp goes inside the kept footer bytes *)
      rewrite (wrap64_small (sib + non_shared_len - 8)) by lia.
      rewrite MaybeAddKeyPartsWithTimestamp_add by lia. cbn [bind fst snd].
      rewrite MaybeAddKeyPartsWithTimestamp_skip
        by (cbn [negb]; apply andb_false_r). cbn [bind fst snd].
      rewrite assert_true by reflexivity. cbn [bind app concat_parts].
      rewrite (wrap64_small (sib - (sib + non_shared_len - 8))) by lia.
      rewrite keyptr_add_add.
      rewrite RA0, RB0, RZ, RB by lia. cbn [load_key]. rewrite Hload.
      cbn [bind]. apply Hfin.
      rewrite Hd.
      rewrite (firstn_all2 A) by lia.
      rewrite (splice_app_r A (B ++ sfx) zeros _
                 (Z.to_nat (sib + non_shared_len - 8))) by lia.
      rewrite (splice_app_l B sfx zeros) by lia.
      rewrite (firstn_all2 (n := Z.to_nat
                              (sib - (sib + non_shared_len - 8))))
        by (rewrite length_skipn; lia).
      rewrite app_nil_r. reflexivity.
    + (* the timestamp goes inside the new suffix bytes *)
      rewrite MaybeAddKeyPartsWithTimestamp_skip
        by (replace (non_shared_len <? 8) with false
              by (symmetry; apply Z.ltb_ge; lia); reflexivity).
      cbn [bind fst snd].
      replace (non_shared_len >=? 8) with true
        by (symmetry; apply Z.geb_le; lia).
      rewrite (wrap64_small (non_shared_len - 8)) by lia.
      rewrite MaybeAddKeyPartsWithTimestamp_add by lia. cbn [bind fst snd].
      rewrite assert_true by reflexivity. cbn [bind app concat_parts].
      rewrite (wrap64_small (non_shared_len - (non_shared_len - 8))) by lia.
      rewrite RA0, RB0, RZ by lia. cbn [load_key keyptr_add].
      rewrite (load_prefix _ _ _ _ Hload) by lia.
      rewrite (load_sub _ _ _ _ _ Hload) by lia.
      cbn [bind]. apply Hfin.
      rewrite Hd.
      rewrite (firstn_all2 A), (firstn_all2 B) by lia.
      rewrite (splice_app_r A (B ++ sfx) zeros _
                 (Z.to_nat (sib + non_shared_len - 8))) by lia.
      rewrite (splice_app_r B sfx zeros _
                 (Z.to_nat (non_shared_len - 8))) by lia.
      rewrite (firstn_all2 (n := Z.to_nat
                              (non_shared_len - (non_shared_len - 8))))
        by (rewrite length_skipn; lia).
      rewrite app_nil_r. reflexivity.
Qed.

(** The first key of a run: nothing is shared, whatever the builder held. *)
Lemma TrimAppendWithTimestamp_first (NDEBUG : bool) (uninit : nat -> byte)
    (k : IterKey) (kb : list byte) (non_shared_data : Ptr)
    (non_shared_len : Z) (sfx : list byte) (ts_sz : Z) :
  holds k kb ->
  is_user_key_ k = false ->
  0 <= ts_sz ->
  load non_shared_data non_shared_len = Ok sfx ->
  8 <= non_shared_len ->
  non_shared_len + ts_sz < 2 ^ 64 ->
  exists k',
    TrimAppendWithTimestamp NDEBUG uninit k 0 non_shared_data
                            non_shared_len ts_sz = Ok k'
    /\ holds k' (with_min_timestamp sfx ts_sz)
    /\ IsKeyPinned k' = false
    /\ is_user_key_ k' = false.
Proof.
  intros Hh Hiu Hts Hload Hmin Htot.
  assert (Hn : 0 <= non_shared_len) by lia.
  pose proof (load_length _ _ _ Hn Hload) as Hsl.
  set (zeros := repeat Byte.x00 (Z.to_nat ts_sz)).
  assert (RZ : load_key k (Ext (ptr_to zeros)) (Z.of_nat (length zeros))
               = Ok zeros)
    by apply (slice_bytes_Slice_of zeros).
  unfold TrimAppendWithTimestamp, IsUserKey, with_min_timestamp.
  rewrite Hiu. fold zeros. cbn [Z.add].
  rewrite (wrap64_small non_shared_len) by lia.
  rewrite assert_true by (apply Z.geb_le; unfold kNumInternalBytes; lia).
  cbn [bind]. unfold kNumInternalBytes.
  set (user_key_len := wrap64 (key_size_ k - 8)).
  assert (Hmin0 : Z.min 0 (wrap64 (user_key_len - ts_sz)) = 0).
  { apply Z.min_l. unfold wrap64. apply Z.mod_pos_bound. lia. }
  rewrite Hmin0. cbn [Z.sub Z.opp Z.add].
  change (wrap64 0) with 0. cbn [Z.add].
  replace (wrap64 non_shared_len <? 8) with false
    by (rewrite wrap64_small by lia; symmetry; apply Z.ltb_ge; lia).
  replace (non_shared_len <? 8) with false
    by (symmetry; apply Z.ltb_ge; lia).
  replace (non_shared_len >=? 8) with true
    by (symmetry; apply Z.geb_le; lia).
  rewrite MaybeAddKeyPartsWithTimestamp_skip by reflexivity.
  cbn [bind fst snd].
  rewrite MaybeAddKeyPartsWithTimestamp_skip by reflexivity.
  cbn [bind fst snd].
  rewrite (wrap64_small (non_shared_len - 8)) by lia.
  rewrite MaybeAddKeyPartsWithTimestamp_add by lia. cbn [bind fst snd].
  rewrite assert_true by reflexivity. cbn [bind app concat_parts].
  rewrite (wrap64_small (non_shared_len - (non_shared_len - 8))) by lia.
  rewrite !load_key_zero, RZ. cbn [load_key keyptr_add].
  rewrite (load_prefix _ _ _ _ Hload) by lia.
  rewrite (load_sub _ _ _ _ _ Hload) by lia.
  cbn [bind app].
  rewrite (firstn_all2 (n := Z.to_nat (non_shared_len - (non_shared_len - 8))))
    by (rewrite length_skipn; lia).
  rewrite app_nil_r.
  unfold user_key_bytes, footer_bytes.
  replace (length sfx - 8)%nat with (Z.to_nat (non_shared_len - 8)) by lia.
  destruct (SetKey_result uninit k kb
              (firstn (Z.to_nat (non_shared_len - 8)) sfx ++ zeros
               ++ skipn (Z.to_nat (non_shared_len - 8)) sfx) Hh)
    as (k' & E & Hh' & Hp' & Hiu').
  - unfold addressable, zeros.
    rewrite !length_app, length_firstn, length_skipn, repeat_length. lia.
  - exists k'. split; [exact E|]. split; [exact Hh'|].
    split; [exact Hp'|]. congruence.
Qed.

Lemma footer_bytes_app (x f : list byte) :
  length f = 8%nat -> footer_bytes (x ++ f) = f.
Proof.
  intros H. unfold footer_bytes. rewrite length_app, H.
  replace (length x + 8 - 8)%nat with (length x) by lia.
  rewrite skipn_app, skipn_all, Nat.sub_diag. reflexivity.
Qed.

Lemma footer_bytes_with_min_timestamp (d : list byte) (ts_sz : Z) :
  (8 <= length d)%nat ->
  footer_bytes (with_min_timestamp d ts_sz) = footer_bytes d.
Proof.
  intros H. unfold with_min_timestamp. rewrite app_assoc.
  apply footer_bytes_app. apply footer_bytes_length. exact H.
Qed.

(** C5.  In internal-key mode [TrimAppendWithTimestamp] leaves the builder
    holding the delta-decoded key with [ts_sz] zero bytes inserted once,
    between its user key and its 8-byte footer, wherever that position falls:
    in the kept user-key bytes, in the kept footer bytes or in the new suffix
    bytes.  The delta-decoded key is the first [shared_len] bytes of the held
    key without its timestamp, followed by the suffix; for a first key
    ([shared_len = 0]) it is the suffix, whatever was held before. *)
Theorem TrimAppendWithTimestamp_pads_min_timestamp (NDEBUG : bool)
    (uninit : nat -> byte) (k : IterKey) (kb : list byte) (shared_len : Z)
    (non_shared_data : Ptr) (non_shared_len : Z) (sfx : list byte)
    (ts_sz : Z) :
  holds k kb ->
  is_user_key_ k = false ->
  addressable kb ->
  0 <= ts_sz ->
  0 <= non_shared_len ->
  load non_shared_data non_shared_len = Ok sfx ->
  8 <= shared_len + non_shared_len ->
  shared_len + non_shared_len + ts_sz < 2 ^ 64 ->
  (forall uk old_ts footer : list byte,
      kb = uk ++ old_ts ++ footer ->
      Z.of_nat (length old_ts) = ts_sz ->
      length footer = 8%nat ->
      0 <= shared_len <= Z.of_nat (length uk) + 8 ->
      let d := firstn (Z.to_nat shared_len) (uk ++ footer) ++ sfx in
      exists k',
        TrimAppendWithTimestamp NDEBUG uninit k shared_len non_shared_data
                                non_shared_len ts_sz = Ok k'
        /\ key_bytes k' = Ok (with_min_timestamp d ts_sz)
        /\ footer_bytes (with_min_timestamp d ts_sz) = footer_bytes d
        /\ length (with_min_timestamp d ts_sz)
           = (length d + Z.to_nat ts_sz)%nat
        /\ is_user_key_ k' = false)
  /\ (shared_len = 0 ->
      exists k',
        TrimAppendWithTimestamp NDEBUG uninit k shared_len non_shared_data
                                non_shared_len ts_sz = Ok k'
        /\ key_bytes k' = Ok (with_min_timestamp sfx ts_sz)
        /\ is_user_key_ k' = false).
Proof.
  intros Hh Hiu Ha Hts Hn Hload Hmin Htot.
  pose proof (load_length _ _ _ Hn Hload) as Hsl.
  split.
  - intros uk old_ts footer -> Hol Hfl Hsh d.
    destruct (TrimAppendWithTimestamp_splice NDEBUG uninit k uk old_ts footer
                shared_len non_shared_data non_shared_len sfx ts_sz
                Hh Hiu Hol Hfl Hsh Hn Hload Hmin)
      as (k' & E & (Hkb & _) & _ & Hiu'); [|exact Htot|].
    { unfold addressable in Ha. rewrite !length_app in Ha. lia. }
    exists k'. split; [exact E|]. split; [exact Hkb|].
    assert (Hdl : (8 <= length d)%nat).
    { unfold d. rewrite length_app, length_firstn, length_app. lia. }
    split; [|split; [|exact Hiu']].
    + apply footer_bytes_with_min_timestamp. exact Hdl.
    + unfold with_min_timestamp, user_key_bytes, footer_bytes.
      rewrite !length_app, length_firstn, length_skipn, repeat_length. lia.
  - intros ->.
    destruct (TrimAppendWithTimestamp_first NDEBUG uninit k kb
                non_shared_data non_shared_len sfx ts_sz
                Hh Hiu Hts Hload)
      as (k' & E & (Hkb & _) & _ & Hiu'); [lia|lia|].
    exists k'. auto.
Qed.

Lemma TrimAppendWithTimestamp_pads_min_timestamp_witness :
  holds iter_key_20 key_20
  /\ let d := firstn 12 (key_20_user ++ key_20_footer)
              ++ bytes_of_Zs [9; 1] in
     exists k',
       TrimAppendWithTimestamp false zeroed iter_key_20 12
         (ptr_to (bytes_of_Zs [9; 1])) 2 4 = Ok k'
       /\ key_bytes k' = Ok (with_min_timestamp d 4)
       /\ footer_bytes (with_min_timestamp d 4) = footer_bytes d
       /\ length (with_min_timestamp d 4) = (length d + 4)%nat
       /\ is_user_key_ k' = false.
Proof.
  assert (H : holds iter_key_20 key_20).
  { repeat split; try (vm_compute; reflexivity). discriminate. }
  split; [exact H|].
  destruct (TrimAppendWithTimestamp_pads_min_timestamp
              false zeroed iter_key_20 key_20 12
              (ptr_to (bytes_of_Zs [9; 1])) 2 (bytes_of_Zs [9; 1]) 4 H)
    as [Hsplice _].
  - reflexivity.
  - vm_compute. reflexivity.
  - lia.
  - lia.
  - reflexivity.
  - lia.
  - vm_compute. reflexivity.
  - apply (Hsplice key_20_user (bytes_of_Zs [1; 2; 3; 4]) key_20_footer).
    + reflexivity.
    + reflexivity.
    + reflexivity.
    + vm_compute. split; discriminate.
Defined.

(** The four places the timestamp can fall in, on the key of 20 bytes with
    its timestamp of 4 bytes: each run gives the delta-decoded key with the
    four zero bytes before its footer. *)
Example splice_inside_kept_user_key :
  (k' <- TrimAppendWithTimestamp false zeroed iter_key_20 12
           (ptr_to (bytes_of_Zs [9; 1])) 2 4 ;;
   key_bytes k')
  = Ok (with_min_timestamp
          (firstn 12 (key_20_user ++ key_20_footer) ++ bytes_of_Zs [9; 1]) 4).
Proof. vm_compute. reflexivity. Qed.

Example splice_inside_kept_footer :
  (k' <- TrimAppendWithTimestamp false zeroed iter_key_20 12
           (ptr_to (bytes_of_Zs [9; 1; 2; 3; 4; 5])) 6 4 ;;
   key_bytes k')
  = Ok (with_min_timestamp
          (firstn 12 (key_20_user ++ key_20_footer)
           ++ bytes_of_Zs [9; 1; 2; 3; 4; 5]) 4).
Proof. vm_compute. reflexivity. Qed.

Example splice_on_boundary :
  (k' <- TrimAppendWithTimestamp false zeroed iter_key_20 8
           (ptr_to (bytes_of_Zs [9; 1; 2; 3; 4; 5; 6; 7])) 8 4 ;;
   key_bytes k')
  = Ok (with_min_timestamp
          (firstn 8 (key_20_user ++ key_20_footer)
           ++ bytes_of_Zs [9; 1; 2; 3; 4; 5; 6; 7]) 4).
Proof. vm_compute. reflexivity. Qed.

Example splice_inside_suffix :
  (k' <- TrimAppendWithTimestamp false zeroed iter_key_20 4
           (ptr_to (bytes_of_Zs [120; 121; 122; 119; 9; 1; 2; 3; 4; 5; 6; 7]))
           12 4 ;;
   key_bytes k')
  = Ok (with_min_timestamp
          (firstn 4 (key_20_user ++ key_20_footer)
           ++ bytes_of_Zs [120; 121; 122; 119; 9; 1; 2; 3; 4; 5; 6; 7]) 4).
Proof. vm_compute. reflexivity. Qed.

(** A tombstone with a timestamp: the end key gets the maximal timestamp,
    and the serialized end key sorts before the end key at its own
    timestamp, under a comparator that puts larger timestamps first. *)
Example SerializeEndKey_with_timestamp :
  (t <- RangeTombstone_new_ts false (Slice_of user_key_a_ts)
          (Slice_of user_key_m_ts) 5 (Slice_of timestamp_42) ;;
   e <- SerializeEndKey false t ;;
   r <- Compare false (bytewise_compare_with_ts 4) (Slice_of (rep_ e))
          (Slice_of (encode user_key_m_ts 1 kTypeValue)) ;;
   Ok (rep_ e, r))
  = Ok (encode (bytes_of_Zs [109; 255; 255; 255; 255]) kMaxSequenceNumber
               kTypeRangeDeletion,
        -1).
Proof. vm_compute. reflexivity. Qed.

(** * Further properties *)

(** ** Tags and footers *)

(** X1.  Every inline value type is an extended value type; the extended
    value types are the seven inline ones, [kTypeRangeDeletion] and
    [kTypeMaxValid]; none of them uses the highest bit of the byte. *)
Theorem extended_value_types (t : ValueType) :
  0 <= t < 256 ->
  (IsValueType t = true <->
   In t [kTypeDeletion; kTypeValue; kTypeMerge; kTypeSingleDeletion;
         kTypeDeletionWithTimestamp; kTypeWideColumnEntity; kTypeBlobIndex])
  /\ (IsExtendedValueType t = true <->
      IsValueType t = true \/ t = kTypeRangeDeletion \/ t = kTypeMaxValid)
  /\ (IsExtendedValueType t = true ->
      t <= kMaxValue /\ Z.testbit t 7 = false).
Proof.
  intros Ht.
  assert (Hv : IsValueType t = true <->
               In t [kTypeDeletion; kTypeValue; kTypeMerge;
                     kTypeSingleDeletion; kTypeDeletionWithTimestamp;
                     kTypeWideColumnEntity; kTypeBlobIndex]).
  { unfold IsValueType, kTypeDeletion, kTypeValue, kTypeMerge,
      kTypeSingleDeletion, kTypeDeletionWithTimestamp, kTypeWideColumnEntity,
      kTypeBlobIndex. cbn [In].
    rewrite !orb_true_iff, Z.leb_le, !Z.eqb_eq. lia. }
  assert (Hx : IsExtendedValueType t = true <->
               IsValueType t = true \/ t = kTypeRangeDeletion
               \/ t = kTypeMaxValid).
  { unfold IsExtendedValueType. rewrite !orb_true_iff, !Z.eqb_eq. tauto. }
  split; [exact Hv|]. split; [exact Hx|].
  intros H.
  pose proof (IsExtendedValueType_le t (proj1 Ht) H) as Hle.
  unfold kTypeMaxValid, kMaxValue in *. split; [lia|].
  destruct (Z.eq_dec t 0) as [->|Hne]; [reflexivity|].
  apply Z.bits_above_log2; [lia|].
  apply Z.log2_lt_pow2; [lia|]. change (2 ^ 7) with 128. lia.
Qed.

Lemma extended_value_types_witness :
  0 <= kTypeRangeDeletion < 256
  /\ IsValueType kTypeRangeDeletion = false
  /\ IsExtendedValueType kTypeRangeDeletion = true
  /\ Z.testbit kTypeRangeDeletion 7 = false.
Proof.
  assert (H : 0 <= kTypeRangeDeletion < 256)
    by (unfold kTypeRangeDeletion; lia).
  split; [exact H|]. split; [reflexivity|].
  assert (Hx : IsExtendedValueType kTypeRangeDeletion = true).
  { apply (proj1 (proj2 (extended_value_types kTypeRangeDeletion H))).
    right. left. reflexivity. }
  split; [exact Hx|].
  exact (proj2 (proj2 (proj2 (extended_value_types kTypeRangeDeletion H))
                  Hx)).
Defined.

Lemma UnPackSequenceAndType_pack (seq t : Z) :
  0 <= seq -> 0 <= t < 256 ->
  UnPackSequenceAndType (Z.lor (Z.shiftl seq 8) t) = Ok (seq, t).
Proof.
  intros Hs Ht. unfold UnPackSequenceAndType.
  destruct (unpack_pack seq t Hs Ht) as [-> ->]. reflexivity.
Qed.

(** X2.  Unpacking what [PackSequenceAndType] packed gives back the
    sequence number and the tag, and the packed value fits in 64 bits. *)
Theorem UnPackSequenceAndType_PackSequenceAndType (NDEBUG : bool)
    (seq : SequenceNumber) (t : ValueType) :
  0 <= seq <= kMaxSequenceNumber ->
  0 <= t < 256 ->
  IsExtendedValueType t = true ->
  exists packed,
    PackSequenceAndType NDEBUG seq t = Ok packed
    /\ is_uint64 packed
    /\ UnPackSequenceAndType packed = Ok (seq, t).
Proof.
  intros Hs Ht Hx. exists (Z.lor (Z.shiftl seq 8) t).
  split; [apply PackSequenceAndType_ok; assumption|].
  split; [|apply UnPackSequenceAndType_pack; lia].
  rewrite pack_value by exact Ht. rewrite kMaxSequenceNumber_value in Hs.
  unfold is_uint64. change (2 ^ 64) with (256 * 2 ^ 56). lia.
Qed.

Lemma UnPackSequenceAndType_PackSequenceAndType_witness :
  exists packed,
    PackSequenceAndType false 7 kTypeMerge = Ok packed
    /\ is_uint64 packed
    /\ UnPackSequenceAndType packed = Ok (7, kTypeMerge).
Proof.
  apply (UnPackSequenceAndType_PackSequenceAndType false 7 kTypeMerge).
  - vm_compute. split; discriminate.
  - vm_compute. split; [discriminate|reflexivity].
  - reflexivity.
Defined.

(** X3.  [PackSequenceAndType] embeds the order on (sequence, tag) pairs in
    the order on 64-bit integers: a packed value is smaller exactly when its
    sequence number is smaller, or the sequence numbers are equal and its
    tag is smaller; equal packed values come from equal pairs. *)
Theorem PackSequenceAndType_order (NDEBUG : bool)
    (seq1 seq2 : SequenceNumber) (t1 t2 : ValueType) :
  0 <= seq1 <= kMaxSequenceNumber -> 0 <= seq2 <= kMaxSequenceNumber ->
  0 <= t1 < 256 -> 0 <= t2 < 256 ->
  IsExtendedValueType t1 = true -> IsExtendedValueType t2 = true ->
  exists p1 p2,
    PackSequenceAndType NDEBUG seq1 t1 = Ok p1
    /\ PackSequenceAndType NDEBUG seq2 t2 = Ok p2
    /\ (p1 < p2 <-> seq1 < seq2 \/ (seq1 = seq2 /\ t1 < t2))
    /\ (p1 = p2 <-> seq1 = seq2 /\ t1 = t2).
Proof.
  intros Hs1 Hs2 Ht1 Ht2 Hx1 Hx2.
  exists (Z.lor (Z.shiftl seq1 8) t1), (Z.lor (Z.shiftl seq2 8) t2).
  split; [apply PackSequenceAndType_ok; assumption|].
  split; [apply PackSequenceAndType_ok; assumption|].
  rewrite !pack_value by assumption. split; split; intros; lia.
Qed.

Lemma PackSequenceAndType_order_witness :
  exists p1 p2,
    PackSequenceAndType false 7 kTypeBlobIndex = Ok p1
    /\ PackSequenceAndType false 8 kTypeDeletion = Ok p2
    /\ (p1 < p2 <-> 7 < 8 \/ (7 = 8 /\ kTypeBlobIndex < kTypeDeletion))
    /\ (p1 = p2 <-> 7 = 8 /\ kTypeBlobIndex = kTypeDeletion).
Proof.
  apply (PackSequenceAndType_order false 7 8 kTypeBlobIndex kTypeDeletion).
  - vm_compute. split; discriminate.
  - vm_compute. split; discriminate.
  - vm_compute. split; [discriminate|reflexivity].
  - vm_compute. split; [discriminate|reflexivity].
  - reflexivity.
  - reflexivity.
Defined.

Lemma wrap64_shiftl_8 (seq : Z) :
  wrap64 (Z.shiftl seq 8) = Z.shiftl (seq mod 2 ^ 56) 8.
Proof.
  unfold wrap64. rewrite !Z.shiftl_mul_pow2 by lia.
  change (2 ^ 64) with (2 ^ 56 * 2 ^ 8).
  apply Z.mul_mod_distr_r; lia.
Qed.

(** X4.  The assertions of [PackSequenceAndType] fail exactly on a sequence
    number above [kMaxSequenceNumber] or a tag that is not an extended value
    type.  Compiled without them, the function packs whatever it is given:
    the bits of the sequence number above the 56th are dropped. *)
Theorem PackSequenceAndType_guard (seq : Z) (t : ValueType) :
  is_uint64 seq ->
  0 <= t < 256 ->
  (PackSequenceAndType false seq t = AssertionFailure
   <-> kMaxSequenceNumber < seq \/ IsExtendedValueType t = false)
  /\ exists packed,
      PackSequenceAndType true seq t = Ok packed
      /\ UnPackSequenceAndType packed = Ok (seq mod 2 ^ 56, t).
Proof.
  intros Hs Ht. split.
  - unfold PackSequenceAndType, assert_.
    destruct (Z.leb_spec seq kMaxSequenceNumber) as [Hle|Hgt]; cbn [bind].
    + destruct (IsExtendedValueType t) eqn:Hx; cbn [orb bind].
      * split; [discriminate|]. intros [H|H]; [lia|discriminate].
      * replace (t =? kTypeMaxValid) with false.
        { split; auto. }
        symmetry. apply Z.eqb_neq. intros ->. discriminate Hx.
    + split; [intros _; left; lia|reflexivity].
  - exists (Z.lor (Z.shiftl (seq mod 2 ^ 56) 8) t).
    split.
    + unfold PackSequenceAndType, assert_. cbn [bind].
      rewrite wrap64_shiftl_8. reflexivity.
    + apply UnPackSequenceAndType_pack; [|exact Ht].
      apply Z.mod_pos_bound. lia.
Qed.

Lemma PackSequenceAndType_guard_witness :
  is_uint64 (2 ^ 56 + 5)
  /\ PackSequenceAndType false (2 ^ 56 + 5) kTypeValue = AssertionFailure
  /\ exists packed,
      PackSequenceAndType true (2 ^ 56 + 5) kTypeValue = Ok packed
      /\ UnPackSequenceAndType packed = Ok (5, kTypeValue).
Proof.
  assert (H : is_uint64 (2 ^ 56 + 5)) by (unfold is_uint64; lia).
  assert (Ht : 0 <= kTypeValue < 256) by (unfold kTypeValue; lia).
  destruct (PackSequenceAndType_guard (2 ^ 56 + 5) kTypeValue H Ht)
    as [Hfail Hwrap].
  split; [exact H|]. split.
  - apply Hfail. left. vm_compute. reflexivity.
  - exact Hwrap.
Defined.

(** ** The parts of an internal key *)

Lemma load_middle (a b c : list byte) :
  load (mkPtr (a ++ b ++ c) (Z.of_nat (length a))) (Z.of_nat (length b))
  = Ok b.
Proof.
  rewrite load_ok by (rewrite ?length_app; lia).
  rewrite !Nat2Z.id, skipn_app, skipn_all, Nat.sub_diag.
  cbn [skipn app]. rewrite firstn_app, firstn_all, Nat.sub_diag.
  cbn [firstn]. rewrite app_nil_r. reflexivity.
Qed.

(** X5.  On an internal key that is a user key [p], a timestamp [ts] and a
    footer of 8 bytes, the extractors return the parts:
    [ExtractUserKey] reads [p ++ ts], [ExtractUserKeyAndStripTimestamp]
    reads [p], [ExtractTimestampFromKey] reads [ts],
    [ExtractInternalKeyFooter] decodes the footer; and stripping or
    extracting the timestamp of the extracted user key gives [p] and [ts]
    again. *)
Theorem Extract_parts_of_internal_key (NDEBUG : bool) (p ts f : list byte) :
  addressable (p ++ ts ++ f) ->
  length f = 8%nat ->
  let k := Slice_of (p ++ ts ++ f) in
  let ts_sz := Z.of_nat (length ts) in
  slice_reads (ExtractUserKey NDEBUG k) (p ++ ts)
  /\ slice_reads (ExtractUserKeyAndStripTimestamp NDEBUG k ts_sz) p
  /\ slice_reads (ExtractTimestampFromKey NDEBUG k ts_sz) ts
  /\ ExtractInternalKeyFooter NDEBUG k = Ok (le_combine f)
  /\ slice_reads (uk <- ExtractUserKey NDEBUG k ;;
                  StripTimestampFromUserKey NDEBUG uk ts_sz) p
  /\ slice_reads (uk <- ExtractUserKey NDEBUG k ;;
                  ExtractTimestampFromUserKey NDEBUG uk ts_sz) ts.
Proof.
  intros Ha Hf k ts_sz.
  assert (Hlen : Z.of_nat (length (p ++ ts ++ f))
                 = Z.of_nat (length p) + ts_sz + 8).
  { rewrite !length_app. subst ts_sz. lia. }
  assert (Hl8 : (8 <= length (p ++ ts ++ f))%nat)
    by (rewrite !length_app; lia).
  assert (Huk : ExtractUserKey NDEBUG k
                = Ok (mkSlice (ptr_to (p ++ ts ++ f))
                              (Z.of_nat (length (p ++ ts))))).
  { unfold k. rewrite ExtractUserKey_ok by assumption.
    do 2 f_equal. rewrite !length_app. lia. }
  unfold addressable in Ha.
  assert (Hr1 : slice_bytes (mkSlice (ptr_to (p ++ ts ++ f))
                                     (Z.of_nat (length (p ++ ts))))
                = Ok (p ++ ts)).
  { unfold slice_bytes, ptr_to. cbn [data_ size_].
    rewrite app_assoc. apply (load_middle [] (p ++ ts) f). }
  assert (Hr2 : forall off, off = 0 ->
                load (mkPtr (p ++ ts ++ f) off) (Z.of_nat (length p)) = Ok p).
  { intros off ->. apply (load_middle [] p (ts ++ f)). }
  assert (Hr3 : forall off, off = Z.of_nat (length p) ->
                load (mkPtr (p ++ ts ++ f) off) ts_sz = Ok ts).
  { intros off ->. apply load_middle. }
  split; [exists (mkSlice (ptr_to (p ++ ts ++ f))
                    (Z.of_nat (length (p ++ ts)))); auto|].
  split.
  { unfold ExtractUserKeyAndStripTimestamp, remove_suffix, k, Slice_of,
      kNumInternalBytes. cbn [size_ data_].
    rewrite (wrap64_small (8 + ts_sz)) by lia.
    rewrite assert_true by (apply Z.leb_le; lia). cbn [bind].
    eexists. split; [reflexivity|].
    unfold slice_bytes. cbn [data_ size_].
    rewrite wrap64_small by lia.
    replace (Z.of_nat (length (p ++ ts ++ f)) - (8 + ts_sz))
      with (Z.of_nat (length p)) by lia.
    apply Hr2. reflexivity. }
  split.
  { unfold ExtractTimestampFromKey, k, Slice_of, kNumInternalBytes.
    cbn [size_ data_].
    rewrite (wrap64_small (8 + ts_sz)) by lia.
    rewrite assert_true by (apply Z.geb_le; lia). cbn [bind].
    eexists. split; [reflexivity|].
    unfold slice_bytes, ptr_sub, ptr_add, ptr_to. cbn [data_ size_ obj pos].
    apply Hr3. lia. }
  split.
  { unfold ExtractInternalKeyFooter, k, Slice_of, kNumInternalBytes.
    cbn [size_ data_].
    rewrite assert_true by (apply Z.geb_le; lia). cbn [bind].
    rewrite DecodeFixed64_footer by exact Hl8.
    unfold footer_of. rewrite app_assoc, footer_bytes_app by exact Hf.
    reflexivity. }
  split.
  { rewrite Huk. cbn [bind].
    unfold StripTimestampFromUserKey, remove_suffix. cbn [size_ data_].
    rewrite assert_true by (apply Z.leb_le; rewrite length_app; lia).
    cbn [bind]. eexists. split; [reflexivity|].
    unfold slice_bytes, ptr_to. cbn [data_ size_].
    rewrite wrap64_small by (rewrite length_app; lia).
    replace (Z.of_nat (length (p ++ ts)) - ts_sz)
      with (Z.of_nat (length p)) by (rewrite length_app; lia).
    apply Hr2. reflexivity. }
  rewrite Huk. cbn [bind].
  unfold ExtractTimestampFromUserKey. cbn [size_ data_].
  rewrite assert_true by (apply Z.geb_le; rewrite length_app; lia).
  cbn [bind]. eexists. split; [reflexivity|].
  unfold slice_bytes, ptr_sub, ptr_add, ptr_to. cbn [data_ size_ obj pos].
  apply Hr3. rewrite length_app. lia.
Qed.

Lemma Extract_parts_of_internal_key_witness :
  addressable key_foo_ts_7_value
  /\ slice_reads (ExtractUserKeyAndStripTimestamp
                    false (Slice_of key_foo_ts_7_value) 4)
                 (bytes_of_Zs [102; 111; 111])
  /\ slice_reads (ExtractTimestampFromKey
                    false (Slice_of key_foo_ts_7_value) 4)
                 timestamp_42.
Proof.
  assert (H : addressable key_foo_ts_7_value) by (vm_compute; reflexivity).
  split; [exact H|].
  destruct (Extract_parts_of_internal_key
              false (bytes_of_Zs [102; 111; 111]) timestamp_42
              (le_split 8 (Z.lor (Z.shiftl 7 8) kTypeValue)) H eq_refl)
    as (_ & H2 & H3 & _).
  split; [exact H2|exact H3].
Defined.

(** X6.  When [ParseInternalKey] returns OK, what it stored is what the
    extractors return on the same key: the user key of [ExtractUserKey], the
    type of [ExtractValueType], the sequence number of
    [GetInternalKeySeqno], and the unpacked footer of
    [ExtractInternalKeyFooter]. *)
Theorem ParseInternalKey_agrees_with_extractors (NDEBUG : bool)
    (bytes : list byte) (result parsed : ParsedInternalKey)
    (log_err_key : bool) :
  addressable bytes ->
  ParseInternalKey NDEBUG (Slice_of bytes) result log_err_key
  = Ok (StatusOK, parsed) ->
  ExtractUserKey NDEBUG (Slice_of bytes) = Ok (user_key parsed)
  /\ ExtractValueType NDEBUG (Slice_of bytes) = Ok (type parsed)
  /\ GetInternalKeySeqno NDEBUG (Slice_of bytes) = Ok (sequence parsed)
  /\ exists footer,
      ExtractInternalKeyFooter NDEBUG (Slice_of bytes) = Ok footer
      /\ UnPackSequenceAndType footer = Ok (sequence parsed, type parsed).
Proof.
  intros Ha Hparse.
  destruct (Nat.lt_ge_cases (length bytes) 8) as [Hs|Hl].
  { rewrite ParseInternalKey_short in Hparse by exact Hs. discriminate. }
  rewrite ParseInternalKey_long in Hparse by assumption.
  destruct (assert_ NDEBUG (tag_of bytes <=? kMaxValue)) as [[]| |];
    cbn [bind] in Hparse; try discriminate.
  destruct (IsExtendedValueType (tag_of bytes)); [|discriminate].
  inversion Hparse. subst parsed. clear Hparse. cbn [user_key sequence type].
  assert (Hf : ExtractInternalKeyFooter NDEBUG (Slice_of bytes)
               = Ok (footer_of bytes)).
  { unfold ExtractInternalKeyFooter, Slice_of, kNumInternalBytes.
    cbn [size_ data_].
    rewrite assert_true by (apply Z.geb_le; lia). cbn [bind].
    apply DecodeFixed64_footer. exact Hl. }
  split; [apply ExtractUserKey_ok; assumption|].
  split; [unfold ExtractValueType; rewrite Hf; reflexivity|].
  split.
  - unfold GetInternalKeySeqno, Slice_of, kNumInternalBytes.
    cbn [size_ data_].
    rewrite assert_true by (apply Z.geb_le; lia). cbn [bind].
    rewrite DecodeFixed64_footer by exact Hl. reflexivity.
  - exists (footer_of bytes). split; [exact Hf|reflexivity].
Qed.

Lemma ParseInternalKey_agrees_with_extractors_witness :
  addressable key_foo_7_value
  /\ ExtractValueType false (Slice_of key_foo_7_value) = Ok kTypeValue
  /\ GetInternalKeySeqno false (Slice_of key_foo_7_value) = Ok 7.
Proof.
  assert (H : addressable key_foo_7_value) by (vm_compute; reflexivity).
  split; [exact H|].
  destruct (ParseInternalKey_agrees_with_extractors
              false key_foo_7_value empty_parsed_key
              (mkParsedInternalKey (mkSlice (ptr_to key_foo_7_value) 3) 7
                                   kTypeValue)
              false H)
    as (_ & H2 & H3 & _).
  - vm_compute. reflexivity.
  - split; [exact H2|exact H3].
Defined.

(** X7.  [UpdateInternalKey] on a string of at least 8 bytes leaves the
    encoding of (its user key, [seq], [t]): the length is kept, and for
    [seq <= kMaxSequenceNumber] and an extended tag the string parses to
    the old user key with the new sequence number and tag. *)
Theorem UpdateInternalKey_then_ParseInternalKey (NDEBUG : bool)
    (ikey : list byte) (seq : SequenceNumber) (t : ValueType)
    (result : ParsedInternalKey) (log_err_key : bool) :
  addressable ikey ->
  (8 <= length ikey)%nat ->
  0 <= seq <= kMaxSequenceNumber ->
  0 <= t < 256 ->
  IsExtendedValueType t = true ->
  exists ikey' parsed,
    UpdateInternalKey NDEBUG ikey seq t = Ok ikey'
    /\ ikey' = encode (user_key_bytes ikey) seq t
    /\ length ikey' = length ikey
    /\ ParseInternalKey NDEBUG (Slice_of ikey') result log_err_key
       = Ok (StatusOK, parsed)
    /\ slice_bytes (user_key parsed) = Ok (user_key_bytes ikey)
    /\ sequence parsed = seq
    /\ type parsed = t.
Proof.
  intros Ha Hl Hs Ht Hx.
  set (uk := user_key_bytes ikey).
  assert (Huk : length uk = (length ikey - 8)%nat)
    by (unfold uk, user_key_bytes; rewrite length_firstn; lia).
  assert (Hel : length (encode uk seq t) = length ikey)
    by (rewrite encode_length; lia).
  assert (Ha' : addressable (encode uk seq t))
    by (unfold addressable in *; rewrite Hel; exact Ha).
  assert (Hl' : (8 <= length (encode uk seq t))%nat) by lia.
  pose proof (seq_tag_of_encode uk seq t Hs Ht) as [Eseq Etag].
  pose proof (ParseInternalKey_extended NDEBUG (encode uk seq t) result
                log_err_key Ha' Hl') as Hparse.
  rewrite Etag, Eseq in Hparse. specialize (Hparse Hx).
  eexists. eexists.
  split.
  { unfold UpdateInternalKey, kNumInternalBytes.
    rewrite assert_true by (apply Z.geb_le; lia). cbn [bind].
    unfold EncodeFixed64.
    rewrite store_ok by (rewrite ?length_le_split; lia).
    rewrite wrap64_small.
    - reflexivity.
    - rewrite kMaxSequenceNumber_value in Hs.
      rewrite Z.shiftl_mul_pow2 by lia.
      change (2 ^ 64) with (2 ^ 56 * 2 ^ 8). nia. }
  assert (E : firstn (Z.to_nat (Z.of_nat (length ikey) - 8)) ikey
              ++ le_split 8 (Z.lor (Z.shiftl seq 8) t)
              ++ skipn (Z.to_nat (Z.of_nat (length ikey) - 8)
                        + length (le_split 8 (Z.lor (Z.shiftl seq 8) t)))
                       ikey
              = encode uk seq t).
  { rewrite skipn_all2 by (rewrite length_le_split; lia).
    rewrite app_nil_r. unfold encode, uk, user_key_bytes.
    do 2 f_equal. lia. }
  rewrite E.
  split; [reflexivity|]. split; [exact Hel|].
  split; [exact Hparse|].
  cbn [user_key sequence type]. unfold slice_bytes. cbn [data_ size_].
  rewrite load_user_key by exact Hl'.
  rewrite user_key_bytes_encode. auto.
Qed.

Lemma UpdateInternalKey_then_ParseInternalKey_witness :
  addressable key_foo_7_value
  /\ UpdateInternalKey false key_foo_7_value 9 kTypeValue
     = Ok key_foo_9_value.
Proof.
  assert (H : addressable key_foo_7_value) by (vm_compute; reflexivity).
  split; [exact H|].
  destruct (UpdateInternalKey_then_ParseInternalKey
              false key_foo_7_value 9 kTypeValue empty_parsed_key false H)
    as (ikey' & parsed & E & -> & _).
  - vm_compute. lia.
  - vm_compute. split; discriminate.
  - vm_compute. split; [discriminate|reflexivity].
  - reflexivity.
  - exact E.
Defined.

(** ** More on the comparator *)



Lemma CompareKeySeq_value (NDEBUG : bool)
    (user_compare : list byte -> list byte -> Z) (a b : list byte) :
  addressable a -> addressable b ->
  (8 <= length a)%nat -> (8 <= length b)%nat ->
  CompareKeySeq NDEBUG user_compare (Slice_of a) (Slice_of b)
  = Ok (let r := user_compare (user_key_bytes a) (user_key_bytes b) in
        if r =? 0 then
          if seq_of a >? seq_of b then -1
          else if seq_of a <? seq_of b then 1
          else r
        else r).
Proof.
  intros Ha Hb Hla Hlb. unfold CompareKeySeq.
  rewrite !ExtractUserKey_ok by assumption. cbn [bind].
  unfold user_comparator_Compare, slice_bytes. cbn [data_ size_].
  rewrite !load_user_key by assumption. cbn [bind].
  destruct (user_compare (user_key_bytes a) (user_key_bytes b) =? 0);
    [|reflexivity].
  unfold Slice_of, kNumInternalBytes. cbn [data_ size_].
  rewrite !DecodeFixed64_footer by assumption. cbn [bind].
  fold (seq_of a) (seq_of b).
  destruct (seq_of a >? seq_of b); [reflexivity|].
  destruct (seq_of a <? seq_of b); reflexivity.
Qed.

(** X8.  [CompareKeySeq] orders two keys of at least 8 bytes by the user
    comparator, then by descending sequence number, and no further: keys
    that differ in the tag only compare equal.  Whenever it tells two keys
    apart, [Compare] returns the same result. *)
Theorem CompareKeySeq_ignores_the_tag (NDEBUG : bool)
    (user_compare : list byte -> list byte -> Z) (a b : list byte) :
  addressable a -> addressable b ->
  (8 <= length a)%nat -> (8 <= length b)%nat ->
  let u := user_compare (user_key_bytes a) (user_key_bytes b) in
  exists r,
    CompareKeySeq NDEBUG user_compare (Slice_of a) (Slice_of b) = Ok r
    /\ (u <> 0 -> r = u)
    /\ (u = 0 -> seq_of a > seq_of b -> r = -1)
    /\ (u = 0 -> seq_of a < seq_of b -> r = 1)
    /\ (u = 0 -> seq_of a = seq_of b -> r = 0)
    /\ (r <> 0 ->
        Compare NDEBUG user_compare (Slice_of a) (Slice_of b) = Ok r).
Proof.
  intros Ha Hb Hla Hlb u.
  rewrite CompareKeySeq_value, Compare_internal_order by assumption.
  unfold internal_order. fold u. cbv zeta.
  destruct (footer_order a b) as [Hgt Heq].
  destruct (footer_order b a) as [Hlt _].
  eexists. split; [reflexivity|].
  destruct (Z.eqb_spec u 0) as [E|E];
    [|repeat split; intros; (lia || reflexivity)].
  destruct (Z.gtb_spec (seq_of a) (seq_of b));
    destruct (Z.ltb_spec (seq_of a) (seq_of b));
    destruct (Z.gtb_spec (footer_of a) (footer_of b));
    destruct (Z.ltb_spec (footer_of a) (footer_of b));
    repeat split; intros; try lia; try reflexivity; exfalso; lia.
Qed.

Lemma CompareKeySeq_ignores_the_tag_witness :
  addressable key_foo_7_value
  /\ CompareKeySeq false bytewise_compare (Slice_of key_foo_7_value)
       (Slice_of (encode (bytes_of_Zs [102; 111; 111]) 7 kTypeMerge))
     = Ok 0.
Proof.
  assert (Ha : addressable key_foo_7_value) by (vm_compute; reflexivity).
  assert (Hb : addressable (encode (bytes_of_Zs [102; 111; 111]) 7
                                   kTypeMerge))
    by (vm_compute; reflexivity).
  split; [exact Ha|].
  destruct (CompareKeySeq_ignores_the_tag
              false bytewise_compare key_foo_7_value
              (encode (bytes_of_Zs [102; 111; 111]) 7 kTypeMerge) Ha Hb)
    as (r & E & _ & _ & _ & H0 & _).
  - vm_compute. lia.
  - vm_compute. lia.
  - rewrite E. f_equal. apply H0; vm_compute; reflexivity.
Defined.

(** X9.  Comparing a parsed key with an encoded key gives what comparing
    the two encoded keys gives: [CompareKeySeq] on the result of
    [ParseInternalKey] agrees with [CompareKeySeq] on the bytes that were
    parsed. *)
Theorem CompareKeySeq_of_parsed_key (NDEBUG : bool)
    (user_compare : list byte -> list byte -> Z) (a b : list byte)
    (result parsed : ParsedInternalKey) (log_err_key : bool) :
  addressable a -> addressable b ->
  (8 <= length b)%nat ->
  ParseInternalKey NDEBUG (Slice_of a) result log_err_key
  = Ok (StatusOK, parsed) ->
  exists r,
    CompareKeySeq_parsed NDEBUG user_compare parsed (Slice_of b) = Ok r
    /\ CompareKeySeq NDEBUG user_compare (Slice_of a) (Slice_of b) = Ok r.
Proof.
  intros Ha Hb Hlb Hparse.
  destruct (Nat.lt_ge_cases (length a) 8) as [Hs|Hla].
  { rewrite ParseInternalKey_short in Hparse by exact Hs. discriminate. }
  rewrite ParseInternalKey_long in Hparse by assumption.
  destruct (assert_ NDEBUG (tag_of a <=? kMaxValue)) as [[]| |];
    cbn [bind] in Hparse; try discriminate.
  destruct (IsExtendedValueType (tag_of a)); [|discriminate].
  inversion Hparse. subst parsed. clear Hparse.
  rewrite CompareKeySeq_value by assumption.
  eexists. split; [|reflexivity].
  unfold CompareKeySeq_parsed. cbn [user_key sequence].
  rewrite ExtractUserKey_ok by assumption. cbn [bind].
  unfold user_comparator_Compare, slice_bytes. cbn [data_ size_].
  rewrite !load_user_key by assumption. cbn [bind].
  destruct (user_compare (user_key_bytes a) (user_key_bytes b) =? 0);
    [|reflexivity].
  unfold Slice_of, kNumInternalBytes. cbn [data_ size_].
  rewrite DecodeFixed64_footer by assumption. cbn [bind].
  fold (seq_of b).
  destruct (seq_of a >? seq_of b); [reflexivity|].
  destruct (seq_of a <? seq_of b); reflexivity.
Qed.

Lemma CompareKeySeq_of_parsed_key_witness :
  addressable key_foo_9_value /\ addressable key_foo_7_value
  /\ exists r,
      CompareKeySeq_parsed false bytewise_compare
        (mkParsedInternalKey (mkSlice (ptr_to key_foo_9_value) 3) 9
                             kTypeValue)
        (Slice_of key_foo_7_value) = Ok r
      /\ CompareKeySeq false bytewise_compare (Slice_of key_foo_9_value)
           (Slice_of key_foo_7_value) = Ok r.
Proof.
  assert (Ha : addressable key_foo_9_value) by (vm_compute; reflexivity).
  assert (Hb : addressable key_foo_7_value) by (vm_compute; reflexivity).
  split; [exact Ha|]. split; [exact Hb|].
  apply (CompareKeySeq_of_parsed_key
           false bytewise_compare key_foo_9_value key_foo_7_value
           empty_parsed_key _ false Ha Hb).
  - vm_compute. lia.
  - vm_compute. reflexivity.
Defined.

(** X10.  Swapping the arguments of [Compare] swaps the sign of its
    result, when the user comparator does so on the two user keys. *)
Theorem Compare_antisymmetric (NDEBUG : bool)
    (user_compare : list byte -> list byte -> Z) (a b : list byte) :
  addressable a -> addressable b ->
  (8 <= length a)%nat -> (8 <= length b)%nat ->
  Z.sgn (user_compare (user_key_bytes b) (user_key_bytes a))
  = - Z.sgn (user_compare (user_key_bytes a) (user_key_bytes b)) ->
  exists r r',
    Compare NDEBUG user_compare (Slice_of a) (Slice_of b) = Ok r
    /\ Compare NDEBUG user_compare (Slice_of b) (Slice_of a) = Ok r'
    /\ Z.sgn r' = - Z.sgn r.
Proof.
  intros Ha Hb Hla Hlb Hanti.
  rewrite !Compare_internal_order by assumption.
  eexists. eexists. split; [reflexivity|]. split; [reflexivity|].
  unfold internal_order.
  set (u := user_compare (user_key_bytes a) (user_key_bytes b)) in *.
  set (u' := user_compare (user_key_bytes b) (user_key_bytes a)) in *.
  destruct (Z.eqb_spec u 0) as [E|E]; destruct (Z.eqb_spec u' 0) as [E'|E'];
    try (exfalso; lia); [|exact Hanti].
  destruct (Z.gtb_spec (footer_of a) (footer_of b));
    destruct (Z.ltb_spec (footer_of a) (footer_of b));
    destruct (Z.gtb_spec (footer_of b) (footer_of a));
    destruct (Z.ltb_spec (footer_of b) (footer_of a));
    try lia; try reflexivity.
Qed.

Lemma Compare_antisymmetric_witness :
  addressable key_foo_9_value /\ addressable key_foo_7_value
  /\ exists r r',
      Compare false bytewise_compare (Slice_of key_foo_9_value)
              (Slice_of key_foo_7_value) = Ok r
      /\ Compare false bytewise_compare (Slice_of key_foo_7_value)
                 (Slice_of key_foo_9_value) = Ok r'
      /\ Z.sgn r' = - Z.sgn r.
Proof.
  assert (Ha : addressable key_foo_9_value) by (vm_compute; reflexivity).
  assert (Hb : addressable key_foo_7_value) by (vm_compute; reflexivity).
  split; [exact Ha|]. split; [exact Hb|].
  apply (Compare_antisymmetric false bytewise_compare key_foo_9_value
                               key_foo_7_value Ha Hb).
  - vm_compute. lia.
  - vm_compute. lia.
  - vm_compute. reflexivity.
Defined.

(** X11.  [Compare] is transitive on three keys on whose user keys the
    user comparator is: from [Compare(a, b) <= 0] and [Compare(b, c) <= 0]
    follows [Compare(a, c) <= 0]. *)
Theorem Compare_transitive (NDEBUG : bool)
    (user_compare : list byte -> list byte -> Z) (a b c : list byte) :
  addressable a -> addressable b -> addressable c ->
  (8 <= length a)%nat -> (8 <= length b)%nat -> (8 <= length c)%nat ->
  let uab := user_compare (user_key_bytes a) (user_key_bytes b) in
  let ubc := user_compare (user_key_bytes b) (user_key_bytes c) in
  let uac := user_compare (user_key_bytes a) (user_key_bytes c) in
  (uab <= 0 -> ubc <= 0 -> uac <= 0) ->
  (uab <= 0 -> ubc <= 0 -> uac = 0 -> uab = 0 /\ ubc = 0) ->
  exists rab rbc rac,
    Compare NDEBUG user_compare (Slice_of a) (Slice_of b) = Ok rab
    /\ Compare NDEBUG user_compare (Slice_of b) (Slice_of c) = Ok rbc
    /\ Compare NDEBUG user_compare (Slice_of a) (Slice_of c) = Ok rac
    /\ (rab <= 0 -> rbc <= 0 -> rac <= 0).
Proof.
  intros Ha Hb Hc Hla Hlb Hlc uab ubc uac Htr Hzero.
  rewrite !Compare_internal_order by assumption.
  eexists. eexists. eexists.
  split; [reflexivity|]. split; [reflexivity|]. split; [reflexivity|].
  unfold internal_order. fold uab ubc uac.
  assert (Hab : forall x y u,
             (if u =? 0
              then if x >? y then -1 else if x <? y then 1 else u
              else u) <= 0 ->
             u <= 0 /\ (u = 0 -> x >= y)).
  { intros x y u. destruct (Z.eqb_spec u 0) as [E|E]; [|lia].
    destruct (Z.gtb_spec x y); [lia|].
    destruct (Z.ltb_spec x y); lia. }
  intros H1 H2.
  apply Hab in H1. apply Hab in H2.
  destruct H1 as [U1 F1]. destruct H2 as [U2 F2].
  specialize (Htr U1 U2).
  destruct (Z.eqb_spec uac 0) as [E|E]; [|lia].
  destruct (Hzero U1 U2 E) as [E1 E2].
  specialize (F1 E1). specialize (F2 E2).
  destruct (Z.gtb_spec (footer_of a) (footer_of c)); [lia|].
  destruct (Z.ltb_spec (footer_of a) (footer_of c)); lia.
Qed.

Lemma Compare_transitive_witness :
  addressable key_foo_9_value /\ addressable key_foo_7_value
  /\ exists rab rbc rac,
      Compare false bytewise_compare (Slice_of key_foo_9_value)
              (Slice_of key_foo_7_value) = Ok rab
      /\ Compare false bytewise_compare (Slice_of key_foo_7_value)
                 (Slice_of (encode user_key_m 5 kTypeValue)) = Ok rbc
      /\ Compare false bytewise_compare (Slice_of key_foo_9_value)
                 (Slice_of (encode user_key_m 5 kTypeValue)) = Ok rac
      /\ (rab <= 0 -> rbc <= 0 -> rac <= 0).
Proof.
  assert (Ha : addressable key_foo_9_value) by (vm_compute; reflexivity).
  assert (Hb : addressable key_foo_7_value) by (vm_compute; reflexivity).
  assert (Hc : addressable (encode user_key_m 5 kTypeValue))
    by (vm_compute; reflexivity).
  split; [exact Ha|]. split; [exact Hb|].
  apply (Compare_transitive false bytewise_compare key_foo_9_value
                            key_foo_7_value (encode user_key_m 5 kTypeValue)
                            Ha Hb Hc).
  - vm_compute. lia.
  - vm_compute. lia.
  - vm_compute. lia.
  - vm_compute. discriminate.
  - vm_compute. intros _ _ H. discriminate H.
Defined.

Lemma key_parts (ikey : list byte) :
  ikey = user_key_bytes ikey ++ footer_bytes ikey.
Proof. symmetry. apply firstn_skipn. Qed.

Lemma footer_of_inj (a b : list byte) :
  (8 <= length a)%nat -> (8 <= length b)%nat ->
  footer_of a = footer_of b -> footer_bytes a = footer_bytes b.
Proof.
  intros Ha Hb H. apply le_combine_inj; [|exact H].
  rewrite !footer_bytes_length by assumption. reflexivity.
Qed.

(** X12.  [Equal] holds of two keys of at least 8 bytes exactly when they
    are the same bytes, under a user comparator that returns 0 on their
    user keys only if these are the same. *)
Theorem Equal_iff_same_bytes (NDEBUG : bool)
    (user_compare : list byte -> list byte -> Z) (a b : list byte) :
  addressable a -> addressable b ->
  (8 <= length a)%nat -> (8 <= length b)%nat ->
  (user_compare (user_key_bytes a) (user_key_bytes b) = 0
   <-> user_key_bytes a = user_key_bytes b) ->
  exists e,
    Equal NDEBUG user_compare (Slice_of a) (Slice_of b) = Ok e
    /\ (e = true <-> a = b).
Proof.
  intros Ha Hb Hla Hlb Hu. unfold Equal.
  rewrite Compare_internal_order by assumption. cbn [bind].
  eexists. split; [reflexivity|].
  rewrite Z.eqb_eq. unfold internal_order.
  set (u := user_compare (user_key_bytes a) (user_key_bytes b)) in *.
  split.
  - intros H.
    destruct (Z.eqb_spec u 0) as [E|E]; [|contradiction].
    destruct (Z.gtb_spec (footer_of a) (footer_of b)); [discriminate|].
    destruct (Z.ltb_spec (footer_of a) (footer_of b)); [discriminate|].
    rewrite (key_parts a), (key_parts b). f_equal.
    + apply Hu. exact E.
    + apply footer_of_inj; (assumption || lia).
  - intros ->.
    assert (E : u = 0) by (apply Hu; reflexivity).
    rewrite E. cbn [Z.eqb].
    rewrite Z.gtb_ltb, Z.ltb_irrefl. reflexivity.
Qed.

Lemma Equal_iff_same_bytes_witness :
  addressable key_foo_7_value /\ addressable key_foo_9_value
  /\ exists e,
      Equal false bytewise_compare (Slice_of key_foo_7_value)
            (Slice_of key_foo_9_value) = Ok e
      /\ (e = true <-> key_foo_7_value = key_foo_9_value).
Proof.
  assert (Ha : addressable key_foo_7_value) by (vm_compute; reflexivity).
  assert (Hb : addressable key_foo_9_value) by (vm_compute; reflexivity).
  split; [exact Ha|]. split; [exact Hb|].
  apply (Equal_iff_same_bytes false bytewise_compare key_foo_7_value
                              key_foo_9_value Ha Hb).
  - vm_compute. lia.
  - vm_compute. lia.
  - vm_compute. split; reflexivity.
Defined.




(** ** [InternalKey] and [ParsedInternalKey] *)

Lemma Valid_encoded (NDEBUG : bool) (uk : list byte) (s : SequenceNumber)
    (t : ValueType) :
  addressable (encode uk s t) ->
  0 <= s <= kMaxSequenceNumber -> 0 <= t < 256 ->
  IsExtendedValueType t = true ->
  Valid NDEBUG (mkInternalKey (encode uk s t)) = Ok true.
Proof.
  intros Ha Hs Ht Hx. unfold Valid. cbn [rep_].
  destruct (seq_tag_of_encode uk s t Hs Ht) as [_ Etag].
  rewrite ParseInternalKey_extended;
    [reflexivity|exact Ha|rewrite encode_length; lia|].
  rewrite Etag. exact Hx.
Qed.

Lemma Valid_short (NDEBUG : bool) (k : InternalKey) :
  (length (rep_ k) < 8)%nat -> Valid NDEBUG k = Ok false.
Proof.
  intros H. unfold Valid.
  rewrite ParseInternalKey_short by exact H. reflexivity.
Qed.

(** X14.  [Set] replaces whatever the [InternalKey] held by the encoding of
    [(user_key, s, t)]: the key is then valid, [user_key()] reads the user
    key and [size()] is its length plus 8.  An empty key, such as a new one
    or one after [Clear], is not valid. *)
Theorem InternalKey_Set_is_valid (NDEBUG : bool) (k : InternalKey)
    (uk : list byte) (s : SequenceNumber) (t : ValueType) :
  addressable (encode uk s t) ->
  0 <= s <= kMaxSequenceNumber ->
  0 <= t < 256 ->
  IsExtendedValueType t = true ->
  exists k',
    InternalKey_Set NDEBUG k (Slice_of uk) s t = Ok k'
    /\ rep_ k' = encode uk s t
    /\ Valid NDEBUG k' = Ok true
    /\ slice_reads (InternalKey_user_key NDEBUG k') uk
    /\ InternalKey_size k' = Z.of_nat (length uk) + 8
    /\ Valid NDEBUG (InternalKey_Clear k') = Ok false
    /\ Valid NDEBUG InternalKey_empty = Ok false.
Proof.
  intros Ha Hs Ht Hx. exists (mkInternalKey (encode uk s t)).
  assert (Hl : (8 <= length (encode uk s t))%nat)
    by (rewrite encode_length; lia).
  split.
  { unfold InternalKey_Set, SetFrom, InternalKey_Clear. cbn [rep_].
    rewrite AppendInternalKey_encode by assumption. reflexivity. }
  split; [reflexivity|].
  split; [apply Valid_encoded; assumption|].
  split.
  { unfold InternalKey_user_key. cbn [rep_].
    rewrite ExtractUserKey_ok by assumption.
    eexists. split; [reflexivity|].
    unfold slice_bytes. cbn [data_ size_].
    rewrite load_user_key by exact Hl. f_equal.
    apply user_key_bytes_encode. }
  split.
  { unfold InternalKey_size. cbn [rep_]. rewrite encode_length. lia. }
  split; apply Valid_short; cbn; lia.
Qed.

Lemma InternalKey_Set_is_valid_witness :
  addressable (encode user_key_m 5 kTypeValue)
  /\ exists k',
      InternalKey_Set false (mkInternalKey key_foo_7_value)
                      (Slice_of user_key_m) 5 kTypeValue = Ok k'
      /\ rep_ k' = encode user_key_m 5 kTypeValue
      /\ Valid false k' = Ok true
      /\ slice_reads (InternalKey_user_key false k') user_key_m
      /\ InternalKey_size k' = Z.of_nat (length user_key_m) + 8
      /\ Valid false (InternalKey_Clear k') = Ok false
      /\ Valid false InternalKey_empty = Ok false.
Proof.
  assert (H : addressable (encode user_key_m 5 kTypeValue))
    by (vm_compute; reflexivity).
  split; [exact H|].
  apply (InternalKey_Set_is_valid false (mkInternalKey key_foo_7_value)
                                  user_key_m 5 kTypeValue H).
  - vm_compute. split; discriminate.
  - vm_compute. split; [discriminate|reflexivity].
  - reflexivity.
Defined.

(** X15.  [SetMaxPossibleForUserKey] and [SetMinPossibleForUserKey] do not
    clear the key first: they append the new encoding to what the
    [InternalKey] holds, so that the result is the key [Set] builds only
    when the [InternalKey] was empty. *)
Theorem SetMaxPossibleForUserKey_appends (NDEBUG : bool) (k : InternalKey)
    (uk : list byte) (kValueTypeForSeek : ValueType) :
  0 <= kValueTypeForSeek < 256 ->
  IsExtendedValueType kValueTypeForSeek = true ->
  exists kmax kmin kset,
    SetMaxPossibleForUserKey NDEBUG k (Slice_of uk) = Ok kmax
    /\ rep_ kmax = rep_ k ++ encode uk 0 kTypeDeletion
    /\ SetMinPossibleForUserKey NDEBUG kValueTypeForSeek k (Slice_of uk)
       = Ok kmin
    /\ rep_ kmin
       = rep_ k ++ encode uk kMaxSequenceNumber kValueTypeForSeek
    /\ InternalKey_Set NDEBUG k (Slice_of uk) 0 kTypeDeletion = Ok kset
    /\ rep_ kset = encode uk 0 kTypeDeletion
    /\ (rep_ kmax = rep_ kset <-> rep_ k = []).
Proof.
  intros Hk Hkx.
  assert (H0 : 0 <= 0 <= kMaxSequenceNumber)
    by (rewrite kMaxSequenceNumber_value; lia).
  assert (Hm : 0 <= kMaxSequenceNumber <= kMaxSequenceNumber)
    by (rewrite kMaxSequenceNumber_value; lia).
  assert (Ht0 : 0 <= 0 < 256) by lia.
  eexists. eexists. eexists.
  split.
  { unfold SetMaxPossibleForUserKey.
    rewrite AppendInternalKey_encode by (assumption || reflexivity).
    reflexivity. }
  split; [reflexivity|].
  split.
  { unfold SetMinPossibleForUserKey.
    rewrite AppendInternalKey_encode by assumption. reflexivity. }
  split; [reflexivity|].
  split.
  { unfold InternalKey_Set, SetFrom, InternalKey_Clear. cbn [rep_].
    rewrite AppendInternalKey_encode by (assumption || reflexivity).
    reflexivity. }
  split; [reflexivity|]. cbn [rep_ app].
  split.
  - intros H. apply (f_equal (@length byte)) in H.
    rewrite length_app, !encode_length in H.
    destruct (rep_ k); [reflexivity|]. cbn [length] in H. lia.
  - intros ->. reflexivity.
Qed.

Lemma SetMaxPossibleForUserKey_appends_witness :
  exists kmax kmin kset,
    SetMaxPossibleForUserKey false (mkInternalKey key_foo_7_value)
                             (Slice_of user_key_m) = Ok kmax
    /\ rep_ kmax = key_foo_7_value ++ encode user_key_m 0 kTypeDeletion
    /\ SetMinPossibleForUserKey false kTypeWideColumnEntity
         (mkInternalKey key_foo_7_value) (Slice_of user_key_m) = Ok kmin
    /\ rep_ kmin
       = key_foo_7_value
         ++ encode user_key_m kMaxSequenceNumber kTypeWideColumnEntity
    /\ InternalKey_Set false (mkInternalKey key_foo_7_value)
                       (Slice_of user_key_m) 0 kTypeDeletion = Ok kset
    /\ rep_ kset = encode user_key_m 0 kTypeDeletion
    /\ (rep_ kmax = rep_ kset <-> key_foo_7_value = []).
Proof.
  apply (SetMaxPossibleForUserKey_appends
           false (mkInternalKey key_foo_7_value) user_key_m
           kTypeWideColumnEntity).
  - vm_compute. split; [discriminate|reflexivity].
  - reflexivity.
Defined.

(** X16.  [DecodeFrom] takes any bytes without checking them, and [Encode]
    gives them back; a decoded string of fewer than 8 bytes is a key that
    is not valid, and [Encode] on an empty key fails its assertion. *)
Theorem Encode_DecodeFrom (NDEBUG : bool) (k : InternalKey)
    (bs : list byte) :
  bs <> [] ->
  exists k',
    DecodeFrom k (Slice_of bs) = Ok k'
    /\ rep_ k' = bs
    /\ slice_reads (Encode NDEBUG k') bs
    /\ ((length bs < 8)%nat -> Valid NDEBUG k' = Ok false)
    /\ Encode false (InternalKey_Clear k') = AssertionFailure.
Proof.
  intros Hne. exists (mkInternalKey bs).
  split; [unfold DecodeFrom; rewrite slice_bytes_Slice_of; reflexivity|].
  split; [reflexivity|].
  split.
  { unfold Encode. cbn [rep_].
    rewrite assert_true.
    - eexists. split; [reflexivity|]. apply slice_bytes_Slice_of.
    - apply negb_true_iff, Z.eqb_neq. destruct bs; [contradiction|].
      cbn [length]. lia. }
  split; [intros H; apply Valid_short; exact H|reflexivity].
Qed.

Lemma Encode_DecodeFrom_witness :
  user_key_m <> []
  /\ exists k',
      DecodeFrom InternalKey_empty (Slice_of user_key_m) = Ok k'
      /\ rep_ k' = user_key_m
      /\ slice_reads (Encode false k') user_key_m
      /\ ((length user_key_m < 8)%nat -> Valid false k' = Ok false)
      /\ Encode false (InternalKey_Clear k') = AssertionFailure.
Proof.
  assert (H : user_key_m <> []) by discriminate.
  split; [exact H|].
  exact (Encode_DecodeFrom false InternalKey_empty user_key_m H).
Defined.

Lemma load_suffix (a b : list byte) :
  load (mkPtr (a ++ b) (Z.of_nat (length a))) (Z.of_nat (length b)) = Ok b.
Proof.
  pose proof (load_middle a b []) as H. rewrite app_nil_r in H. exact H.
Qed.

(** X17.  [SetTimestamp] overwrites the last [|ts|] bytes of the user key
    in place and nothing else: the user key keeps its length and its bytes
    before the timestamp, the sequence number and the type; [GetTimestamp]
    then reads [ts]. *)
Theorem GetTimestamp_SetTimestamp (NDEBUG : bool) (uk ts : list byte)
    (s : SequenceNumber) (t : ValueType) :
  (length ts <= length uk)%nat ->
  let p := mkParsedInternalKey (Slice_of uk) s t in
  exists p',
    SetTimestamp NDEBUG p (Slice_of ts) = Ok p'
    /\ slice_bytes (user_key p')
       = Ok (firstn (length uk - length ts) uk ++ ts)
    /\ size_ (user_key p') = size_ (user_key p)
    /\ sequence p' = s
    /\ type p' = t
    /\ slice_reads (GetTimestamp NDEBUG p' (Z.of_nat (length ts))) ts
    /\ slice_reads (GetTimestamp NDEBUG p (Z.of_nat (length ts)))
                   (skipn (length uk - length ts) uk).
Proof.
  intros Hl p.
  set (pre := firstn (length uk - length ts) uk).
  assert (Hpre : length pre = (length uk - length ts)%nat)
    by (unfold pre; rewrite length_firstn; lia).
  assert (Hnew : length (pre ++ ts) = length uk)
    by (rewrite length_app; lia).
  eexists. split.
  { unfold SetTimestamp, p, Slice_of. cbn [user_key size_ data_].
    rewrite assert_true by (apply Z.leb_le; lia). cbn [bind].
    change (mkSlice (ptr_to ts) (Z.of_nat (length ts))) with (Slice_of ts).
    rewrite slice_bytes_Slice_of. cbn [bind].
    unfold ptr_sub, ptr_add, ptr_to. cbn [obj pos].
    rewrite store_ok by lia. cbn [bind].
    rewrite skipn_all2 by lia. rewrite app_nil_r.
    replace (Z.to_nat (0 + Z.of_nat (length uk) - Z.of_nat (length ts)))
      with (length uk - length ts)%nat by lia.
    fold pre. reflexivity. }
  cbn [user_key sequence type size_ data_].
  split.
  { unfold slice_bytes. cbn [data_ size_].
    rewrite <- Hnew. apply (slice_bytes_Slice_of (pre ++ ts)). }
  split; [reflexivity|]. split; [reflexivity|]. split; [reflexivity|].
  split.
  - unfold GetTimestamp. cbn [user_key size_ data_].
    rewrite assert_true by (apply Z.leb_le; lia). cbn [bind].
    eexists. split; [reflexivity|].
    unfold slice_bytes, ptr_sub, ptr_add. cbn [data_ size_ obj pos].
    replace (0 + Z.of_nat (length uk) - Z.of_nat (length ts))
      with (Z.of_nat (length pre)) by lia.
    apply load_suffix.
  - unfold GetTimestamp, p, Slice_of. cbn [user_key size_ data_].
    rewrite assert_true by (apply Z.leb_le; lia). cbn [bind].
    eexists. split; [reflexivity|].
    unfold slice_bytes, ptr_sub, ptr_add, ptr_to. cbn [data_ size_ obj pos].
    rewrite load_ok by lia. f_equal.
    replace (Z.to_nat (0 + Z.of_nat (length uk) - Z.of_nat (length ts)))
      with (length uk - length ts)%nat by lia.
    apply firstn_all2. rewrite length_skipn. lia.
Qed.

Lemma GetTimestamp_SetTimestamp_witness :
  (length timestamp_42 <= length user_key_m_ts)%nat
  /\ exists p',
      SetTimestamp false
        (mkParsedInternalKey (Slice_of user_key_m_ts) 5 kTypeValue)
        (Slice_of (bytes_of_Zs [9; 9; 9; 9])) = Ok p'
      /\ slice_bytes (user_key p') = Ok (bytes_of_Zs [109; 9; 9; 9; 9]).
Proof.
  assert (H : (length timestamp_42 <= length user_key_m_ts)%nat)
    by (vm_compute; lia).
  split; [exact H|].
  destruct (GetTimestamp_SetTimestamp
              false user_key_m_ts (bytes_of_Zs [9; 9; 9; 9]) 5 kTypeValue H)
    as (p' & E & Hb & _).
  exists p'. split; [exact E|exact Hb].
Defined.

(** ** More on range tombstones *)

Lemma AppendInternalKey_slice (NDEBUG : bool) (result : list byte)
    (s : Slice) (uk : list byte) (seq : SequenceNumber) (t : ValueType) :
  slice_bytes s = Ok uk ->
  0 <= seq <= kMaxSequenceNumber -> 0 <= t < 256 ->
  IsExtendedValueType t = true ->
  AppendInternalKey NDEBUG result (mkParsedInternalKey s seq t)
  = Ok (result ++ encode uk seq t).
Proof.
  intros Hs Hq Ht Hx. unfold AppendInternalKey.
  cbn [user_key sequence type]. rewrite Hs. cbn [bind].
  rewrite PackSequenceAndType_ok by assumption. cbn [bind].
  unfold PutFixed64, encode. rewrite app_assoc. reflexivity.
Qed.

(** X18.  A tombstone survives serialization: [Serialize] gives the
    internal key [(start key, seq, kTypeRangeDeletion)] (the key of
    [SerializeKey]) and the end key as value; parsing that key and building
    a tombstone from the parsed key and the value gives the start key, the
    sequence number and the end key back, with no timestamp of its own. *)
Theorem RangeTombstone_Serialize_round_trip (NDEBUG : bool)
    (t : RangeTombstone) (sk : list byte)
    (result : ParsedInternalKey) (log_err_key : bool) :
  slice_bytes (start_key_ t) = Ok sk ->
  0 <= seq_ t <= kMaxSequenceNumber ->
  addressable (encode sk (seq_ t) kTypeRangeDeletion) ->
  exists key parsed,
    Serialize NDEBUG t = Ok (key, end_key_ t)
    /\ SerializeKey NDEBUG t = Ok key
    /\ rep_ key = encode sk (seq_ t) kTypeRangeDeletion
    /\ ParseInternalKey NDEBUG (Slice_of (rep_ key)) result log_err_key
       = Ok (StatusOK, parsed)
    /\ type parsed = kTypeRangeDeletion
    /\ slice_bytes (start_key_ (RangeTombstone_of_parsed parsed (end_key_ t)))
       = Ok sk
    /\ seq_ (RangeTombstone_of_parsed parsed (end_key_ t)) = seq_ t
    /\ end_key_ (RangeTombstone_of_parsed parsed (end_key_ t)) = end_key_ t
    /\ size_ (ts_ (RangeTombstone_of_parsed parsed (end_key_ t))) = 0.
Proof.
  intros Hsk Hs Ha.
  assert (Hrd : 0 <= kTypeRangeDeletion < 256)
    by (unfold kTypeRangeDeletion; lia).
  assert (Hnew : InternalKey_new NDEBUG (start_key_ t) (seq_ t)
                                 kTypeRangeDeletion
                 = Ok (mkInternalKey
                         (encode sk (seq_ t) kTypeRangeDeletion))).
  { unfold InternalKey_new.
    rewrite (AppendInternalKey_slice NDEBUG [] _ sk)
      by (assumption || reflexivity).
    reflexivity. }
  assert (Hl : (8 <= length (encode sk (seq_ t) kTypeRangeDeletion))%nat)
    by (rewrite encode_length; lia).
  destruct (seq_tag_of_encode sk (seq_ t) kTypeRangeDeletion Hs Hrd)
    as [Eseq Etag].
  pose proof (ParseInternalKey_extended NDEBUG
                (encode sk (seq_ t) kTypeRangeDeletion) result log_err_key
                Ha Hl) as Hparse.
  rewrite Etag, Eseq in Hparse. specialize (Hparse eq_refl).
  eexists. eexists.
  split; [unfold Serialize; rewrite Hnew; reflexivity|].
  split; [exact Hnew|]. split; [reflexivity|].
  split; [exact Hparse|]. split; [reflexivity|].
  cbn [RangeTombstone_of_parsed start_key_ seq_ end_key_ ts_ user_key
         sequence size_].
  split.
  { unfold slice_bytes. cbn [data_ size_].
    rewrite load_user_key by exact Hl. f_equal.
    apply user_key_bytes_encode. }
  auto.
Qed.

Lemma RangeTombstone_Serialize_round_trip_witness :
  slice_bytes (start_key_ tombstone_a_m_5) = Ok user_key_a
  /\ exists key,
      Serialize false tombstone_a_m_5 = Ok (key, Slice_of user_key_m)
      /\ rep_ key = encode user_key_a 5 kTypeRangeDeletion.
Proof.
  assert (H : slice_bytes (start_key_ tombstone_a_m_5) = Ok user_key_a)
    by reflexivity.
  split; [exact H|].
  destruct (RangeTombstone_Serialize_round_trip
              false tombstone_a_m_5 user_key_a empty_parsed_key false H)
    as (key & parsed & E & _ & Hrep & _).
  - vm_compute. split; discriminate.
  - vm_compute. reflexivity.
  - exists key. split; [exact E|exact Hrep].
Defined.

(** X19.  The tombstone constructor that takes a timestamp replaces the
    last [|ts|] bytes of the start key and of the end key by [ts], in
    copies of its own: both keys keep their lengths and their bytes before
    the timestamp.  With an empty timestamp its assertion fails. *)
Theorem RangeTombstone_with_timestamp (NDEBUG : bool)
    (sk ek ts : list byte) (sn : SequenceNumber) :
  ts <> [] ->
  (length ts <= length sk)%nat ->
  (length ts <= length ek)%nat ->
  addressable sk -> addressable ek ->
  exists t,
    RangeTombstone_new_ts NDEBUG (Slice_of sk) (Slice_of ek) sn (Slice_of ts)
    = Ok t
    /\ slice_bytes (start_key_ t)
       = Ok (firstn (length sk - length ts) sk ++ ts)
    /\ slice_bytes (end_key_ t)
       = Ok (firstn (length ek - length ts) ek ++ ts)
    /\ size_ (start_key_ t) = Z.of_nat (length sk)
    /\ size_ (end_key_ t) = Z.of_nat (length ek)
    /\ seq_ t = sn
    /\ slice_bytes (ts_ t) = Ok ts
    /\ RangeTombstone_new_ts false (Slice_of sk) (Slice_of ek) sn
                             (Slice_of []) = AssertionFailure.
Proof.
  intros Hne Hls Hle Has Hae. unfold addressable in *.
  assert (Hts : 0 < Z.of_nat (length ts))
    by (destruct ts; [contradiction|cbn [length]; lia]).
  eexists. split.
  { unfold RangeTombstone_new_ts, Slice_of. cbn [size_ data_].
    rewrite assert_true by (apply negb_true_iff, Z.eqb_neq; lia).
    cbn [bind]. rewrite !wrap64_small by lia.
    unfold ptr_to. rewrite !load_ok by lia. cbn [bind].
    change (mkSlice (mkPtr ts 0) (Z.of_nat (length ts))) with (Slice_of ts).
    rewrite slice_bytes_Slice_of. cbn [bind Z.to_nat skipn app].
    replace (Z.to_nat (Z.of_nat (length sk) - Z.of_nat (length ts)))
      with (length sk - length ts)%nat by lia.
    replace (Z.to_nat (Z.of_nat (length ek) - Z.of_nat (length ts)))
      with (length ek - length ts)%nat by lia.
    reflexivity. }
  cbn [start_key_ end_key_ seq_ ts_].
  split; [apply slice_bytes_Slice_of|].
  split; [apply slice_bytes_Slice_of|].
  split.
  { unfold Slice_of. cbn [size_].
    rewrite length_app, length_firstn. lia. }
  split.
  { unfold Slice_of. cbn [size_].
    rewrite length_app, length_firstn. lia. }
  split; [reflexivity|].
  split; [apply slice_bytes_Slice_of|reflexivity].
Qed.

Lemma RangeTombstone_with_timestamp_witness :
  timestamp_42 <> []
  /\ exists t,
      RangeTombstone_new_ts false (Slice_of user_key_a_ts)
        (Slice_of user_key_m_ts) 5 (Slice_of (bytes_of_Zs [0; 0; 0; 43]))
      = Ok t
      /\ slice_bytes (end_key_ t) = Ok (bytes_of_Zs [109; 0; 0; 0; 43]).
Proof.
  assert (H : timestamp_42 <> []) by discriminate.
  split; [exact H|].
  destruct (RangeTombstone_with_timestamp
              false user_key_a_ts user_key_m_ts (bytes_of_Zs [0; 0; 0; 43]) 5)
    as (t & E & _ & He & _).
  - discriminate.
  - vm_compute. lia.
  - vm_compute. lia.
  - vm_compute. reflexivity.
  - vm_compute. reflexivity.
  - exists t. split; [exact E|exact He].
Defined.

(** ** More on the key builder *)

(** A copy into the buffer changes bytes of the buffer and nothing else. *)
Lemma memcpy_buf_fields (k : IterKey) (off : Z) (src : KeyPtr) (n : Z)
    (k' : IterKey) :
  memcpy_buf k off src n = Ok k' ->
  buf_ k' = buf_ k
  /\ key_ k' = key_ k
  /\ key_size_ k' = key_size_ k
  /\ buf_size_ k' = buf_size_ k
  /\ is_user_key_ k' = is_user_key_ k
  /\ next_id k' = next_id k
  /\ length (buf_mem k') = length (buf_mem k).
Proof.
  unfold memcpy_buf.
  destruct (load_key k src n) as [bs| |]; cbn [bind]; try discriminate.
  destruct (store (buf_mem k) off bs) as [m| |] eqn:Es; cbn [bind];
    try discriminate.
  intros H. inversion H. subst k'. clear H.
  destruct (set_buf_mem_fields k m) as (M1 & M2 & M3 & M4 & M5 & M6 & M7).
  rewrite M1, (store_length _ _ _ _ Es). auto 10.
Qed.

(** [EnlargeBufferIfNeeded] allocates only when the buffer is too small,
    and then a block of exactly the size asked for. *)
Lemma EnlargeBufferIfNeeded_alloc (uninit : nat -> byte) (k : IterKey)
    (n : Z) :
  (n <= buf_size_ k -> EnlargeBufferIfNeeded uninit k n = k)
  /\ (buf_size_ k < n ->
      buf_ (EnlargeBufferIfNeeded uninit k n) = Heap (next_id k)
      /\ buf_size_ (EnlargeBufferIfNeeded uninit k n) = n
      /\ next_id (EnlargeBufferIfNeeded uninit k n) = S (next_id k)).
Proof.
  unfold EnlargeBufferIfNeeded.
  destruct (Z.gtb_spec n (buf_size_ k)) as [Hgt|Hle].
  - split; [lia|]. intros _. unfold EnlargeBuffer, set_buf_new. cbn. auto.
  - split; [reflexivity|lia].
Qed.

(** The mode flag plays no part in what key is held. *)
Lemma holds_set_is_user_key_ (k : IterKey) (kb : list byte) (b : bool) :
  holds k kb -> holds (set_is_user_key_ k b) kb.
Proof. intros H. exact H. Qed.

Lemma set_key_size_same (k : IterKey) : set_key_size_ k (key_size_ k) = k.
Proof. destruct k. reflexivity. Qed.

(** Where the buffer is after [SetKeyImpl] with [copy = true]. *)
Lemma SetKeyImpl_copy_alloc (uninit : nat -> byte) (k : IterKey)
    (key : Slice) (k' : IterKey) (s : KeySlice) :
  SetKeyImpl uninit k key true = Ok (k', s) ->
  s = (Own (buf_ k') 0, size_ key)
  /\ (size_ key <= buf_size_ k ->
      buf_ k' = buf_ k /\ buf_size_ k' = buf_size_ k
      /\ next_id k' = next_id k)
  /\ (buf_size_ k < size_ key ->
      buf_ k' = Heap (next_id k) /\ buf_size_ k' = size_ key
      /\ next_id k' = S (next_id k)).
Proof.
  unfold SetKeyImpl.
  destruct (EnlargeBufferIfNeeded_alloc uninit k (size_ key)) as [Hfit Hgrow].
  set (k0 := EnlargeBufferIfNeeded uninit k (size_ key)) in *.
  destruct (memcpy_buf k0 0 (Ext (data_ key)) (size_ key)) as [k3| |] eqn:Em;
    cbn [bind]; try discriminate.
  destruct (memcpy_buf_fields _ _ _ _ _ Em) as (F1 & _ & _ & F4 & _ & F6 & _).
  intros H. inversion H. subst k' s. clear H.
  unfold GetKey. cbn [buf_ key_ key_size_ buf_size_ next_id set_key_size_
                        set_key_].
  rewrite F1, F4, F6.
  split; [reflexivity|]. split.
  - intros Hle. rewrite (Hfit Hle). auto.
  - exact Hgrow.
Qed.

(** X20.  [SetKey(key, copy = false)] pins the key: the builder points to
    the caller's bytes and its buffer is not written.  [OwnKey] then copies
    those bytes into the buffer, after which the key is owned; on a key
    that is already owned the assertion of [OwnKey] fails. *)
Theorem OwnKey_after_pinning (NDEBUG : bool) (uninit : nat -> byte)
    (k : IterKey) (kb0 kb : list byte) :
  holds k kb0 ->
  addressable kb ->
  exists k1 k2,
    SetKey uninit k (Slice_of kb) false
    = Ok (k1, (Ext (ptr_to kb), Z.of_nat (length kb)))
    /\ holds k1 kb
    /\ IsKeyPinned k1 = true
    /\ buf_ k1 = buf_ k /\ buf_mem k1 = buf_mem k
    /\ OwnKey NDEBUG uninit k1 = Ok k2
    /\ holds k2 kb
    /\ IsKeyPinned k2 = false
    /\ is_user_key_ k2 = is_user_key_ k
    /\ OwnKey false uninit k2 = AssertionFailure.
Proof.
  intros (_ & _ & Hbs & Hlt & _) Ha.
  set (k1 := set_key_size_ (set_key_ k (Ext (ptr_to kb)))
                           (Z.of_nat (length kb))).
  assert (Hh1 : holds k1 kb).
  { unfold holds, key_bytes. cbn [k1 key_ key_size_ set_key_size_ set_key_
                                    load_key].
    split; [apply (slice_bytes_Slice_of kb)|].
    split; [reflexivity|]. split; [exact Hbs|]. split; [exact Hlt|].
    intros _. eexists. reflexivity. }
  assert (Hn : 0 <= Z.of_nat (length kb) < 2 ^ 64)
    by (unfold addressable in Ha; lia).
  destruct (EnlargeBufferIfNeeded_room uninit k1 (Z.of_nat (length kb))
              Hbs Hlt Hn) as (R1 & R2 & R3 & R4 & R5).
  set (k0 := EnlargeBufferIfNeeded uninit k1 (Z.of_nat (length kb))) in *.
  destruct (TrimAppend_finish (set_key_size_ k0 (Z.of_nat (length kb)))
              [] (buf_mem k0) (ptr_to kb) (Z.of_nat (length kb)) kb
              eq_refl (slice_bytes_Slice_of kb))
    as (k2 & E & Hh2 & Hp2 & Hiu2); [lia|exact R1|exact R2|].
  cbn [length Z.of_nat Z.add app] in E.
  assert (Eown : forall nd, OwnKey nd uninit k1 = Ok k2).
  { intros nd. unfold OwnKey.
    rewrite assert_true by reflexivity. cbn [bind].
    unfold Reserve. change (key_size_ k1) with (Z.of_nat (length kb)).
    fold k0.
    change (key_ (set_key_size_ k0 (Z.of_nat (length kb)))) with (key_ k0).
    change (key_size_ (set_key_size_ k0 (Z.of_nat (length kb))))
      with (Z.of_nat (length kb)).
    rewrite R4. change (key_ k1) with (Ext (ptr_to kb)).
    destruct (memcpy_buf (set_key_size_ k0 (Z.of_nat (length kb))) 0
                (Ext (ptr_to kb)) (Z.of_nat (length kb)))
      as [k3| |] eqn:Em; cbn [bind] in E |- *; try discriminate.
    destruct (memcpy_buf_fields _ _ _ _ _ Em) as (_ & _ & F3 & _).
    cbn [key_size_ set_key_size_] in F3.
    rewrite <- E. f_equal.
    rewrite <- (set_key_size_same (set_key_ k3 (Own (buf_ k3) 0))) at 1.
    cbn [key_size_ set_key_]. rewrite F3. reflexivity. }
  exists k1, k2.
  split; [reflexivity|]. split; [exact Hh1|].
  split; [reflexivity|]. split; [reflexivity|]. split; [reflexivity|].
  split; [apply Eown|]. split; [exact Hh2|]. split; [exact Hp2|].
  split.
  { rewrite Hiu2. cbn [is_user_key_ set_key_size_]. rewrite R5. reflexivity. }
  unfold OwnKey, assert_. rewrite Hp2. reflexivity.
Qed.

Lemma OwnKey_after_pinning_witness :
  holds (IterKey_new zeroed) []
  /\ exists k1 k2,
      SetKey zeroed (IterKey_new zeroed) (Slice_of key_foo_7_value) false
      = Ok (k1, (Ext (ptr_to key_foo_7_value), 11))
      /\ OwnKey false zeroed k1 = Ok k2
      /\ holds k2 key_foo_7_value.
Proof.
  assert (H : holds (IterKey_new zeroed) []).
  { unfold holds. vm_compute. split; [reflexivity|].
    split; [reflexivity|]. split; [reflexivity|]. split; [reflexivity|].
    discriminate. }
  split; [exact H|].
  destruct (OwnKey_after_pinning false zeroed (IterKey_new zeroed) []
              key_foo_7_value H)
    as (k1 & k2 & E1 & _ & _ & _ & _ & E2 & Hh & _).
  - vm_compute. reflexivity.
  - exists k1, k2. split; [exact E1|]. split; [exact E2|exact Hh].
Defined.



(** Where the buffer is after [TrimAppend]. *)
Lemma TrimAppend_alloc (NDEBUG : bool) (uninit : nat -> byte) (k : IterKey)
    (shared_len : Z) (non_shared_data : Ptr) (non_shared_len : Z)
    (k' : IterKey) :
  TrimAppend NDEBUG uninit k shared_len non_shared_data non_shared_len
  = Ok k' ->
  let total_size := wrap64 (shared_len + non_shared_len) in
  (total_size <= buf_size_ k ->
   buf_ k' = buf_ k /\ buf_size_ k' = buf_size_ k /\ next_id k' = next_id k)
  /\ (buf_size_ k < total_size ->
      buf_ k' = Heap (next_id k) /\ buf_size_ k' = total_size
      /\ next_id k' = S (next_id k)).
Proof.
  unfold TrimAppend.
  destruct (assert_ NDEBUG (shared_len <=? key_size_ k)); cbn [bind];
    try discriminate.
  set (total := wrap64 (shared_len + non_shared_len)).
  destruct (EnlargeBufferIfNeeded_alloc uninit k total) as [Hfit Hgrow].
  assert (Hend : forall k2,
    ((total <= buf_size_ k ->
      buf_ k2 = buf_ k /\ buf_size_ k2 = buf_size_ k
      /\ next_id k2 = next_id k)
     /\ (buf_size_ k < total ->
         buf_ k2 = Heap (next_id k) /\ buf_size_ k2 = total
         /\ next_id k2 = S (next_id k))) ->
    (k3 <- memcpy_buf k2 shared_len (Ext non_shared_data) non_shared_len ;;
     Ok (set_key_size_ (set_key_ k3 (Own (buf_ k3) 0)) total)) = Ok k' ->
    (total <= buf_size_ k ->
     buf_ k' = buf_ k /\ buf_size_ k' = buf_size_ k
     /\ next_id k' = next_id k)
    /\ (buf_size_ k < total ->
        buf_ k' = Heap (next_id k) /\ buf_size_ k' = total
        /\ next_id k' = S (next_id k))).
  { intros k2 Hb.
    destruct (memcpy_buf k2 shared_len (Ext non_shared_data) non_shared_len)
      as [k3| |] eqn:Em; cbn [bind]; try discriminate.
    destruct (memcpy_buf_fields _ _ _ _ _ Em)
      as (F1 & _ & _ & F4 & _ & F6 & _).
    intros H. inversion H. subst k'. clear H.
    cbn [buf_ buf_size_ next_id set_key_size_ set_key_].
    rewrite F1, F4, F6. exact Hb. }
  destruct (IsKeyPinned k).
  - cbv zeta.
    destruct (memcpy_buf (EnlargeBufferIfNeeded uninit k total) 0
                (key_ (EnlargeBufferIfNeeded uninit k total)) shared_len)
      as [k2| |] eqn:Em; cbn [bind]; try discriminate.
    apply Hend.
    destruct (memcpy_buf_fields _ _ _ _ _ Em)
      as (F1 & _ & _ & F4 & _ & F6 & _).
    rewrite F1, F4, F6. split.
    + intros Hle. rewrite (Hfit Hle). auto.
    + exact Hgrow.
  - destruct (Z.gtb_spec total (buf_size_ k)) as [Hgt|Hle].
    + destruct (load_key k (key_ k) shared_len) as [bs| |]; cbn [bind];
        try discriminate.
      destruct (store (uninit_bytes uninit total) 0 bs) as [p| |];
        cbn [bind]; try discriminate.
      apply Hend. split; [lia|]. intros _. unfold set_buf_new. cbn. auto.
    + cbn [bind]. apply Hend. split; [auto|lia].
Qed.

(** X22.  [TrimAppend] on a builder that holds a key allocates only when
    the new key is longer than the buffer, to exactly the new length, and
    leaves the builder owning the new key; when the new key fits, the
    buffer in use stays, also for a pinned key, whose shared bytes are
    copied in. *)
Theorem TrimAppend_allocates_only_to_grow (NDEBUG : bool)
    (uninit : nat -> byte) (k : IterKey) (kb : list byte) (shared_len : Z)
    (sfx : list byte) :
  holds k kb ->
  0 <= shared_len <= Z.of_nat (length kb) ->
  shared_len + Z.of_nat (length sfx) < 2 ^ 64 ->
  exists k',
    TrimAppend NDEBUG uninit k shared_len (ptr_to sfx)
               (Z.of_nat (length sfx)) = Ok k'
    /\ holds k' (firstn (Z.to_nat shared_len) kb ++ sfx)
    /\ IsKeyPinned k' = false
    /\ (shared_len + Z.of_nat (length sfx) <= buf_size_ k ->
        buf_ k' = buf_ k /\ buf_size_ k' = buf_size_ k
        /\ next_id k' = next_id k)
    /\ (buf_size_ k < shared_len + Z.of_nat (length sfx) ->
        buf_ k' = Heap (next_id k)
        /\ buf_size_ k' = shared_len + Z.of_nat (length sfx)
        /\ next_id k' = S (next_id k)).
Proof.
  intros Hh Hsh Htot.
  destruct (TrimAppend_holds NDEBUG uninit k kb shared_len (ptr_to sfx)
              (Z.of_nat (length sfx)) sfx Hh Hsh (slice_bytes_Slice_of sfx))
    as (k' & E & Hh' & Hp' & _); [lia|lia|].
  pose proof (TrimAppend_alloc _ _ _ _ _ _ _ E) as Ha.
  cbv zeta in Ha. rewrite wrap64_small in Ha by lia.
  exists k'. split; [exact E|]. split; [exact Hh'|]. split; [exact Hp'|].
  exact Ha.
Qed.

Lemma TrimAppend_allocates_only_to_grow_witness :
  holds iter_key_pinned_foo_7 key_foo_7_value
  /\ exists k',
      TrimAppend false zeroed iter_key_pinned_foo_7 3 (ptr_to key_20) 20
      = Ok k'
      /\ holds k' (firstn 3 key_foo_7_value ++ key_20)
      /\ buf_ k' = Space.
Proof.
  assert (H : holds iter_key_pinned_foo_7 key_foo_7_value).
  { unfold holds. vm_compute. split; [reflexivity|].
    split; [reflexivity|]. split; [reflexivity|]. split; [reflexivity|].
    intros _. eexists. reflexivity. }
  split; [exact H|].
  destruct (TrimAppend_allocates_only_to_grow false zeroed
              iter_key_pinned_foo_7 key_foo_7_value 3 key_20 H)
    as (k' & E & Hh & _ & Hfit & _).
  - vm_compute. split; discriminate.
  - vm_compute. reflexivity.
  - exists k'. split; [exact E|]. split; [exact Hh|].
    apply Hfit. vm_compute. discriminate.
Defined.

(** *** Building a key from its parts *)

Lemma store_append (done rest bs : list byte) :
  (length bs <= length rest)%nat ->
  store (done ++ rest) (Z.of_nat (length done)) bs
  = Ok ((done ++ bs) ++ skipn (length bs) rest).
Proof.
  intros Hle. rewrite store_ok by (rewrite ?length_app; lia).
  rewrite Nat2Z.id, firstn_app, firstn_all, Nat.sub_diag.
  cbn [firstn]. rewrite app_nil_r, skipn_app.
  rewrite skipn_all2 by lia.
  replace (length done + length bs - length done)%nat
    with (length bs) by lia.
  cbn [app]. rewrite <- app_assoc. reflexivity.
Qed.

(** Copying behind the part of the buffer that is already written. *)
Lemma memcpy_buf_append (k : IterKey) (done rest : list byte) (src : Ptr)
    (n : Z) (bs : list byte) :
  buf_mem k = done ++ rest ->
  load src n = Ok bs ->
  0 <= n <= Z.of_nat (length rest) ->
  exists k',
    memcpy_buf k (Z.of_nat (length done)) (Ext src) n = Ok k'
    /\ buf_mem k' = (done ++ bs) ++ skipn (length bs) rest
    /\ buf_ k' = buf_ k
    /\ buf_size_ k' = buf_size_ k
    /\ next_id k' = next_id k.
Proof.
  intros Hbuf Hload Hn.
  pose proof (load_length _ _ _ (proj1 Hn) Hload) as Hsl.
  unfold memcpy_buf. cbn [load_key]. rewrite Hload. cbn [bind].
  rewrite Hbuf, store_append by lia. cbn [bind].
  destruct (set_buf_mem_fields k ((done ++ bs) ++ skipn (length bs) rest))
    as (M1 & M2 & M3 & M4 & M5 & M6 & M7).
  eexists. split; [reflexivity|]. auto.
Qed.

(** A builder whose buffer starts with [key] owns [key] once [key_] is
    [buf_] and [key_size_] is the length of [key]. *)
Lemma owns_buffer_prefix (k : IterKey) (key rest : list byte) (b : bool) :
  buf_mem k = key ++ rest ->
  buf_size_ k = Z.of_nat (length (buf_mem k)) ->
  buf_size_ k < 2 ^ 64 ->
  holds (set_is_user_key_
           (set_key_size_ (set_key_ k (Own (buf_ k) 0))
                          (Z.of_nat (length key))) b) key.
Proof.
  intros Hbuf Hbs Hlt. apply holds_set_is_user_key_.
  assert (Hmem : buf_mem (set_key_size_ (set_key_ k (Own (buf_ k) 0))
                            (Z.of_nat (length key))) = buf_mem k)
    by reflexivity.
  unfold holds. rewrite Hmem. unfold key_bytes.
  cbn [key_ key_size_ buf_size_ set_key_size_ set_key_].
  rewrite load_key_buf_eq by reflexivity. rewrite Hmem, Hbuf.
  rewrite load_ok by (rewrite ?length_app; lia).
  cbn [Z.to_nat skipn]. rewrite Nat2Z.id.
  replace (length key) with (length key + 0)%nat at 1 by lia.
  rewrite firstn_app_2. cbn [firstn]. rewrite app_nil_r.
  split; [reflexivity|]. split; [reflexivity|].
  split; [rewrite <- Hbuf; exact Hbs|]. split; [exact Hlt|].
  unfold IsKeyPinned. cbn [key_ buf_ set_key_size_ set_key_].
  rewrite BufLoc_eqb_refl. discriminate.
Qed.

(** Reading a prefix of what a pointer reads. *)
Lemma load_key_prefix (k : IterKey) (p : KeyPtr) (m n : Z)
    (bs : list byte) :
  load_key k p m = Ok bs -> 0 <= n <= m ->
  load_key k p n = Ok (firstn (Z.to_nat n) bs).
Proof.
  intros H Hn. destruct p as [[|id] off|q]; cbn [load_key] in *.
  - apply (load_prefix _ _ _ _ H Hn).
  - destruct (BufLoc_eqb (buf_ k) (Heap id)).
    + apply (load_prefix _ _ _ _ H Hn).
    + destruct (Z.eqb_spec m 0) as [->|Hm]; [|discriminate].
      inversion H. replace n with 0 by lia. reflexivity.
  - apply (load_prefix _ _ _ _ H Hn).
Qed.

(** X23.  [SetInternalKey(key_prefix, user_key, s, value_type, ts)] leaves
    the builder owning the internal key whose user key is
    [key_prefix ++ user_key ++ ts] and whose footer packs [(s, value_type)],
    in internal-key mode, whatever it held before.  It allocates only when
    that key is longer than the buffer.  [GetUserKey] then reads the key
    without its last 8 bytes and [GetInternalKey] all of it. *)
Theorem SetInternalKey_builds_key (NDEBUG : bool) (uninit : nat -> byte)
    (k : IterKey) (kb pre uk : list byte) (ts : option (list byte))
    (s : SequenceNumber) (t : ValueType) :
  holds k kb ->
  0 <= s <= kMaxSequenceNumber -> 0 <= t < 256 ->
  IsExtendedValueType t = true ->
  addressable (encode (pre ++ uk ++ timestamp_bytes ts) s t) ->
  exists k',
    SetInternalKey_parts NDEBUG uninit k (Slice_of pre) (Slice_of uk) s t
                         (option_map Slice_of ts) = Ok k'
    /\ holds k' (encode (pre ++ uk ++ timestamp_bytes ts) s t)
    /\ IsKeyPinned k' = false
    /\ IsUserKey k' = false
    /\ (Z.of_nat (length (encode (pre ++ uk ++ timestamp_bytes ts) s t))
        <= buf_size_ k -> buf_ k' = buf_ k /\ next_id k' = next_id k)
    /\ keyslice_reads k' (GetUserKey NDEBUG k')
                      (pre ++ uk ++ timestamp_bytes ts)
    /\ keyslice_reads k' (GetInternalKey NDEBUG k')
                      (encode (pre ++ uk ++ timestamp_bytes ts) s t).
Proof.
  intros Hh Hs Ht Hx Ha.
  destruct Hh as (_ & _ & Hbs & Hlt & _).
  unfold addressable in Ha. rewrite encode_length, !length_app in Ha.
  set (tsb := timestamp_bytes ts) in *.
  set (n := Z.of_nat (length pre) + Z.of_nat (length uk) + 8
            + Z.of_nat (length tsb)).
  assert (Hn : 0 <= n < 2 ^ 64) by (unfold n; lia).
  assert (Hsz : match option_map Slice_of ts with
                | Some t0 => size_ t0
                | None => 0
                end = Z.of_nat (length tsb)).
  { unfold tsb. destruct ts; reflexivity. }
  unfold SetInternalKey_parts. cbn [size_ data_ Slice_of].
  change (size_ (Slice_of pre)) with (Z.of_nat (length pre)).
  rewrite Hsz. fold n. rewrite (wrap64_small n) by exact Hn.
  destruct (EnlargeBufferIfNeeded_room uninit k n Hbs Hlt Hn)
    as (R1 & R2 & R3 & _ & _).
  destruct (EnlargeBufferIfNeeded_alloc uninit k n) as [Hfit _].
  set (k0 := EnlargeBufferIfNeeded uninit k n) in *.
  (* the prefix *)
  assert (H1 : exists k1,
    (if Z.of_nat (length pre) >? 0
     then memcpy_buf k0 0 (Ext (ptr_to pre)) (Z.of_nat (length pre))
     else Ok k0) = Ok k1
    /\ buf_mem k1 = pre ++ skipn (length pre) (buf_mem k0)
    /\ buf_ k1 = buf_ k0 /\ buf_size_ k1 = buf_size_ k0
    /\ next_id k1 = next_id k0).
  { destruct (Z.gtb_spec (Z.of_nat (length pre)) 0) as [Hp|Hp].
    - destruct (memcpy_buf_append k0 [] (buf_mem k0) (ptr_to pre)
                  (Z.of_nat (length pre)) pre eq_refl
                  (slice_bytes_Slice_of pre))
        as (k1 & E & M & F); [lia|].
      exists k1. split; [exact E|]. split; [exact M|exact F].
    - exists k0. destruct pre; [|cbn [length] in Hp; lia].
      split; [reflexivity|]. cbn [length skipn app]. auto. }
  destruct H1 as (k1 & E1 & M1 & F1 & G1 & N1). rewrite E1. cbn [bind].
  (* the user key *)
  destruct (memcpy_buf_append k1 pre _ (ptr_to uk) (Z.of_nat (length uk)) uk
              M1 (slice_bytes_Slice_of uk))
    as (k2 & E2 & M2 & F2 & G2 & N2); [rewrite length_skipn; lia|].
  rewrite E2. cbn [bind].
  (* the timestamp *)
  assert (H3 : exists k3,
    match option_map Slice_of ts with
    | Some t0 =>
        memcpy_buf k2
          (wrap64 (Z.of_nat (length pre) + Z.of_nat (length uk)))
          (Ext (data_ t0)) (Z.of_nat (length tsb))
    | None => Ok k2
    end = Ok k3
    /\ buf_mem k3
       = ((pre ++ uk) ++ tsb)
         ++ skipn (length tsb)
              (skipn (length uk) (skipn (length pre) (buf_mem k0)))
    /\ buf_ k3 = buf_ k2 /\ buf_size_ k3 = buf_size_ k2
    /\ next_id k3 = next_id k2).
  { unfold tsb. destruct ts as [tb|]; cbn [option_map timestamp_bytes].
    - rewrite wrap64_small by lia.
      replace (Z.of_nat (length pre) + Z.of_nat (length uk))
        with (Z.of_nat (length (pre ++ uk))) by (rewrite length_app; lia).
      cbn [data_ Slice_of].
      destruct (memcpy_buf_append k2 (pre ++ uk) _ (ptr_to tb)
                  (Z.of_nat (length tb)) tb M2 (slice_bytes_Slice_of tb))
        as (k3 & E & M & F).
      + unfold tsb in *. cbn [timestamp_bytes] in *.
        rewrite !length_skipn. lia.
      + exists k3. split; [exact E|]. split; [exact M|exact F].
    - exists k2. split; [reflexivity|].
      cbn [length skipn]. rewrite app_nil_r. auto. }
  destruct H3 as (k3 & E3 & M3 & F3 & G3 & N3). rewrite E3. cbn [bind].
  (* the footer *)
  rewrite PackSequenceAndType_ok by assumption. cbn [bind].
  unfold EncodeFixed64. rewrite wrap64_small by lia.
  replace (Z.of_nat (length uk) + Z.of_nat (length pre)
           + Z.of_nat (length tsb))
    with (Z.of_nat (length ((pre ++ uk) ++ tsb)))
    by (rewrite !length_app; lia).
  rewrite M3, store_append
    by (rewrite !length_skipn, length_le_split; lia).
  cbn [bind].
  set (key := ((pre ++ uk) ++ tsb) ++ le_split 8 (Z.lor (Z.shiftl s 8) t)).
  assert (Hkey : key = encode (pre ++ uk ++ tsb) s t).
  { unfold key, encode. rewrite <- !app_assoc. reflexivity. }
  assert (Hkl : Z.of_nat (length key) = n).
  { unfold key, n. rewrite !length_app, length_le_split. lia. }
  match goal with
  | |- context [set_buf_mem k3 ?m] =>
      destruct (set_buf_mem_fields k3 m) as (S1 & S2 & _ & _ & S5 & _ & S7);
      set (k4 := set_buf_mem k3 m) in *
  end.
  rewrite <- Hkl.
  assert (Hbs4 : buf_size_ k4 = Z.of_nat (length (buf_mem k4))).
  { rewrite S5, S1, G3, G2, G1, R1.
    rewrite !length_app, !length_skipn, length_le_split.
    unfold n in R3. lia. }
  pose proof (owns_buffer_prefix k4 key _ false S1 Hbs4) as Hh'.
  rewrite S5, G3, G2, G1 in Hh'. specialize (Hh' R2).
  rewrite <- Hkey.
  eexists. split; [reflexivity|]. split; [exact Hh'|].
  split.
  { unfold IsKeyPinned.
    cbn [key_ buf_ set_is_user_key_ set_key_size_ set_key_].
    rewrite BufLoc_eqb_refl. reflexivity. }
  split; [reflexivity|].
  split.
  { intros Hle. cbn [buf_ next_id set_is_user_key_ set_key_size_ set_key_].
    rewrite S2, S7, F3, F2, F1, N3, N2, N1.
    rewrite Hfit by lia. auto. }
  destruct Hh' as (Hkb' & _).
  split.
  - unfold keyslice_reads, GetUserKey, IsUserKey.
    cbn [is_user_key_ key_size_ key_ set_is_user_key_ set_key_size_ set_key_].
    rewrite assert_true
      by (apply Z.geb_le; unfold kNumInternalBytes, n in *; lia).
    cbn [bind]. eexists. eexists. split; [reflexivity|].
    unfold key_bytes in Hkb'.
    cbn [key_size_ key_ set_is_user_key_ set_key_size_ set_key_] in Hkb'.
    rewrite wrap64_small by (unfold kNumInternalBytes, n in *; lia).
    rewrite (load_key_prefix _ _ _ _ _ Hkb')
      by (unfold kNumInternalBytes, n in *; lia).
    f_equal. unfold key.
    replace (Z.to_nat (Z.of_nat
               (length (((pre ++ uk) ++ tsb)
                        ++ le_split 8 (Z.lor (Z.shiftl s 8) t)))
             - kNumInternalBytes))
      with (length ((pre ++ uk) ++ tsb) + 0)%nat
      by (rewrite !length_app, length_le_split;
          unfold kNumInternalBytes; lia).
    rewrite firstn_app_2. cbn [firstn].
    rewrite app_nil_r, <- app_assoc. reflexivity.
  - unfold keyslice_reads, GetInternalKey, IsUserKey.
    cbn [is_user_key_ key_size_ key_ set_is_user_key_ set_key_size_ set_key_].
    rewrite assert_true by reflexivity. cbn [bind].
    eexists. eexists. split; [reflexivity|]. exact Hkb'.
Qed.

Lemma SetInternalKey_builds_key_witness :
  holds iter_key_foo_7 key_foo_7_value
  /\ exists k',
      SetInternalKey_parts false zeroed iter_key_foo_7
        (Slice_of (bytes_of_Zs [102])) (Slice_of (bytes_of_Zs [111; 111]))
        7 kTypeValue (Some (Slice_of timestamp_42)) = Ok k'
      /\ holds k' key_foo_ts_7_value.
Proof.
  assert (H : holds iter_key_foo_7 key_foo_7_value).
  { unfold holds. vm_compute. split; [reflexivity|].
    split; [reflexivity|]. split; [reflexivity|]. split; [reflexivity|].
    discriminate. }
  split; [exact H|].
  destruct (SetInternalKey_builds_key false zeroed iter_key_foo_7
              key_foo_7_value (bytes_of_Zs [102]) (bytes_of_Zs [111; 111])
              (Some timestamp_42) 7 kTypeValue H)
    as (k' & E & Hh & _).
  - vm_compute. split; discriminate.
  - vm_compute. split; [discriminate|reflexivity].
  - reflexivity.
  - vm_compute. reflexivity.
  - exists k'. split; [exact E|exact Hh].
Defined.

(** *** User-key mode *)

(** X24.  In user-key mode [TrimAppendWithTimestamp] keeps the first
    [shared_len] bytes of the held key, appends the new bytes and then
    [ts_sz] zero bytes: the minimum timestamp goes to the end of the key.
    The builder owns the result and stays in user-key mode. *)
Theorem TrimAppendWithTimestamp_user_key (NDEBUG : bool)
    (uninit : nat -> byte) (k : IterKey) (kb : list byte) (shared_len : Z)
    (sfx : list byte) (ts_sz : Z) :
  holds k kb ->
  IsUserKey k = true ->
  0 <= shared_len <= Z.of_nat (length kb) ->
  0 <= ts_sz ->
  shared_len + Z.of_nat (length sfx) + ts_sz < 2 ^ 64 ->
  exists k',
    TrimAppendWithTimestamp NDEBUG uninit k shared_len (ptr_to sfx)
                            (Z.of_nat (length sfx)) ts_sz = Ok k'
    /\ holds k' (firstn (Z.to_nat shared_len) kb ++ sfx
                 ++ repeat Byte.x00 (Z.to_nat ts_sz))
    /\ IsKeyPinned k' = false
    /\ IsUserKey k' = true.
Proof.
  intros Hh Hu Hsh Hts Htot.
  unfold TrimAppendWithTimestamp. rewrite Hu. cbn [bind concat_parts].
  pose proof (load_key_sub k kb 0 shared_len Hh) as Hl.
  rewrite keyptr_add_0 in Hl. rewrite Hl by lia. cbn [bind Z.to_nat skipn].
  cbn [load_key].
  assert (Ls : forall bs, load (ptr_to bs) (Z.of_nat (length bs)) = Ok bs)
    by (intros bs; apply (slice_bytes_Slice_of bs)).
  rewrite !Ls. cbn [bind]. rewrite app_nil_r.
  destruct (SetKey_result uninit k kb
              (firstn (Z.to_nat shared_len) kb ++ sfx
               ++ repeat Byte.x00 (Z.to_nat ts_sz)) Hh)
    as (k' & E & Hh' & Hp' & Hiu').
  { unfold addressable.
    rewrite !length_app, length_firstn, repeat_length. lia. }
  exists k'. split; [exact E|]. split; [exact Hh'|].
  split; [exact Hp'|]. unfold IsUserKey in *. congruence.
Qed.

Lemma TrimAppendWithTimestamp_user_key_witness :
  holds (set_is_user_key_ iter_key_foo_7 true) key_foo_7_value
  /\ exists k',
      TrimAppendWithTimestamp false zeroed
        (set_is_user_key_ iter_key_foo_7 true) 2
        (ptr_to (bytes_of_Zs [120])) 1 4 = Ok k'
      /\ holds k' (bytes_of_Zs [102; 111; 120; 0; 0; 0; 0]).
Proof.
  assert (H : holds (set_is_user_key_ iter_key_foo_7 true) key_foo_7_value).
  { unfold holds. vm_compute. split; [reflexivity|].
    split; [reflexivity|]. split; [reflexivity|]. split; [reflexivity|].
    discriminate. }
  split; [exact H|].
  destruct (TrimAppendWithTimestamp_user_key false zeroed
              (set_is_user_key_ iter_key_foo_7 true) key_foo_7_value 2
              (bytes_of_Zs [120]) 4 H)
    as (k' & E & Hh & _).
  - reflexivity.
  - vm_compute. split; discriminate.
  - lia.
  - vm_compute. reflexivity.
  - exists k'. split; [exact E|exact Hh].
Defined.

(** X25.  What the accessors read from a builder that holds [kb].  In
    user-key mode [GetUserKey] reads all of [kb] and the assertion of
    [GetInternalKey] fails; in internal-key mode [GetInternalKey] reads all
    of [kb] and [GetUserKey] reads [kb] without its last 8 bytes, and fails
    its assertion when [kb] is shorter than that.  [SetIsUserKey] switches
    the mode and [Clear] empties the key; neither touches the buffer. *)
Theorem GetUserKey_strips_footer_in_internal_mode (NDEBUG : bool)
    (k : IterKey) (kb : list byte) :
  holds k kb ->
  addressable kb ->
  keyslice_reads k (GetUserKey NDEBUG (SetIsUserKey k true)) kb
  /\ GetInternalKey false (SetIsUserKey k true) = AssertionFailure
  /\ keyslice_reads k (GetInternalKey NDEBUG (SetIsUserKey k false)) kb
  /\ ((8 <= length kb)%nat ->
      keyslice_reads k (GetUserKey NDEBUG (SetIsUserKey k false))
                     (user_key_bytes kb))
  /\ ((length kb < 8)%nat ->
      GetUserKey false (SetIsUserKey k false) = AssertionFailure)
  /\ (forall b, holds (SetIsUserKey k b) kb
                /\ buf_mem (SetIsUserKey k b) = buf_mem k)
  /\ holds (IterKey_Clear k) []
  /\ Size k = Z.of_nat (length kb)
  /\ Size (IterKey_Clear k) = 0
  /\ buf_ (IterKey_Clear k) = buf_ k
  /\ buf_mem (IterKey_Clear k) = buf_mem k.
Proof.
  intros Hh Ha. pose proof Hh as (Hkb & Hks & Hbs & Hlt & Hpin).
  unfold addressable in Ha. unfold key_bytes in Hkb.
  split.
  { unfold keyslice_reads, GetUserKey, SetIsUserKey, IsUserKey.
    cbn [is_user_key_ key_ key_size_ set_is_user_key_].
    eexists. eexists. split; [reflexivity|exact Hkb]. }
  split; [reflexivity|].
  split.
  { unfold keyslice_reads, GetInternalKey, SetIsUserKey, IsUserKey.
    cbn [is_user_key_ key_ key_size_ set_is_user_key_ negb].
    rewrite assert_true by reflexivity. cbn [bind].
    eexists. eexists. split; [reflexivity|exact Hkb]. }
  split.
  { intros Hlen.
    unfold keyslice_reads, GetUserKey, SetIsUserKey, IsUserKey.
    cbn [is_user_key_ key_ key_size_ set_is_user_key_].
    rewrite assert_true
      by (apply Z.geb_le; unfold kNumInternalBytes; lia).
    cbn [bind]. rewrite wrap64_small by (unfold kNumInternalBytes; lia).
    eexists. eexists. split; [reflexivity|].
    rewrite (load_key_prefix _ _ _ _ _ Hkb)
      by (unfold kNumInternalBytes; lia).
    f_equal. unfold user_key_bytes. f_equal.
    unfold kNumInternalBytes. lia. }
  split.
  { intros Hlen. unfold GetUserKey, SetIsUserKey, IsUserKey, assert_.
    cbn [is_user_key_ key_ key_size_ set_is_user_key_].
    replace (key_size_ k >=? kNumInternalBytes) with false; [reflexivity|].
    symmetry. rewrite Z.geb_leb. apply Z.leb_gt.
    unfold kNumInternalBytes. lia. }
  split.
  { intros b. split; [exact Hh|reflexivity]. }
  split.
  { unfold holds, IterKey_Clear, key_bytes.
    cbn [key_ key_size_ buf_size_ set_key_size_].
    rewrite load_key_zero.
    split; [reflexivity|]. split; [reflexivity|].
    split; [exact Hbs|]. split; [exact Hlt|exact Hpin]. }
  split; [exact Hks|]. split; [reflexivity|].
  split; reflexivity.
Qed.

Lemma GetUserKey_strips_footer_in_internal_mode_witness :
  holds iter_key_foo_7 key_foo_7_value
  /\ keyslice_reads iter_key_foo_7
       (GetUserKey false (SetIsUserKey iter_key_foo_7 false))
       (bytes_of_Zs [102; 111; 111]).
Proof.
  assert (H : holds iter_key_foo_7 key_foo_7_value).
  { unfold holds. vm_compute. split; [reflexivity|].
    split; [reflexivity|]. split; [reflexivity|]. split; [reflexivity|].
    discriminate. }
  split; [exact H|].
  destruct (GetUserKey_strips_footer_in_internal_mode false iter_key_foo_7
              key_foo_7_value H)
    as (_ & _ & _ & Hu & _).
  - vm_compute. reflexivity.
  - apply Hu. vm_compute. lia.
Defined.

(** ** Lengths *)

(** X26.  [InternalKeyEncodingLength] is the length of the encoding: the
    parsed form of a key of [n] bytes has encoding length [n], and
    [AppendInternalKey] appends exactly [InternalKeyEncodingLength(key)]
    bytes. *)
Theorem InternalKeyEncodingLength_is_encoded_length (NDEBUG : bool)
    (bytes out : list byte) (result : ParsedInternalKey)
    (log_err_key : bool) :
  addressable bytes -> (8 <= length bytes)%nat ->
  IsExtendedValueType (tag_of bytes) = true ->
  exists parsed r,
    ParseInternalKey NDEBUG (Slice_of bytes) result log_err_key
    = Ok (StatusOK, parsed)
    /\ InternalKeyEncodingLength parsed = Z.of_nat (length bytes)
    /\ AppendInternalKey NDEBUG out parsed = Ok r
    /\ Z.of_nat (length r)
       = Z.of_nat (length out) + InternalKeyEncodingLength parsed.
Proof.
  intros Ha Hl Hx.
  pose proof (ParseInternalKey_extended NDEBUG bytes result log_err_key
                Ha Hl Hx) as Hp.
  pose proof (footer_of_range bytes) as Hf.
  assert (Hseq : 0 <= seq_of bytes <= kMaxSequenceNumber).
  { unfold seq_of. rewrite kMaxSequenceNumber_value, Z.shiftr_div_pow2 by lia.
    split; [apply Z.div_pos; lia|].
    assert (footer_of bytes / 2 ^ 8 < 2 ^ 56); [|lia].
    apply Z.div_lt_upper_bound; [lia|].
    change (2 ^ 8 * 2 ^ 56) with (2 ^ 64). lia. }
  assert (Hlen : InternalKeyEncodingLength
                   (mkParsedInternalKey
                      (mkSlice (ptr_to bytes) (Z.of_nat (length bytes) - 8))
                      (seq_of bytes) (tag_of bytes))
                 = Z.of_nat (length bytes)).
  { unfold InternalKeyEncodingLength, kNumInternalBytes.
    cbn [user_key size_]. unfold addressable in Ha.
    rewrite wrap64_small by lia. lia. }
  eexists. eexists.
  split; [exact Hp|]. split; [exact Hlen|].
  split.
  { apply (AppendInternalKey_slice NDEBUG out _ (user_key_bytes bytes)).
    - unfold slice_bytes. cbn [data_ size_]. apply load_user_key. exact Hl.
    - exact Hseq.
    - apply land_ff_range.
    - exact Hx. }
  rewrite Hlen, length_app, encode_length.
  unfold user_key_bytes. rewrite length_firstn. lia.
Qed.

Lemma InternalKeyEncodingLength_is_encoded_length_witness :
  addressable key_foo_7_value
  /\ exists parsed,
      ParseInternalKey false (Slice_of key_foo_7_value) empty_parsed_key false
      = Ok (StatusOK, parsed)
      /\ InternalKeyEncodingLength parsed = 11.
Proof.
  assert (H : addressable key_foo_7_value) by (vm_compute; reflexivity).
  split; [exact H|].
  destruct (InternalKeyEncodingLength_is_encoded_length false
              key_foo_7_value [] empty_parsed_key false H)
    as (parsed & r & E & Hlen & _).
  - vm_compute. lia.
  - vm_compute. reflexivity.
  - exists parsed. split; [exact E|exact Hlen].
Defined.

(** X27.  A new key builder holds the empty key in user-key mode, in its
    inline buffer of 39 bytes.  The first key copied into it stays in the
    inline buffer when it has at most 39 bytes, and goes to the first heap
    block, of exactly its length, when it is longer. *)
Theorem IterKey_new_keeps_short_keys_inline (uninit : nat -> byte)
    (kw : list byte) :
  addressable kw ->
  holds (IterKey_new uninit) []
  /\ IsUserKey (IterKey_new uninit) = true
  /\ IsKeyPinned (IterKey_new uninit) = false
  /\ exists k',
      SetKey uninit (IterKey_new uninit) (Slice_of kw) true
      = Ok (k', (Own (buf_ k') 0, Z.of_nat (length kw)))
      /\ holds k' kw
      /\ ((length kw <= 39)%nat -> buf_ k' = Space /\ buf_size_ k' = 39)
      /\ ((39 < length kw)%nat ->
          buf_ k' = Heap 0 /\ buf_size_ k' = Z.of_nat (length kw)).
Proof.
  intros Ha.
  assert (Hbs : buf_size_ (IterKey_new uninit)
                = Z.of_nat (length (buf_mem (IterKey_new uninit)))).
  { unfold IterKey_new, buf_mem. cbn [buf_ buf_size_ space_].
    rewrite uninit_bytes_length. reflexivity. }
  assert (Hlt : buf_size_ (IterKey_new uninit) < 2 ^ 64) by reflexivity.
  split.
  { unfold holds. split; [reflexivity|]. split; [reflexivity|].
    split; [exact Hbs|]. split; [exact Hlt|].
    unfold IsKeyPinned. cbn. discriminate. }
  split; [reflexivity|]. split; [reflexivity|].
  destruct (SetKey_copy_holds uninit (IterKey_new uninit) kw Hbs Hlt Ha)
    as (k' & s & E & Hh & _).
  pose proof E as E'. unfold SetKey in E'.
  destruct (SetKeyImpl_copy_alloc _ _ _ _ _ E') as (Hs & Hfit & Hgrow).
  cbn [size_ Slice_of] in Hs, Hfit, Hgrow. subst s.
  change (buf_size_ (IterKey_new uninit)) with 39 in Hfit, Hgrow.
  change (buf_ (IterKey_new uninit)) with Space in Hfit.
  change (next_id (IterKey_new uninit)) with 0%nat in Hgrow.
  exists k'. split; [exact E|]. split; [exact Hh|].
  split.
  - intros Hle. destruct Hfit as (F1 & F2 & _); [lia|]. auto.
  - intros Hgt. destruct Hgrow as (G1 & G2 & _); [lia|]. auto.
Qed.

Lemma IterKey_new_keeps_short_keys_inline_witness :
  addressable key_20
  /\ exists k',
      SetKey zeroed (IterKey_new zeroed) (Slice_of key_20) true
      = Ok (k', (Own (buf_ k') 0, 20))
      /\ buf_ k' = Space.
Proof.
  assert (H : addressable key_20) by (vm_compute; reflexivity).
  split; [exact H|].
  destruct (IterKey_new_keeps_short_keys_inline zeroed key_20 H)
    as (_ & _ & _ & k' & E & _ & Hin & _).
  exists k'. split; [exact E|]. apply Hin. vm_compute. lia.
Defined.
